(** * The operating-system layer of the compiler ([src/os.cpp])

    A shallow embedding of the four entry points of [os.cpp] and of the
    helper [read_all_fd], followed by the properties we establish about
    them.

    - [os_path_split] is pure: it is embedded as a function on byte
      buffers, with [int] indices as [Z] and every memory access checked
      against the bounds of the buffer it reads.
    - [os_write_file], [os_exec_process], [os_spawn_process] and
      [read_all_fd] talk to the kernel.  They are embedded in a small
      state-and-outcome monad over a [world]: the descriptor table of the
      calling process, the pipes and files of the kernel, the children
      of the caller, and a log of the system calls made so far. *)

From Stdlib Require Import ZArith Lia List String.
From Stdlib.Strings Require Import Byte.
From stdpp Require Import base option list gmap strings.

Open Scope Z_scope.

(* ================================================================= *)
(** ** Byte buffers ([buffer.hpp]) *)

(** Modelled from the spec: [Buf], the "growable byte buffer" of
    [buffer.hpp], which is not among the sources.  A buffer is the list
    of its payload bytes; the terminating NUL that the C structure keeps
    after the payload is left out. *)
Abbreviation Buf := (list byte).

(** Modelled from the spec: [buf_len] of [buffer.hpp], the number of
    payload bytes, an [int]. *)
Definition buf_len (b : Buf) : Z := Z.of_nat (length b).

Definition bytes (s : string) : Buf := list_byte_of_string s.

(** Modelled from the spec: [buf_ptr(b)[i]] with [buf_ptr] of
    [buffer.hpp], a read of the [i]-th payload byte.  [None] stands for
    a read outside the payload. *)
Definition buf_at (b : Buf) (i : Z) : option byte :=
  if (0 <=? i) && (i <? buf_len b) then b !! Z.to_nat i else None.

(** Modelled from the spec: [buf_init_from_mem] of [buffer.hpp], called
    as [buf_init_from_mem(out, buf_ptr(src) + off, len)].  The result is
    an "owned copy carved from" [src]: [len] bytes from offset [off];
    [None] when the copied range leaves the payload of [src]. *)
Definition buf_init_from_mem (src : Buf) (off len : Z) : option Buf :=
  if (0 <=? off) && (0 <=? len) && (off + len <=? buf_len src)
  then Some (take (Z.to_nat len) (drop (Z.to_nat off) src))
  else None.

(** Modelled from the spec: [buf_init_from_buf] of [buffer.hpp], an
    owned copy of [src]. *)
Definition buf_init_from_buf (src : Buf) : Buf := src.

(** Modelled from the spec: [buf_resize] of [buffer.hpp], which sizes a
    buffer to [new_len] bytes.  The first [new_len] bytes are kept; when
    the buffer grows, the new positions hold whatever the allocator left
    there, given by [junk] (indexed by position). *)
Definition buf_resize (junk : nat -> byte) (b : Buf) (new_len : Z) : Buf :=
  let n := Z.to_nat new_len in
  take n b ++ map junk (seq (length b) (n - length b)).

(** The effect on [b] of a [read(fd, buf_ptr(b), ...)] that delivered
    [data]: the bytes land at offset 0 of the buffer. *)
Definition buf_store (b : Buf) (data : list byte) : Buf :=
  data ++ drop (length data) b.

(** [buf_ptr(b)] handed to the kernel as a C string: the bytes before the
    first NUL. *)
Fixpoint c_str_bytes (b : Buf) : list byte :=
  match b with
  | [] => []
  | c :: rest => if Byte.eqb c x00 then [] else c :: c_str_bytes rest
  end.

Definition c_str (b : Buf) : string := string_of_list_byte (c_str_bytes b).

(* ================================================================= *)
(** ** [os_path_split] *)

Definition sep : byte := "/"%byte.

(** The loop [for (int i = last_index; i >= 0; i -= 1)] together with the
    two statements after it.  [fuel] bounds the number of iterations. *)
Fixpoint split_scan (full_path : Buf) (fuel : nat) (i : Z) : option (Buf * Buf) :=
  if i <? 0 then
    out_dirname ← buf_init_from_mem (bytes ".") 0 1;
    Some (out_dirname, buf_init_from_buf full_path)
  else
    match fuel with
    | O => None
    | S fuel' =>
        c ← buf_at full_path i;
        if Byte.eqb c sep then
          out_dirname ← buf_init_from_mem full_path 0 i;
          out_basename ←
            buf_init_from_mem full_path (i + 1) (buf_len full_path - (i + 1));
          Some (out_dirname, out_basename)
        else split_scan full_path fuel' (i - 1)
    end.

(** [os_path_split(full_path, out_dirname, out_basename)]; the result is
    the pair [(out_dirname, out_basename)].  The indices are [int] in the
    source; they stay between -1 and [buf_len full_path], itself an
    [int], so no operation on them wraps around. *)
Definition os_path_split (full_path : Buf) : option (Buf * Buf) :=
  let last_index := buf_len full_path - 1 in
  trailing ← (if 0 <=? last_index
              then c ← buf_at full_path last_index; Some (Byte.eqb c sep)
              else Some false);
  let last_index := if (trailing : bool) then last_index - 1 else last_index in
  split_scan full_path (length full_path) last_index.

(** [dirname + "/" + basename]. *)
Definition rejoin (parts : Buf * Buf) : Buf := parts.1 ++ sep :: parts.2.

(** Does the path end in a separator? *)
Definition trailing_sep (p : Buf) : bool :=
  match last p with
  | Some c => Byte.eqb c sep
  | None => false
  end.

(* ================================================================= *)
(** ** The kernel as seen by one process *)

Inductive pipe_end := ReadEnd | WriteEnd.

(** What a descriptor refers to. *)
Inductive fobj :=
| FPipe (id : nat) (e : pipe_end)
| FFile (path : string) (pos : nat)
| FTty.

Record file := mkFile { f_mode : Z; f_data : list byte }.

(** How a process ends. *)
Inductive term := Exited (code : Z) | Signaled (sig : Z).

(** What a program does once it runs: it writes to descriptors and then
    terminates, or it stays forever ([Hang]). *)
Inductive act :=
| Put (fd : Z) (bs : list byte)
| Hang.

Record program := mkProgram { prog_script : list act; prog_term : term }.

(** A child of the calling process.  [c_live] is cleared when the child
    has terminated and waits to be reaped. *)
Record child := mkChild {
  c_pid : Z;
  c_fds : gmap Z fobj;
  c_todo : list act;
  c_term : term;
  c_live : bool
}.

(** What the environment does to the next system call: nothing, make it
    fail, or (for a write to a file) accept only [n] bytes. *)
Inductive fault := NoFault | Fault | Partial (n : nat).

(** One entry of the system-call log: the call and what it returned. *)
Inductive syscall :=
| EPipe (ret rd wr : Z)
| EFork (ret : Z)
| EDup2 (oldfd newfd ret : Z)
| EExecvp (exe : string) (argv : list string) (ret : Z)
| ESetsid (ret : Z)
| EClose (fd ret : Z)
| EWaitpid (pid ret status : Z)
| ERead (fd len ret : Z)
| EOpen (path : string) (flags mode ret : Z)
| EWrite (fd : Z) (data : list byte) (ret : Z).

Record world := mkWorld {
  w_fds : gmap Z fobj;             (* descriptor table of the caller *)
  w_pipes : list (list byte);      (* bytes buffered in each pipe *)
  w_files : gmap string file;      (* the file system *)
  w_procs : list child;            (* children of the caller *)
  w_next_pid : Z;
  w_plan : list fault;             (* faults awaiting the caller's calls *)
  w_fork_plan : list fault;        (* faults awaiting a forked child's calls *)
  w_log : list syscall;            (* calls made by the caller, oldest first *)
  w_pipe_cap : nat;                (* capacity of a pipe, in bytes *)
  w_umask : Z;
  w_programs : string -> list string -> option program;
  w_junk : nat -> byte             (* contents of fresh heap storage *)
}.

Definition set_fds (f : gmap Z fobj) (w : world) : world :=
  mkWorld f (w_pipes w) (w_files w) (w_procs w) (w_next_pid w) (w_plan w)
    (w_fork_plan w) (w_log w) (w_pipe_cap w) (w_umask w) (w_programs w) (w_junk w).

Definition set_pipes (p : list (list byte)) (w : world) : world :=
  mkWorld (w_fds w) p (w_files w) (w_procs w) (w_next_pid w) (w_plan w)
    (w_fork_plan w) (w_log w) (w_pipe_cap w) (w_umask w) (w_programs w) (w_junk w).

Definition set_files (f : gmap string file) (w : world) : world :=
  mkWorld (w_fds w) (w_pipes w) f (w_procs w) (w_next_pid w) (w_plan w)
    (w_fork_plan w) (w_log w) (w_pipe_cap w) (w_umask w) (w_programs w) (w_junk w).

Definition set_procs (p : list child) (w : world) : world :=
  mkWorld (w_fds w) (w_pipes w) (w_files w) p (w_next_pid w) (w_plan w)
    (w_fork_plan w) (w_log w) (w_pipe_cap w) (w_umask w) (w_programs w) (w_junk w).

Definition set_next_pid (n : Z) (w : world) : world :=
  mkWorld (w_fds w) (w_pipes w) (w_files w) (w_procs w) n (w_plan w)
    (w_fork_plan w) (w_log w) (w_pipe_cap w) (w_umask w) (w_programs w) (w_junk w).

Definition set_plan (p : list fault) (w : world) : world :=
  mkWorld (w_fds w) (w_pipes w) (w_files w) (w_procs w) (w_next_pid w) p
    (w_fork_plan w) (w_log w) (w_pipe_cap w) (w_umask w) (w_programs w) (w_junk w).

Definition set_log (l : list syscall) (w : world) : world :=
  mkWorld (w_fds w) (w_pipes w) (w_files w) (w_procs w) (w_next_pid w) (w_plan w)
    (w_fork_plan w) l (w_pipe_cap w) (w_umask w) (w_programs w) (w_junk w).

Definition log (e : syscall) (w : world) : world := set_log (w_log w ++ [e]) w.

(** Every system call starts by taking the next entry of the plan; an
    exhausted plan means no fault. *)
Definition next_fault (w : world) : fault * world :=
  (hd NoFault (w_plan w), set_plan (tl (w_plan w)) w).

Definition is_fault (f : fault) : bool :=
  match f with Fault => true | _ => false end.

(* ----------------------------------------------------------------- *)
(** *** Outcomes of a call into the layer *)

(** A call returns to its caller, or ends the process with a diagnostic
    ([zig_panic]), or stays in a system call forever, or has its process
    image replaced by [execvp].  [OutOfFuel] is an artefact of the
    embedding: the loop budget of [read_all_fd] was too small. *)
Inductive outcome (A : Type) : Type :=
| Returns (a : A) (w : world)
| Panics (msg : string) (w : world)
| Blocks (w : world)
| Replaced (exe : string) (argv : list string) (w : world)
| OutOfFuel (w : world).

Arguments Returns {A} a w.
Arguments Panics {A} msg w.
Arguments Blocks {A} w.
Arguments Replaced {A} exe argv w.
Arguments OutOfFuel {A} w.

Definition M (A : Type) : Type := world -> outcome A.

Definition ret {A} (a : A) : M A := fun w => Returns a w.

Definition bind {A B} (c : M A) (k : A -> M B) : M B := fun w =>
  match c w with
  | Returns a w' => k a w'
  | Panics msg w' => Panics msg w'
  | Blocks w' => Blocks w'
  | Replaced exe argv w' => Replaced exe argv w'
  | OutOfFuel w' => OutOfFuel w'
  end.

Notation "'do' x <- c ; k" := (bind c (fun x => k))
  (at level 10, x pattern, c at level 100, k at level 200).

(** Modelled from the spec: [zig_panic] of [util.hpp], which is not
    among the sources.  A failure "propagates by terminating the running
    process with a diagnostic message"; the call does not return.  The
    diagnostic kept here is the format string. *)
Definition zig_panic {A} (msg : string) : M A := fun w => Panics msg w.

Definition returned {A} (o : outcome A) : option A :=
  match o with
  | Returns a _ => Some a
  | _ => None
  end.

Definition final_world {A} (o : outcome A) : world :=
  match o with
  | Returns _ w | Panics _ w | Blocks w | Replaced _ _ w | OutOfFuel w => w
  end.

Definition is_returns {A} (o : outcome A) : bool :=
  match o with Returns _ _ => true | _ => false end.


Definition panic_of {A} (o : outcome A) : option string :=
  match o with
  | Panics msg _ => Some msg
  | _ => None
  end.

(* ----------------------------------------------------------------- *)
(** *** Constants of the C library headers *)

Definition STDIN_FILENO : Z := 0.
Definition STDOUT_FILENO : Z := 1.
Definition STDERR_FILENO : Z := 2.
Definition O_WRONLY : Z := 1.
Definition O_CREAT : Z := 64.
Definition O_TRUNC : Z := 512.
Definition O_CLOEXEC : Z := 524288.
Definition S_IRWXU : Z := 448.
Definition SIGABRT : Z := 6.

Definition has_flag (flags flag : Z) : bool := negb (Z.land flags flag =? 0).

(** The status word that [waitpid] stores, and the macros of
    [<sys/wait.h>] that decode it. *)
Definition wait_status (t : term) : Z :=
  match t with
  | Exited code => Z.shiftl (Z.land code 255) 8
  | Signaled sig => Z.land sig 127
  end.

Definition WIFEXITED (status : Z) : bool := Z.land status 127 =? 0.

Definition WEXITSTATUS (status : Z) : Z := Z.shiftr (Z.land status 65280) 8.

(* ----------------------------------------------------------------- *)
(** *** Descriptors *)

(** The lowest descriptor not in use, searched from [n] upwards. *)
Fixpoint first_free (fds : gmap Z fobj) (fuel : nat) (n : Z) : option Z :=
  match fuel with
  | O => None
  | S fuel' =>
      match fds !! n with
      | None => Some n
      | Some _ => first_free fds fuel' (n + 1)
      end
  end.

Definition alloc_fd (fds : gmap Z fobj) : option Z :=
  first_free fds (S (size fds)) 0.

Definition is_write_end (id : nat) (o : fobj) : bool :=
  match o with
  | FPipe id' WriteEnd => Nat.eqb id id'
  | _ => false
  end.

Definition holds_write_end (id : nat) (fds : gmap Z fobj) : bool :=
  existsb (fun kv => is_write_end id kv.2) (map_to_list fds).

(** Is the write end of pipe [id] open anywhere: in the caller, or in a
    child that still runs? *)
Definition has_writer (id : nat) (w : world) : bool :=
  holds_write_end id (w_fds w) ||
  existsb (fun c => c_live c && holds_write_end id (c_fds c)) (w_procs w).

(* ----------------------------------------------------------------- *)
(** *** Children *)

(** A child runs whenever it can: when it is forked, and again whenever
    a read of its parent makes room in a pipe.  The children modelled
    here only write, so nothing else can let a blocked child go on.
    [child_run] carries out the script of a child as far as the pipes
    allow: a write to a pipe transfers what fits and, if something is
    left, the child stays blocked in that write.  The result is what
    remains to be done and the new contents of the pipes. *)
Fixpoint child_run (cfds : gmap Z fobj) (cap : nat) (todo : list act)
    (pipes : list (list byte)) : list act * list (list byte) :=
  match todo with
  | [] => ([], pipes)
  | Hang :: _ => (todo, pipes)
  | Put fd bs :: rest =>
      match cfds !! fd with
      | Some (FPipe id WriteEnd) =>
          match pipes !! id with
          | Some q =>
              let room := (cap - length q)%nat in
              if (length bs <=? room)%nat
              then child_run cfds cap rest (<[id := q ++ bs]> pipes)
              else (Put fd (drop room bs) :: rest,
                    <[id := q ++ take room bs]> pipes)
          | None => child_run cfds cap rest pipes
          end
      | _ => child_run cfds cap rest pipes
      end
  end.

(** A child that finishes its script terminates; its descriptors are
    closed by the kernel. *)
Definition advance (cap : nat) (c : child) (pipes : list (list byte))
    : child * list (list byte) :=
  if c_live c then
    let '(todo, pipes') := child_run (c_fds c) cap (c_todo c) pipes in
    match todo with
    | [] => (mkChild (c_pid c) ∅ [] (c_term c) false, pipes')
    | _ => (mkChild (c_pid c) (c_fds c) todo (c_term c) true, pipes')
    end
  else (c, pipes).

Fixpoint advance_list (cap : nat) (cs : list child) (pipes : list (list byte))
    : list child * list (list byte) :=
  match cs with
  | [] => ([], pipes)
  | c :: rest =>
      let '(c', pipes1) := advance cap c pipes in
      let '(rest', pipes2) := advance_list cap rest pipes1 in
      (c' :: rest', pipes2)
  end.

Definition advance_all (w : world) : world :=
  let '(cs, pipes) := advance_list (w_pipe_cap w) (w_procs w) (w_pipes w) in
  set_procs cs (set_pipes pipes w).

Fixpoint find_child (pid : Z) (cs : list child) : option child :=
  match cs with
  | [] => None
  | c :: rest => if c_pid c =? pid then Some c else find_child pid rest
  end.

Fixpoint remove_child (pid : Z) (cs : list child) : list child :=
  match cs with
  | [] => []
  | c :: rest => if c_pid c =? pid then rest else c :: remove_child pid rest
  end.

(* ----------------------------------------------------------------- *)
(** *** System calls *)

(** [pipe(fds)]: the result is [(err, (fds[0], fds[1]))]. *)
Definition sys_pipe : M (Z * (Z * Z)) := fun w =>
  let '(f, w) := next_fault w in
  if is_fault f then Returns (-1, (0, 0)) (log (EPipe (-1) 0 0) w)
  else
    match alloc_fd (w_fds w) with
    | None => Returns (-1, (0, 0)) (log (EPipe (-1) 0 0) w)
    | Some rd =>
        let id := length (w_pipes w) in
        let fds1 := <[rd := FPipe id ReadEnd]> (w_fds w) in
        match alloc_fd fds1 with
        | None => Returns (-1, (0, 0)) (log (EPipe (-1) 0 0) w)
        | Some wr =>
            Returns (0, (rd, wr))
              (log (EPipe 0 rd wr)
                 (set_fds (<[wr := FPipe id WriteEnd]> fds1)
                    (set_pipes (w_pipes w ++ [[]]) w)))
        end
    end.

(** [close(fd)]: an open descriptor is released even when the call
    reports an error. *)
Definition sys_close (fd : Z) : M Z := fun w =>
  let '(f, w) := next_fault w in
  match w_fds w !! fd with
  | None => Returns (-1) (log (EClose fd (-1)) w)
  | Some _ =>
      let r := if is_fault f then -1 else 0 in
      Returns r (log (EClose fd r) (set_fds (delete fd (w_fds w)) w))
  end.

Definition sys_dup2 (oldfd newfd : Z) : M Z := fun w =>
  let '(f, w) := next_fault w in
  match w_fds w !! oldfd with
  | Some o =>
      if is_fault f || (newfd <? 0)
      then Returns (-1) (log (EDup2 oldfd newfd (-1)) w)
      else Returns newfd
             (log (EDup2 oldfd newfd newfd)
                (set_fds (<[newfd := o]> (w_fds w)) w))
  | None => Returns (-1) (log (EDup2 oldfd newfd (-1)) w)
  end.

Definition sys_setsid : M Z := fun w =>
  let '(f, w) := next_fault w in
  let r := if is_fault f then -1 else 0 in
  Returns r (log (ESetsid r) w).

(** [execvp(exe, argv)] returns only when it fails. *)
Definition sys_execvp (exe : string) (argv : list string) : M Z := fun w =>
  let '(f, w) := next_fault w in
  match w_programs w exe argv with
  | Some _ =>
      if is_fault f then Returns (-1) (log (EExecvp exe argv (-1)) w)
      else Replaced exe argv (log (EExecvp exe argv 0) w)
  | None => Returns (-1) (log (EExecvp exe argv (-1)) w)
  end.

(** The world as the child sees it right after [fork]: the same
    descriptors and kernel objects, no children of its own. *)
Definition child_view (w : world) : world :=
  set_log [] (set_plan (w_fork_plan w) (set_procs [] w)).

(** What becomes of the child, from the outcome of the code it runs
    after [fork].  A child that panics writes the diagnostic to its
    standard error and is killed by [abort]. *)
Definition spawn {A} (pid : Z) (o : outcome A) (w : world) : child :=
  match o with
  | Replaced exe argv cw =>
      match w_programs w exe argv with
      | Some p => mkChild pid (w_fds cw) (prog_script p) (prog_term p) true
      | None => mkChild pid (w_fds cw) [Hang] (Exited 0) true
      end
  | Panics msg cw =>
      mkChild pid (w_fds cw) [Put STDERR_FILENO (bytes msg)] (Signaled SIGABRT) true
  | Returns _ cw | Blocks cw | OutOfFuel cw =>
      mkChild pid (w_fds cw) [Hang] (Exited 0) true
  end.

(** [fork()] returns twice.  [k] is the code that follows the call: it
    is run with 0 in the child, which decides what the child becomes,
    and with the child's pid (or -1) in the caller. *)
Definition sys_fork {A} (k : Z -> M A) : M A := fun w =>
  let '(f, w) := next_fault w in
  if is_fault f then k (-1) (log (EFork (-1)) w)
  else
    let pid := w_next_pid w in
    let c := spawn pid (k 0 (child_view w)) w in
    k pid (advance_all
             (log (EFork pid)
                (set_next_pid (pid + 1) (set_procs (w_procs w ++ [c]) w)))).

(** [waitpid(pid, &status, 0)]: the result is [(ret, status)].  A child
    that still runs cannot make progress while its parent is suspended
    here (see [child_run]), so the call never returns. *)
Definition sys_waitpid (pid : Z) (status : Z) : M (Z * Z) := fun w =>
  let '(f, w) := next_fault w in
  if is_fault f then Returns (-1, status) (log (EWaitpid pid (-1) status) w)
  else
    match find_child pid (w_procs w) with
    | None => Returns (-1, status) (log (EWaitpid pid (-1) status) w)
    | Some c =>
        if c_live c then Blocks w
        else
          let st := wait_status (c_term c) in
          Returns (pid, st)
            (log (EWaitpid pid pid st)
               (set_procs (remove_child pid (w_procs w)) w))
    end.

(** [read(fd, buf, len)]: the result is [(ret, data)].  On an empty pipe
    the call reports end of stream only when no write end is open. *)
Definition sys_read (fd : Z) (len : Z) : M (Z * list byte) := fun w =>
  let '(f, w) := next_fault w in
  if is_fault f then Returns (-1, []) (log (ERead fd len (-1)) w)
  else
    match w_fds w !! fd with
    | Some (FPipe id ReadEnd) =>
        match w_pipes w !! id with
        | Some q =>
            let data := take (Z.to_nat len) q in
            match data with
            | [] =>
                if len <=? 0 then Returns (0, []) (log (ERead fd len 0) w)
                else if has_writer id w then Blocks w
                else Returns (0, []) (log (ERead fd len 0) w)
            | _ =>
                Returns (buf_len data, data)
                  (log (ERead fd len (buf_len data))
                     (advance_all
                        (set_pipes (<[id := drop (Z.to_nat len) q]> (w_pipes w)) w)))
            end
        | None => Returns (-1, []) (log (ERead fd len (-1)) w)
        end
    | Some FTty => Returns (0, []) (log (ERead fd len 0) w)
    | _ => Returns (-1, []) (log (ERead fd len (-1)) w)
    end.

Definition sys_open (path : string) (flags mode : Z) : M Z := fun w =>
  let '(f, w) := next_fault w in
  if is_fault f then Returns (-1) (log (EOpen path flags mode (-1)) w)
  else
    let existing := w_files w !! path in
    match existing, has_flag flags O_CREAT, alloc_fd (w_fds w) with
    | None, false, _ | _, _, None =>
        Returns (-1) (log (EOpen path flags mode (-1)) w)
    | _, _, Some fd =>
        let fl :=
          match existing with
          | Some fl0 =>
              if has_flag flags O_TRUNC then mkFile (f_mode fl0) [] else fl0
          | None => mkFile (Z.land mode (Z.lnot (w_umask w))) []
          end in
        Returns fd
          (log (EOpen path flags mode fd)
             (set_fds (<[fd := FFile path 0]> (w_fds w))
                (set_files (<[path := fl]> (w_files w)) w)))
    end.

Definition sys_write (fd : Z) (data : list byte) : M Z := fun w =>
  let '(f, w) := next_fault w in
  match f, w_fds w !! fd with
  | Fault, _ | _, None | _, Some (FPipe _ ReadEnd) =>
      Returns (-1) (log (EWrite fd data (-1)) w)
  | _, Some FTty =>
      Returns (buf_len data) (log (EWrite fd data (buf_len data)) w)
  | _, Some (FPipe id WriteEnd) =>
      match w_pipes w !! id with
      | None => Returns (-1) (log (EWrite fd data (-1)) w)
      | Some q =>
          let room := (w_pipe_cap w - length q)%nat in
          if (room =? 0)%nat && negb (length data =? 0)%nat then Blocks w
          else
            let chunk := take room data in
            Returns (buf_len chunk)
              (log (EWrite fd data (buf_len chunk))
                 (set_pipes (<[id := q ++ chunk]> (w_pipes w)) w))
      end
  | _, Some (FFile path pos) =>
      match w_files w !! path with
      | None => Returns (-1) (log (EWrite fd data (-1)) w)
      | Some fl =>
          let chunk := match f with Partial n => take n data | _ => data end in
          let content :=
            take pos (f_data fl) ++ chunk
              ++ drop (pos + length chunk) (f_data fl) in
          Returns (buf_len chunk)
            (log (EWrite fd data (buf_len chunk))
               (set_fds (<[fd := FFile path (pos + length chunk)]> (w_fds w))
                  (set_files (<[path := mkFile (f_mode fl) content]> (w_files w)) w)))
      end
  end.

(* ================================================================= *)
(** ** [os.cpp] *)

(** [argv[0] = exe; argv[i + 1] = args.at(i)]; the terminating null
    pointer is implicit in the list. *)
Definition make_argv (exe : string) (args : list string) : list string :=
  exe :: args.

(** The code of [os_spawn_process] that runs in the child ([pid == 0]). *)
Definition os_spawn_process_child (exe : string) (args : list string)
    (detached : bool) : M unit :=
  do _ <- (if detached
           then do r <- sys_setsid;
                if r =? -1 then zig_panic "process detach failed" else ret tt
           else ret tt);
  do _ <- sys_execvp exe (make_argv exe args);
  zig_panic "execvp failed: %s".

Definition os_spawn_process (exe : string) (args : list string)
    (detached : bool) : M unit :=
  sys_fork (fun pid =>
    if pid =? -1 then zig_panic "fork failed"
    else if negb (pid =? 0) then ret tt
    else os_spawn_process_child exe args detached).

Definition buf_size : Z := 8192.

(** The body of [for (;;)] in [read_all_fd]; [fuel] bounds the number of
    iterations. *)
Fixpoint read_all_loop (fuel : nat) (fd : Z) (out_buf : Buf)
    (actual_buf_len : Z) : M Buf :=
  match fuel with
  | O => fun w => OutOfFuel w
  | S fuel' =>
      do (amt_read, data) <- sys_read fd (buf_len out_buf);
      if amt_read <? 0 then zig_panic "fd read error"
      else
        let out_buf := buf_store out_buf data in
        let actual_buf_len := actual_buf_len + amt_read in
        if amt_read =? 0 then
          fun w => Returns (buf_resize (w_junk w) out_buf actual_buf_len) w
        else
          fun w =>
            read_all_loop fuel' fd
              (buf_resize (w_junk w) out_buf (actual_buf_len + buf_size))
              actual_buf_len w
  end.

Definition read_all_fd (fuel : nat) (fd : Z) (out_buf : Buf) : M Buf := fun w =>
  read_all_loop fuel fd (buf_resize (w_junk w) out_buf buf_size) 0 w.

(** The branch [if (pid == 0)] of [os_exec_process]: the child. *)
Definition os_exec_process_child (exe : string) (args : list string)
    (stdin_pipe stdout_pipe stderr_pipe : Z * Z) : M (Z * Buf * Buf) :=
  do r <- sys_dup2 stdin_pipe.1 STDIN_FILENO;
  if r =? -1 then zig_panic "dup2 failed" else
  do r <- sys_dup2 stdout_pipe.2 STDOUT_FILENO;
  if r =? -1 then zig_panic "dup2 failed" else
  do r <- sys_dup2 stderr_pipe.2 STDERR_FILENO;
  if r =? -1 then zig_panic "dup2 failed" else
  do _ <- sys_execvp exe (make_argv exe args);
  zig_panic "execvp failed: %s".

(** The branch [else] of [os_exec_process]: the parent. *)
Definition os_exec_process_parent (fuel : nat) (pid : Z)
    (stdin_pipe stdout_pipe stderr_pipe : Z * Z)
    (return_code : Z) (out_stderr out_stdout : Buf) : M (Z * Buf * Buf) :=
  do _ <- sys_close stdin_pipe.1;
  do _ <- sys_close stdout_pipe.2;
  do _ <- sys_close stderr_pipe.2;
  do (_, return_code) <- sys_waitpid pid return_code;
  do out_stdout <- read_all_fd fuel stdout_pipe.1 out_stdout;
  do out_stderr <- read_all_fd fuel stderr_pipe.1 out_stderr;
  ret (return_code, out_stderr, out_stdout).

(** [os_exec_process(exe, args, return_code, out_stderr, out_stdout)];
    the three out-parameters are given with the contents they have at
    the call, and the result is their contents at the return. *)
Definition os_exec_process (fuel : nat) (exe : string) (args : list string)
    (return_code : Z) (out_stderr out_stdout : Buf) : M (Z * Buf * Buf) :=
  do (err, stdin_pipe) <- sys_pipe;
  if negb (err =? 0) then zig_panic "pipe failed" else
  do (err, stdout_pipe) <- sys_pipe;
  if negb (err =? 0) then zig_panic "pipe failed" else
  do (err, stderr_pipe) <- sys_pipe;
  if negb (err =? 0) then zig_panic "pipe failed" else
  sys_fork (fun pid =>
    if pid =? -1 then zig_panic "fork failed"
    else if pid =? 0 then
      os_exec_process_child exe args stdin_pipe stdout_pipe stderr_pipe
    else
      os_exec_process_parent fuel pid stdin_pipe stdout_pipe stderr_pipe
        return_code out_stderr out_stdout).

Definition write_flags : Z :=
  Z.lor (Z.lor (Z.lor O_CREAT O_CLOEXEC) O_WRONLY) O_TRUNC.

Definition os_write_file (full_path contents : Buf) : M unit :=
  do fd <- sys_open (c_str full_path) write_flags S_IRWXU;
  if fd =? -1 then zig_panic "open failed" else
  do amt_written <- sys_write fd contents;
  if negb (amt_written =? buf_len contents) then zig_panic "write failed: %s" else
  do r <- sys_close fd;
  if r =? -1 then zig_panic "close failed" else
  ret tt.

(* ================================================================= *)
(** ** The argument vector, as the code fills it *)

(** Modelled from the spec: [allocate<T>(count)] of [util.hpp], which is
    not among the sources.  The result is an array of [count] slots;
    nothing is assumed about what the slots hold, which is given by
    [junk] (indexed by position). *)
Definition allocate {A} (junk : nat -> A) (count : Z) : list A :=
  map junk (seq 0 (Z.to_nat count)).

(** [a[i] = v]; [None] stands for a store outside the array. *)
Definition array_store {A} (a : list A) (i : Z) (v : A) : option (list A) :=
  if (0 <=? i) && (i <? Z.of_nat (length a))
  then Some (<[Z.to_nat i := v]> a)
  else None.

(** Modelled from the spec: [args.at(i)] of [list.hpp], which is not
    among the sources: the [i]-th element of the list; [None] stands
    for an index outside the list. *)
Definition list_at {A} (l : list A) (i : Z) : option A :=
  if (0 <=? i) && (i <? Z.of_nat (length l)) then l !! Z.to_nat i else None.

(** The loop [for (int i = 0; i < args.length; i += 1)] that copies the
    arguments into [argv]; a slot holds a string or the null pointer
    ([None]).  [fuel] bounds the number of iterations. *)
Fixpoint argv_loop (args : list string) (fuel : nat) (i : Z)
    (argv : list (option string)) : option (list (option string)) :=
  if i <? Z.of_nat (length args) then
    match fuel with
    | O => None
    | S fuel' =>
        a ← list_at args i;
        argv ← array_store argv (i + 1) (Some a);
        argv_loop args fuel' (i + 1) argv
    end
  else Some argv.

(** The four statements that build [argv] in [os_spawn_process] and in
    the child of [os_exec_process]. *)
Definition build_argv (junk : nat -> option string) (exe : string)
    (args : list string) : option (list (option string)) :=
  let argv := allocate junk (Z.of_nat (length args) + 2) in
  argv ← array_store argv 0 (Some exe);
  argv ← array_store argv (Z.of_nat (length args) + 1) None;
  argv_loop args (length args) 0 argv.

(* ================================================================= *)
(** ** Worlds and programs used in the statements *)

(** The bytes a script sends to descriptor [fd], in order. *)
Fixpoint writes_to (fd : Z) (script : list act) : list byte :=
  match script with
  | [] => []
  | Put fd' bs :: rest =>
      if fd' =? fd then bs ++ writes_to fd rest else writes_to fd rest
  | Hang :: rest => writes_to fd rest
  end.

(** A script that only writes to its standard output and standard
    error. *)
Definition plain (script : list act) : bool :=
  forallb (fun a =>
             match a with
             | Put fd _ => (fd =? STDOUT_FILENO) || (fd =? STDERR_FILENO)
             | Hang => false
             end) script.

Definition is_open (fd : Z) (w : world) : bool :=
  match w_fds w !! fd with Some _ => true | None => false end.

Definition pipe_in_range (n : nat) (o : fobj) : bool :=
  match o with
  | FPipe id _ => (id <? n)%nat
  | _ => true
  end.

Definition no_faults (w : world) : bool :=
  match w_plan w, w_fork_plan w with
  | [], [] => true
  | _, _ => false
  end.

Definition no_children (w : world) : bool :=
  match w_procs w with [] => true | _ => false end.

(** The situation in which the layer is normally called: the three
    standard streams are open, every pipe descriptor refers to a pipe of
    the kernel, the caller has no child, pids are positive and the
    environment injects no fault. *)
Definition ready (w : world) : bool :=
  (0 <? w_next_pid w)
  && is_open STDIN_FILENO w && is_open STDOUT_FILENO w && is_open STDERR_FILENO w
  && forallb (fun kv => pipe_in_range (length (w_pipes w)) kv.2)
       (map_to_list (w_fds w))
  && no_children w && no_faults w.

Definition std_fds : gmap Z fobj :=
  <[2 := FTty]> (<[1 := FTty]> (<[0 := FTty]> ∅)).

(** A freshly started process: standard streams on the terminal, nothing
    else open, an empty file system, pipes of [cap] bytes. *)
Definition boot (progs : string -> list string -> option program)
    (cap : nat) (junk : nat -> byte) : world :=
  mkWorld std_fds [] ∅ [] 2 [] [] [] cap 18 progs junk.

Definition pipe_capacity : nat := Z.to_nat 65536.

Definition echo_output (args : list string) : list byte :=
  bytes (String.concat " " args) ++ [x0a].

(** A few programs: [echo] prints its arguments, [true] and [false]
    exit with 0 and 1, [fail] prints a message and exits with 3, and
    [flood] prints one byte more than a pipe of [pipe_capacity] holds. *)
Definition userland (exe : string) (argv : list string) : option program :=
  if String.eqb exe "echo" then
    Some (mkProgram [Put STDOUT_FILENO (echo_output (tl argv))] (Exited 0))
  else if String.eqb exe "true" then Some (mkProgram [] (Exited 0))
  else if String.eqb exe "false" then Some (mkProgram [] (Exited 1))
  else if String.eqb exe "fail" then
    Some (mkProgram [Put STDOUT_FILENO (bytes "partial");
                     Put STDERR_FILENO (bytes "oops")] (Exited 3))
  else if String.eqb exe "flood" then
    Some (mkProgram [Put STDOUT_FILENO (repeat "y"%byte (S pipe_capacity))]
            (Exited 0))
  else None.

Definition zeros : nat -> byte := fun _ => x00.

Definition world0 : world := boot userland pipe_capacity zeros.

(** A string of [n] letters [a]. *)
Definition letters (n : nat) : string := string_of_list_byte (repeat "a"%byte n).

(** The size of the first chunk of [read_all_fd], as a number of bytes. *)
Definition chunk : nat := Z.to_nat buf_size.

(** The fault that awaits the [k]-th next system call of the caller. *)
Definition plan_at (k : nat) (w : world) : fault := nth k (w_plan w) NoFault.

(** Does a write to a file under fault [f] take all of [data]? *)
Definition accepts (f : fault) (data : list byte) : bool :=
  match f with
  | NoFault => true
  | Fault => false
  | Partial n => (length data <=? n)%nat
  end.

(** The permission bits of the file at [path] once it has been opened
    with [O_CREAT] and mode [mode]: an existing file keeps its own. *)
Definition mode_after_open (path : string) (mode : Z) (w : world) : Z :=
  match w_files w !! path with
  | Some fl => f_mode fl
  | None => Z.land mode (Z.lnot (w_umask w))
  end.

(** A pipe whose read end [fd] the caller holds, with [q] buffered, no
    write end left open, no child running and no fault pending: reading
    it never blocks. *)
Definition drainable (fd : Z) (id : nat) (q : list byte) (w : world) : Prop :=
  w_plan w = [] /\ w_procs w = [] /\
  w_fds w !! fd = Some (FPipe id ReadEnd) /\
  w_pipes w !! id = Some q /\
  holds_write_end id (w_fds w) = false.

(** [w'] is [w] after pipe [id] was emptied by some reads. *)
Definition drained_from (id : nat) (w w' : world) : Prop :=
  exists evs,
    w' = set_log (w_log w ++ evs) (set_pipes (<[id := []]> (w_pipes w)) w).

(** Where the scan of [os_path_split] starts: at the last byte, or one
    before it when the last byte is a separator. *)
Definition scan_start (p : Buf) : Z :=
  if trailing_sep p then buf_len p - 2 else buf_len p - 1.

(* ================================================================= *)
(** ** More worlds, programs and predicates used in the statements *)

(** A process that holds, as descriptor 3, the read end of a pipe in
    which [q] is buffered and whose write end is closed everywhere. *)
Definition reader_world (q : list byte) (junk : nat -> byte) : world :=
  mkWorld (<[3 := FPipe 0 ReadEnd]> std_fds) [q] ∅ [] 2 [] [] []
    pipe_capacity 18 userland junk.

(** The children in [cs] have all terminated. *)
Definition quiet (cs : list child) : bool :=
  forallb (fun c => negb (c_live c)) cs.

(** The outcome [o] with [f] applied to its world. *)
Definition on_world {A} (f : world -> world) (o : outcome A) : outcome A :=
  match o with
  | Returns a w => Returns a (f w)
  | Panics msg w => Panics msg (f w)
  | Blocks w => Blocks (f w)
  | Replaced exe argv w => Replaced exe argv (f w)
  | OutOfFuel w => OutOfFuel (f w)
  end.

(** The result of [close] under fault [f]. *)
Definition close_result (f : fault) : Z := if is_fault f then -1 else 0.

(** Is [e] a [read] of descriptor [fd]? *)
Definition is_read_of (fd : Z) (e : syscall) : bool :=
  match e with
  | ERead fd' _ _ => fd' =? fd
  | _ => false
  end.

(** A caller that runs the same program [count] times in a row with
    [os_exec_process], each time with fresh out-parameters, and drops
    the results. *)
Fixpoint os_exec_process_repeated (count fuel : nat) (exe : string)
    (args : list string) : M unit :=
  match count with
  | O => ret tt
  | S count' =>
      do _ <- os_exec_process fuel exe args 0 [] [];
      os_exec_process_repeated count' fuel exe args
  end.

(** The world of a process right after [fork] inside [os_exec_process],
    when it started from [world0]: descriptors 3 to 8 are the ends of
    the three pipes. *)
Definition forked_world : world :=
  mkWorld
    (<[8 := FPipe 2 WriteEnd]> (<[7 := FPipe 2 ReadEnd]>
       (<[6 := FPipe 1 WriteEnd]> (<[5 := FPipe 1 ReadEnd]>
          (<[4 := FPipe 0 WriteEnd]> (<[3 := FPipe 0 ReadEnd]> std_fds))))))
    [[]; []; []] ∅ [] 3 [] [] [] pipe_capacity 18 userland zeros.

(** [world0] with the faults [plan] awaiting the caller's system calls. *)
Definition faulty_world (plan : list fault) : world :=
  mkWorld std_fds [] ∅ [] 2 plan [] [] pipe_capacity 18 userland zeros.

(** [userland] with one more program, [sleep], which writes two bytes
    and then never terminates. *)
Definition userland_with_sleep (exe : string) (argv : list string)
    : option program :=
  if String.eqb exe "sleep"
  then Some (mkProgram [Put STDOUT_FILENO (bytes "zz"); Hang] (Exited 0))
  else userland exe argv.

(** A process that holds both ends of a pipe in which [q] is buffered:
    descriptor 3 is the read end and descriptor 4 the write end. *)
Definition pipe_world (q : list byte) : world :=
  mkWorld (<[4 := FPipe 0 WriteEnd]> (<[3 := FPipe 0 ReadEnd]> std_fds))
    [q] ∅ [] 2 [] [] [] pipe_capacity 18 userland zeros.

(** A world in which [os_exec_process] can be called: every pipe
    descriptor refers to a pipe of the kernel, the caller has no child,
    pids are positive and no fault awaits a forked child.  Unlike
    [ready], nothing is asked of the descriptors 0, 1 and 2, nor of the
    faults that await the caller. *)
Definition callable (w : world) : bool :=
  (0 <? w_next_pid w)
  && forallb (fun kv => pipe_in_range (length (w_pipes w)) kv.2)
       (map_to_list (w_fds w))
  && no_children w
  && match w_fork_plan w with [] => true | _ => false end.

(** A process that starts with no open descriptor at all. *)
Definition bare_world : world :=
  mkWorld ∅ [] ∅ [] 2 [] [] [] pipe_capacity 18 userland zeros.

(** The [read] calls of descriptor [fd] that deliver [amts] bytes, one
    after the other, when the first of them is offered [len] bytes and
    each following one is offered as many bytes more as the one before
    it delivered. *)
Fixpoint read_calls (fd : Z) (len : Z) (amts : list Z) : list syscall :=
  match amts with
  | [] => []
  | amt :: rest => ERead fd len amt :: read_calls fd (len + amt) rest
  end.

(** Each of these reads delivers something, and no more than it was
    offered. *)
Fixpoint reads_fit (len : Z) (amts : list Z) : Prop :=
  match amts with
  | [] => True
  | amt :: rest => 0 < amt <= len /\ reads_fit (len + amt) rest
  end.

(** The sum of the byte counts [amts]. *)
Definition total (amts : list Z) : Z := foldr Z.add 0 amts.

(** A process that holds, as descriptor 3, the read end of a pipe of
    [chunk] bytes, while a child that holds the write end as its
    standard output writes four times [chunk] bytes: the pipe is full
    and the child is blocked in its write. *)
Definition slow_writer_world : world :=
  advance_all
    (mkWorld (<[3 := FPipe 0 ReadEnd]> std_fds) [[]] ∅
       [mkChild 2 (<[1 := FPipe 0 WriteEnd]> ∅)
          [Put STDOUT_FILENO (repeat "b"%byte (4 * chunk))] (Exited 0) true]
       3 [] [] [] chunk 18 userland zeros).

(* ================================================================= *)
(** ** Proof tools *)

(** Projections of a world built by the setters. *)
Ltac wsimpl :=
  cbn [w_fds w_pipes w_files w_procs w_next_pid w_plan w_fork_plan w_log
       w_pipe_cap w_umask w_programs w_junk
       set_fds set_pipes set_files set_procs set_next_pid set_plan set_log
       log child_view fst snd] in *.

(** From [m !! fd = None] for a table [m] built by insertions: [fd]
    differs from every inserted descriptor. *)
Ltac fresh_fd H :=
  repeat (let Hne := fresh "Hne" in apply lookup_insert_None in H as [H Hne]).

(** A descriptor that is free while descriptor 0 is open is not 0. *)
Ltac not_std fd Hfree H0 :=
  let E := fresh "E" in
  assert (fd <> 0)
    by (intros E; rewrite E in Hfree; rewrite Hfree in H0; by destruct H0).

(** In [H], express the fault awaiting the next call of a later world
    as a fault of the plan of the first world; [shift] is the lemma that
    moves [nth] over [tl]. *)
Ltac plan_step H shift :=
  unfold plan_at in H;
  cbn [w_plan set_fds set_pipes set_files set_procs set_next_pid set_plan
       set_log log] in H;
  rewrite ?shift in H;
  repeat match type of H with
         | context [nth ?k (w_plan ?w) NoFault] =>
             change (nth k (w_plan w) NoFault) with (plan_at k w) in H
         end.

(** The same for the goal. *)
Ltac plan_goal shift :=
  unfold plan_at;
  cbn [w_plan set_fds set_pipes set_files set_procs set_next_pid set_plan
       set_log log];
  rewrite ?shift.

(** Comparisons of concrete sizes, decided by evaluation. *)
Ltac by_leb := apply Nat.leb_le; vm_compute; reflexivity.
Ltac by_ltb := apply Nat.ltb_lt; vm_compute; reflexivity.

(* ================================================================= *)
(** * Properties *)

(** ** Path splitting *)

Lemma buf_at_Some (b : Buf) (i : Z) :
  0 <= i < buf_len b ->
  buf_at b i = b !! Z.to_nat i /\ is_Some (b !! Z.to_nat i).
Proof.
  intros Hi. unfold buf_at, buf_len in *.
  replace ((0 <=? i) && (i <? Z.of_nat (length b))) with true
    by (symmetry; apply andb_true_iff; split;
        [apply Z.leb_le | apply Z.ltb_lt]; lia).
  split; [reflexivity | apply lookup_lt_is_Some; lia].
Qed.

Lemma buf_init_from_mem_Some (src : Buf) (off len : Z) :
  0 <= off -> 0 <= len -> off + len <= buf_len src ->
  buf_init_from_mem src off len
  = Some (take (Z.to_nat len) (drop (Z.to_nat off) src)).
Proof.
  intros H1 H2 H3. unfold buf_init_from_mem.
  replace ((0 <=? off) && (0 <=? len) && (off + len <=? buf_len src))
    with true; [done|].
  symmetry. rewrite !andb_true_iff, !Z.leb_le. lia.
Qed.

Lemma split_scan_exit (p : Buf) (fuel : nat) (i : Z) :
  i < 0 -> split_scan p fuel i = Some (bytes ".", p).
Proof.
  intros Hi. destruct fuel; simpl;
    (destruct (Z.ltb_spec i 0); [reflexivity | lia]).
Qed.

(** One iteration of the scan at an index inside the path. *)
Lemma split_scan_step (p : Buf) (fuel : nat) (i : Z) (c : byte) :
  0 <= i < buf_len p -> p !! Z.to_nat i = Some c ->
  split_scan p (S fuel) i =
    if Byte.eqb c sep
    then Some (take (Z.to_nat i) p, drop (S (Z.to_nat i)) p)
    else split_scan p fuel (i - 1).
Proof.
  intros Hi Hc. simpl. destruct (Z.ltb_spec i 0); [lia|].
  destruct (buf_at_Some p i Hi) as [-> _]. rewrite Hc. simpl.
  destruct (Byte.eqb c sep); [|reflexivity].
  rewrite !buf_init_from_mem_Some by (unfold buf_len in *; lia). simpl.
  rewrite drop_0. f_equal. f_equal.
  replace (Z.to_nat (i + 1)) with (S (Z.to_nat i)) by lia.
  apply take_ge. rewrite length_drop. unfold buf_len. lia.
Qed.

(** If a separator lies at or below the start index, the scan stops at
    the highest one and cuts the path there. *)
Lemma split_scan_found (p : Buf) (fuel : nat) (i : Z) (j : nat) :
  i < buf_len p -> i + 1 <= Z.of_nat fuel ->
  Z.of_nat j <= i -> p !! j = Some sep ->
  exists k : nat, (j <= k)%nat /\ Z.of_nat k <= i /\ p !! k = Some sep /\
    split_scan p fuel i = Some (take k p, drop (S k) p).
Proof.
  revert i. induction fuel as [|fuel IH]; intros i Hlen Hfuel Hj Hsep; [lia|].
  assert (Hi : 0 <= i < buf_len p) by lia.
  destruct (buf_at_Some p i Hi) as [_ [c Hc]].
  rewrite (split_scan_step p fuel i c Hi Hc).
  destruct (Byte.eqb c sep) eqn:E.
  - apply byte_dec_bl in E. subst c.
    exists (Z.to_nat i). repeat split; [lia | lia | done].
  - assert (Z.of_nat j <> i).
    { intros <-. rewrite Nat2Z.id in Hc. rewrite Hsep in Hc.
      injection Hc as <-. by rewrite (byte_dec_lb eq_refl) in E. }
    destruct (IH (i - 1)) as (k & ? & ? & ? & ->); [lia..|done|].
    exists k. repeat split; [lia | lia | done].
Qed.

(** If no separator lies at or below the start index, the scan falls
    through to the default. *)
Lemma split_scan_fallback (p : Buf) (fuel : nat) (i : Z) :
  i < buf_len p -> i + 1 <= Z.of_nat fuel ->
  (forall j : nat, Z.of_nat j <= i -> p !! j <> Some sep) ->
  split_scan p fuel i = Some (bytes ".", p).
Proof.
  revert i. induction fuel as [|fuel IH]; intros i Hlen Hfuel Hno.
  - apply split_scan_exit. lia.
  - destruct (Z.ltb_spec i 0) as [Hneg|Hpos]; [by apply split_scan_exit|].
    assert (Hi : 0 <= i < buf_len p) by lia.
    destruct (buf_at_Some p i Hi) as [_ [c Hc]].
    rewrite (split_scan_step p fuel i c Hi Hc).
    destruct (Byte.eqb c sep) eqn:E.
    + apply byte_dec_bl in E. subst c.
      exfalso. apply (Hno (Z.to_nat i)); [lia | done].
    + apply IH; [lia | lia |]. intros j Hj. apply Hno. lia.
Qed.

Lemma os_path_split_scan (p : Buf) :
  os_path_split p = split_scan p (length p) (scan_start p).
Proof.
  unfold os_path_split, scan_start, trailing_sep.
  destruct (Z.leb_spec 0 (buf_len p - 1)) as [Hpos|Hneg].
  - assert (Hi : 0 <= buf_len p - 1 < buf_len p) by lia.
    destruct (buf_at_Some p _ Hi) as [-> [c Hc]].
    rewrite Hc. simpl.
    assert (last p = Some c) as ->.
    { rewrite last_lookup. rewrite <- Hc. f_equal. unfold buf_len. lia. }
    destruct (Byte.eqb c sep); f_equal; lia.
  - simpl. destruct p; [reflexivity | unfold buf_len in Hneg; simpl in Hneg; lia].
Qed.

Lemma split_scan_total (p : Buf) (fuel : nat) (i : Z) :
  i < buf_len p -> i + 1 <= Z.of_nat fuel ->
  exists d b, split_scan p fuel i = Some (d, b).
Proof.
  revert i. induction fuel as [|fuel IH]; intros i Hlen Hfuel.
  - rewrite split_scan_exit by lia. eauto.
  - destruct (Z.ltb_spec i 0) as [Hneg|Hpos].
    { rewrite split_scan_exit by lia. eauto. }
    assert (Hi : 0 <= i < buf_len p) by lia.
    destruct (buf_at_Some p i Hi) as [_ [c Hc]].
    rewrite (split_scan_step p fuel i c Hi Hc).
    destruct (Byte.eqb c sep); [eauto | apply IH; lia].
Qed.

Lemma scan_start_bounds (p : Buf) :
  scan_start p < buf_len p /\ scan_start p + 1 <= Z.of_nat (length p).
Proof. unfold scan_start, buf_len. destruct (trailing_sep p); lia. Qed.

(** The indices the scan visits are those of [removelast p] whenever a
    separator is concerned. *)
Lemma sep_below_start (p : Buf) (j : nat) :
  p !! j = Some sep ->
  (Z.of_nat j <= scan_start p <-> (S j < length p)%nat).
Proof.
  intros Hj. pose proof (lookup_lt_Some _ _ _ Hj) as Hlt.
  unfold scan_start, trailing_sep, buf_len.
  destruct (last p) as [c|] eqn:Hlast.
  - destruct (Byte.eqb c sep) eqn:E; [lia|].
    split; [|lia]. intros Hle.
    destruct (decide (S j = length p)) as [Heq|]; [|lia].
    exfalso. rewrite last_lookup in Hlast.
    replace (Init.Nat.pred (length p)) with j in Hlast by lia.
    rewrite Hj in Hlast. injection Hlast as <-.
    by rewrite (byte_dec_lb eq_refl) in E.
  - apply last_None in Hlast. subst p. simpl in Hlt. lia.
Qed.

Lemma In_removelast_lookup (p : Buf) :
  In sep (removelast p) <->
  exists j : nat, (S j < length p)%nat /\ p !! j = Some sep.
Proof.
  rewrite removelast_firstn_len, <- list_elem_of_In, list_elem_of_lookup.
  split.
  - intros [j Hj]. apply lookup_take_Some in Hj as [Hj Hlt].
    exists j. split; [lia | done].
  - intros (j & Hlt & Hj). exists j. apply lookup_take_Some. split; [done | lia].
Qed.

Lemma os_path_split_found (p : Buf) :
  In sep (removelast p) ->
  exists d b, os_path_split p = Some (d, b) /\ rejoin (d, b) = p.
Proof.
  intros Hin. apply In_removelast_lookup in Hin as (j & Hlt & Hj).
  destruct (scan_start_bounds p) as [Hb1 Hb2].
  rewrite os_path_split_scan.
  destruct (split_scan_found p (length p) (scan_start p) j)
    as (k & _ & _ & Hk & ->); [done | done | by apply sep_below_start | done |].
  eexists _, _. split; [reflexivity|].
  unfold rejoin. simpl. by apply take_drop_middle.
Qed.

Lemma os_path_split_fallback (p : Buf) :
  ~ In sep (removelast p) -> os_path_split p = Some (bytes ".", p).
Proof.
  intros Hnot. destruct (scan_start_bounds p) as [Hb1 Hb2].
  rewrite os_path_split_scan. apply split_scan_fallback; [done | done |].
  intros j Hle Hj. apply Hnot, In_removelast_lookup.
  exists j. split; [by apply sep_below_start | done].
Qed.

Lemma os_path_split_total (p : Buf) :
  exists d b, os_path_split p = Some (d, b).
Proof.
  destruct (scan_start_bounds p) as [Hb1 Hb2].
  rewrite os_path_split_scan. by apply split_scan_total.
Qed.

(** ** Descriptor allocation *)

Lemma first_free_sound (fds : gmap Z fobj) (fuel : nat) (n r : Z) :
  first_free fds fuel n = Some r -> fds !! r = None /\ n <= r.
Proof.
  revert n. induction fuel as [|fuel IH]; intros n; simpl; [discriminate|].
  destruct (fds !! n) eqn:E.
  - intros H. apply IH in H. split; [tauto | lia].
  - intros [= <-]. split; [done | lia].
Qed.

Lemma first_free_delete (fds : gmap Z fobj) (fuel : nat) (k n : Z) :
  k < n -> first_free (delete k fds) fuel n = first_free fds fuel n.
Proof.
  revert n. induction fuel as [|fuel IH]; intros n Hlt; simpl; [done|].
  rewrite lookup_delete_ne by lia.
  destruct (fds !! n); [apply IH; lia | done].
Qed.

Lemma first_free_complete (fuel : nat) :
  forall (fds : gmap Z fobj) (n : Z),
    (size fds < fuel)%nat -> is_Some (first_free fds fuel n).
Proof.
  induction fuel as [|fuel IH]; intros fds n Hsz; [lia|]. simpl.
  destruct (fds !! n) eqn:E; [|eauto].
  rewrite <- (first_free_delete fds fuel n (n + 1)) by lia.
  apply IH. rewrite map_size_delete, E.
  assert (size fds <> 0%nat) by (eapply map_size_ne_0_lookup_2; eauto).
  simpl. lia.
Qed.

Lemma alloc_fd_fresh (fds : gmap Z fobj) :
  exists r, alloc_fd fds = Some r /\ fds !! r = None /\ 0 <= r.
Proof.
  destruct (first_free_complete (S (size fds)) fds 0) as [r Hr]; [lia|].
  exists r. split; [exact Hr | by apply first_free_sound in Hr].
Qed.

(** ** Worlds *)

Lemma next_fault_nil (w : world) :
  w_plan w = [] -> next_fault w = (NoFault, w).
Proof. destruct w. simpl. intros ->. reflexivity. Qed.

Lemma advance_all_no_children (w : world) :
  w_procs w = [] -> advance_all w = w.
Proof. destruct w. simpl. intros ->. reflexivity. Qed.

Lemma holds_write_end_false (id : nat) (fds : gmap Z fobj) :
  (forall fd o, fds !! fd = Some o -> is_write_end id o = false) ->
  holds_write_end id fds = false.
Proof.
  intros H. unfold holds_write_end.
  apply not_true_is_false. intros Hex.
  apply existsb_exists in Hex as ([fd o] & Hin & Ho).
  apply list_elem_of_In, elem_of_map_to_list in Hin.
  simpl in Ho. rewrite (H fd o Hin) in Ho. discriminate.
Qed.

Lemma ready_spec (w : world) :
  ready w = true ->
  0 < w_next_pid w /\
  is_Some (w_fds w !! 0) /\ is_Some (w_fds w !! 1) /\ is_Some (w_fds w !! 2) /\
  (forall fd id e, w_fds w !! fd = Some (FPipe id e) ->
                   (id < length (w_pipes w))%nat) /\
  w_procs w = [] /\ w_plan w = [] /\ w_fork_plan w = [].
Proof.
  unfold ready, is_open, no_children, no_faults,
    STDIN_FILENO, STDOUT_FILENO, STDERR_FILENO.
  rewrite !andb_true_iff. intros [[[[[[H1 H2] H3] H4] H5] H6] H7].
  split; [lia|].
  split; [destruct (w_fds w !! 0); [eauto | discriminate]|].
  split; [destruct (w_fds w !! 1); [eauto | discriminate]|].
  split; [destruct (w_fds w !! 2); [eauto | discriminate]|].
  split.
  { intros fd id e Hfd. rewrite forallb_forall in H5.
    specialize (H5 (fd, FPipe id e)). simpl in H5.
    apply Nat.ltb_lt, H5, list_elem_of_In, elem_of_map_to_list. exact Hfd. }
  destruct (w_procs w); [|discriminate].
  destruct (w_plan w); [|discriminate].
  destruct (w_fork_plan w); [|discriminate]. done.
Qed.

(** ** Draining a pipe *)

Lemma buf_resize_length (junk : nat -> byte) (b : Buf) (n : Z) :
  length (buf_resize junk b n) = Z.to_nat n.
Proof.
  unfold buf_resize. rewrite length_app, length_take, length_map, length_seq. lia.
Qed.

Lemma buf_resize_len (junk : nat -> byte) (b : Buf) (n : Z) :
  0 <= n -> buf_len (buf_resize junk b n) = n.
Proof. intros Hn. unfold buf_len. rewrite buf_resize_length. lia. Qed.

Lemma buf_resize_shrink (junk : nat -> byte) (q rest : list byte) (n : Z) :
  n = buf_len q -> buf_resize junk (q ++ rest) n = q.
Proof.
  intros ->. unfold buf_resize, buf_len. rewrite Nat2Z.id.
  rewrite take_app_length, length_app.
  replace (length q - (length q + length rest))%nat with 0%nat by lia.
  simpl. apply app_nil_r.
Qed.

Lemma buf_resize_prefix (junk : nat -> byte) (q rest : list byte) (n : Z) :
  buf_len q <= n ->
  exists rest', buf_resize junk (q ++ rest) n = q ++ rest'.
Proof.
  intros Hn. unfold buf_resize, buf_len in *.
  rewrite take_app_ge by lia. rewrite <- app_assoc. eauto.
Qed.

Lemma set_pipes_same (w : world) : set_pipes (w_pipes w) w = w.
Proof. by destruct w. Qed.

Lemma sys_read_eof (fd : Z) (id : nat) (len : Z) (w : world) :
  drainable fd id [] w ->
  sys_read fd len w = Returns (0, []) (log (ERead fd len 0) w).
Proof.
  intros (Hplan & Hprocs & Hfd & Hq & Hw).
  unfold sys_read. rewrite next_fault_nil by done. simpl.
  rewrite Hfd, Hq. rewrite take_nil.
  unfold has_writer. rewrite Hw, Hprocs. simpl.
  by destruct (len <=? 0).
Qed.

Lemma sys_read_data (fd : Z) (id : nat) (q : list byte) (len : Z) (w : world) :
  drainable fd id q w -> q <> [] -> 0 < len ->
  let data := take (Z.to_nat len) q in
  let w' := log (ERead fd len (buf_len data))
              (set_pipes (<[id := drop (Z.to_nat len) q]> (w_pipes w)) w) in
  sys_read fd len w = Returns (buf_len data, data) w' /\
  drainable fd id (drop (Z.to_nat len) q) w' /\ data <> [].
Proof.
  intros (Hplan & Hprocs & Hfd & Hq & Hw) Hne Hlen. simpl.
  assert (Hdata : take (Z.to_nat len) q <> []).
  { destruct q; [done|]. destruct (Z.to_nat len) eqn:E; [lia | done]. }
  split; [|split; [|done]].
  - unfold sys_read. rewrite next_fault_nil by done. simpl.
    rewrite Hfd, Hq.
    destruct (take (Z.to_nat len) q) eqn:E; [done|].
    rewrite advance_all_no_children by done. reflexivity.
  - repeat split; simpl; try done.
    apply list_lookup_insert_eq. by eapply lookup_lt_Some.
Qed.

Lemma drained_from_eof (fd : Z) (id : nat) (len : Z) (w : world) :
  w_pipes w !! id = Some [] ->
  drained_from id w (log (ERead fd len 0) w).
Proof.
  intros Hq. exists [ERead fd len 0].
  rewrite list_insert_id by done. by rewrite set_pipes_same.
Qed.

Lemma drained_from_step (id : nat) (e : syscall) (q : list byte) (w w' : world) :
  drained_from id (log e (set_pipes (<[id := q]> (w_pipes w)) w)) w' ->
  drained_from id w w'.
Proof.
  intros [evs ->]. exists (e :: evs). unfold log, set_log, set_pipes. simpl.
  rewrite list_insert_insert_eq. rewrite <- app_assoc. reflexivity.
Qed.

Lemma drained_still_drainable (fd fd' : Z) (id id' : nat) (q q' : list byte)
    (w w' : world) :
  drained_from id w w' -> drainable fd id q w ->
  drainable fd' id' q' w -> id <> id' -> drainable fd' id' q' w'.
Proof.
  intros [evs ->] _ (H1 & H2 & H3 & H4 & H5) Hne.
  repeat split; simpl; try done. by rewrite list_lookup_insert_ne.
Qed.

(** The loop of [read_all_fd] always reaches the end of a drainable
    pipe: each round takes at least one byte. *)
Lemma read_all_loop_returns (fd : Z) (id : nat) :
  forall (fuel : nat) (q : list byte) (w : world) (b : Buf) (actual : Z),
    drainable fd id q w -> 0 < buf_len b -> 0 <= actual ->
    (length q < fuel)%nat ->
    exists b' w', read_all_loop fuel fd b actual w = Returns b' w' /\
                  drained_from id w w' /\
                  buf_len b' = actual + buf_len q.
Proof.
  induction fuel as [|fuel IH]; intros q w b actual Hd Hb Hact Hfuel; [lia|].
  destruct q as [|c q].
  - simpl. unfold bind. rewrite (sys_read_eof fd id _ w Hd). simpl.
    eexists _, _. split; [reflexivity|]. split.
    + apply drained_from_eof. apply Hd.
    + rewrite buf_resize_len by lia. unfold buf_len. simpl. lia.
  - destruct (sys_read_data fd id (c :: q) (buf_len b) w Hd) as (Hr & Hd' & Hne);
      [done | done |].
    set (data := take (Z.to_nat (buf_len b)) (c :: q)) in *.
    assert (Hamt : 0 < buf_len data).
    { unfold buf_len. destruct data; [done | simpl; lia]. }
    assert (Hsplit : (length data + length (drop (Z.to_nat (buf_len b)) (c :: q))
                      = length (c :: q))%nat).
    { unfold data. rewrite <- length_app, take_drop. done. }
    cbn [read_all_loop]. unfold bind at 1. rewrite Hr.
    destruct (Z.ltb_spec (buf_len data) 0); [lia|].
    destruct (Z.eqb_spec (buf_len data) 0); [lia|].
    assert (Hpos : (0 < length data)%nat) by (unfold buf_len in Hamt; lia).
    destruct (IH (drop (Z.to_nat (buf_len b)) (c :: q))
                (log (ERead fd (buf_len b) (buf_len data))
                   (set_pipes (<[id := drop (Z.to_nat (buf_len b)) (c :: q)]>
                                 (w_pipes w)) w))
                (buf_resize (w_junk w) (buf_store b data)
                   (actual + buf_len data + buf_size))
                (actual + buf_len data))
      as (b' & w' & Hrun & Hdr & Hlen).
    + exact Hd'.
    + rewrite buf_resize_len; unfold buf_size; lia.
    + lia.
    + simpl in *. lia.
    + eexists _, _. split; [exact Hrun|]. split.
      * eapply drained_from_step. exact Hdr.
      * rewrite Hlen. unfold buf_len in *. lia.
Qed.

Lemma read_all_fd_returns (fd : Z) (id : nat) (fuel : nat) (q : list byte)
    (w : world) (b : Buf) :
  drainable fd id q w -> (length q < fuel)%nat ->
  exists b' w', read_all_fd fuel fd b w = Returns b' w' /\
                drained_from id w w' /\ buf_len b' = buf_len q.
Proof.
  intros Hd Hfuel. unfold read_all_fd.
  destruct (read_all_loop_returns fd id fuel q w
              (buf_resize (w_junk w) b buf_size) 0)
    as (b' & w' & H1 & H2 & H3); try done.
  - rewrite buf_resize_len by (unfold buf_size; lia). unfold buf_size; lia.
  - exists b', w'. repeat split; try done; lia.
Qed.

(** Output that fits the first chunk arrives intact. *)
Lemma read_all_fd_exact (fd : Z) (id : nat) (fuel : nat) (q : list byte)
    (w : world) (b : Buf) :
  drainable fd id q w -> buf_len q <= buf_size -> (2 <= fuel)%nat ->
  exists w', read_all_fd fuel fd b w = Returns q w' /\ drained_from id w w'.
Proof.
  intros Hd Hq Hfuel. unfold read_all_fd.
  destruct fuel as [|[|fuel]]; [lia | lia |].
  assert (Hb0 : buf_len (buf_resize (w_junk w) b buf_size) = buf_size)
    by (rewrite buf_resize_len; unfold buf_size; lia).
  generalize dependent (buf_resize (w_junk w) b buf_size). intros b0 Hb0.
  destruct q as [|c q].
  - cbn [read_all_loop]. unfold bind. rewrite (sys_read_eof fd id _ w Hd).
    simpl. eexists. split; [reflexivity|]. apply drained_from_eof, Hd.
  - destruct (sys_read_data fd id (c :: q) (buf_len b0) w Hd) as (Hr & Hd' & Hne);
      [done | rewrite Hb0; unfold buf_size; lia |].
    assert (Htake : take (Z.to_nat (buf_len b0)) (c :: q) = c :: q).
    { apply take_ge. unfold buf_len in *. lia. }
    assert (Hdrop : drop (Z.to_nat (buf_len b0)) (c :: q) = []).
    { apply drop_ge. unfold buf_len in *. lia. }
    rewrite Htake, Hdrop in *.
    assert (Hamt : 0 < buf_len (c :: q)) by (unfold buf_len; simpl; lia).
    cbn [read_all_loop]. unfold bind at 1. rewrite Hr.
    destruct (Z.ltb_spec (buf_len (c :: q)) 0); [lia|].
    destruct (Z.eqb_spec (buf_len (c :: q)) 0); [lia|].
    unfold bind. rewrite (sys_read_eof fd id _ _ Hd').
    cbn [Z.ltb Z.eqb Z.compare w_junk log set_log set_pipes].
    assert (Hstore : forall x : Buf, buf_store x [] = x) by (intros x; apply drop_0).
    rewrite Hstore.
    destruct (buf_resize_prefix (w_junk w) (c :: q)
                (drop (length (c :: q)) b0) (0 + buf_len (c :: q) + buf_size))
      as [rest' Hrest]; [unfold buf_size; lia|].
    unfold buf_store. rewrite Hrest.
    rewrite (buf_resize_shrink (w_junk w) (c :: q) rest') by lia.
    eexists. split; [reflexivity|].
    eapply drained_from_step. apply drained_from_eof. apply Hd'.
Qed.

(** ** System calls without faults *)

Lemma bind_returns {A B} (c : M A) (k : A -> M B) (w w' : world) (a : A) :
  c w = Returns a w' -> bind c k w = k a w'.
Proof. unfold bind. by intros ->. Qed.

Lemma sys_pipe_ok (w : world) :
  w_plan w = [] ->
  exists rd wr,
    w_fds w !! rd = None /\ w_fds w !! wr = None /\ rd <> wr /\
    sys_pipe w =
      Returns (0, (rd, wr))
        (log (EPipe 0 rd wr)
           (set_fds (<[wr := FPipe (length (w_pipes w)) WriteEnd]>
                       (<[rd := FPipe (length (w_pipes w)) ReadEnd]> (w_fds w)))
              (set_pipes (w_pipes w ++ [[]]) w))).
Proof.
  intros Hplan.
  destruct (alloc_fd_fresh (w_fds w)) as (rd & Hrd & Hfree & _).
  destruct (alloc_fd_fresh (<[rd := FPipe (length (w_pipes w)) ReadEnd]> (w_fds w)))
    as (wr & Hwr & Hfree' & _).
  apply lookup_insert_None in Hfree' as [Hfree' Hne].
  exists rd, wr. repeat split; [done | done | congruence |].
  unfold sys_pipe. rewrite next_fault_nil by done. simpl.
  rewrite Hrd, Hwr. reflexivity.
Qed.

Lemma sys_dup2_ok (oldfd newfd : Z) (o : fobj) (w : world) :
  w_plan w = [] -> w_fds w !! oldfd = Some o -> 0 <= newfd ->
  sys_dup2 oldfd newfd w =
    Returns newfd (log (EDup2 oldfd newfd newfd)
                     (set_fds (<[newfd := o]> (w_fds w)) w)).
Proof.
  intros Hplan Hfd Hnew. unfold sys_dup2. rewrite next_fault_nil by done.
  simpl. rewrite Hfd. destruct (Z.ltb_spec newfd 0); [lia | done].
Qed.

Lemma sys_execvp_ok (exe : string) (argv : list string) (p : program) (w : world) :
  w_plan w = [] -> w_programs w exe argv = Some p ->
  sys_execvp exe argv w = Replaced exe argv (log (EExecvp exe argv 0) w).
Proof.
  intros Hplan Hp. unfold sys_execvp. rewrite next_fault_nil by done.
  simpl. by rewrite Hp.
Qed.

Lemma sys_close_ok (fd : Z) (o : fobj) (w : world) :
  w_plan w = [] -> w_fds w !! fd = Some o ->
  sys_close fd w =
    Returns 0 (log (EClose fd 0) (set_fds (delete fd (w_fds w)) w)).
Proof.
  intros Hplan Hfd. unfold sys_close. rewrite next_fault_nil by done.
  simpl. by rewrite Hfd.
Qed.

Lemma sys_fork_ok {A} (k : Z -> M A) (w : world) :
  w_plan w = [] ->
  sys_fork k w =
    k (w_next_pid w)
      (advance_all
         (log (EFork (w_next_pid w))
            (set_next_pid (w_next_pid w + 1)
               (set_procs (w_procs w ++ [spawn (w_next_pid w) (k 0 (child_view w)) w])
                  w)))).
Proof.
  intros Hplan. unfold sys_fork. rewrite next_fault_nil by done. reflexivity.
Qed.

Lemma sys_waitpid_only_child (c : child) (status : Z) (w : world) :
  w_plan w = [] -> w_procs w = [c] ->
  sys_waitpid (c_pid c) status w =
    if c_live c then Blocks w
    else Returns (c_pid c, wait_status (c_term c))
           (log (EWaitpid (c_pid c) (c_pid c) (wait_status (c_term c)))
              (set_procs [] w)).
Proof.
  intros Hplan Hprocs. unfold sys_waitpid. rewrite next_fault_nil by done.
  simpl. rewrite Hprocs. simpl. rewrite Z.eqb_refl. reflexivity.
Qed.

(** ** What a child manages to write *)

Section ChildRun.

(** A child whose descriptors 1 and 2 are the write ends of two
    different pipes [io] and [ie] of capacity [cap]. *)
Variables (cfds : gmap Z fobj) (cap io ie : nat).
Hypothesis Hstdout : cfds !! 1 = Some (FPipe io WriteEnd).
Hypothesis Hstderr : cfds !! 2 = Some (FPipe ie WriteEnd).
Hypothesis Hdistinct : io <> ie.

(** If both pipes have room for all the child writes, the child runs
    to its end and the pipes hold what it wrote. *)
Lemma child_run_plain :
  forall (script : list act) (pipes : list (list byte)) (qo qe : list byte),
    plain script = true ->
    pipes !! io = Some qo -> pipes !! ie = Some qe ->
    (length qo + length (writes_to 1 script) <= cap)%nat ->
    (length qe + length (writes_to 2 script) <= cap)%nat ->
    child_run cfds cap script pipes =
      ([], <[ie := qe ++ writes_to 2 script]>
             (<[io := qo ++ writes_to 1 script]> pipes)).
Proof.
  induction script as [|[fd bs|] script IH];
    intros pipes qo qe Hplain Ho He Hlo Hle.
  - simpl. rewrite !app_nil_r. rewrite (list_insert_id pipes io qo Ho).
    by rewrite (list_insert_id pipes ie qe He).
  - simpl in Hplain. apply andb_true_iff in Hplain as [Hfd Hplain].
    apply orb_true_iff in Hfd as [Hfd|Hfd]; apply Z.eqb_eq in Hfd; subst fd.
    + unfold STDOUT_FILENO in *. simpl in *. rewrite Hstdout, Ho.
      rewrite length_app in Hlo.
      destruct (Nat.leb_spec (length bs) (cap - length qo)); [|lia].
      rewrite (IH _ (qo ++ bs) qe); try done.
      * rewrite list_insert_insert_eq, <- app_assoc. done.
      * apply list_lookup_insert_eq. by eapply lookup_lt_Some.
      * by rewrite list_lookup_insert_ne.
      * rewrite length_app. lia.
    + unfold STDERR_FILENO in *. simpl in *. rewrite Hstderr, He.
      rewrite length_app in Hle.
      destruct (Nat.leb_spec (length bs) (cap - length qe)); [|lia].
      rewrite (IH _ qo (qe ++ bs)); try done.
      * rewrite list_insert_insert_ne by done. rewrite list_insert_insert_eq.
        rewrite <- app_assoc. f_equal. by apply list_insert_insert_ne.
      * by rewrite list_lookup_insert_ne.
      * apply list_lookup_insert_eq. by eapply lookup_lt_Some.
      * rewrite length_app. lia.
  - discriminate.
Qed.


End ChildRun.

(** ** The two branches of [os_exec_process] *)

Lemma os_exec_process_child_execs (exe : string) (args : list string)
    (p : program) (a b c x y z : Z) (oa ob oc : fobj) (cw : world) :
  w_plan cw = [] ->
  w_programs cw exe (make_argv exe args) = Some p ->
  w_fds cw !! a = Some oa -> w_fds cw !! b = Some ob -> w_fds cw !! c = Some oc ->
  b <> 0 -> c <> 0 -> c <> 1 ->
  exists cw',
    os_exec_process_child exe args (a, x) (y, b) (z, c) cw
    = Replaced exe (make_argv exe args) cw' /\
    w_fds cw' = <[2 := oc]> (<[1 := ob]> (<[0 := oa]> (w_fds cw))).
Proof.
  intros Hplan Hprog Ha Hb Hc Hb0 Hc0 Hc1.
  unfold os_exec_process_child, STDIN_FILENO, STDOUT_FILENO, STDERR_FILENO.
  cbn [fst snd].
  erewrite bind_returns; [|by apply sys_dup2_ok]. cbn [Z.eqb].
  erewrite bind_returns;
    [|apply sys_dup2_ok; wsimpl; [done | by rewrite lookup_insert_ne | lia]].
  cbn [Z.eqb Pos.eqb].
  erewrite bind_returns;
    [|apply sys_dup2_ok; wsimpl;
      [done | by rewrite !lookup_insert_ne | lia]].
  cbn [Z.eqb Pos.eqb].
  unfold bind. erewrite sys_execvp_ok; [|done|wsimpl; exact Hprog].
  eexists. split; [reflexivity|]. reflexivity.
Qed.

Lemma os_exec_process_parent_waits (fuel : nat) (ch : child)
    (r1 w1 r2 w2 r3 w3 rc : Z) (o1 o2 o3 : fobj) (e0 o0 : Buf) (w : world) :
  w_plan w = [] -> w_procs w = [ch] ->
  w_fds w !! r1 = Some o1 -> w_fds w !! w2 = Some o2 -> w_fds w !! w3 = Some o3 ->
  r1 <> w2 -> r1 <> w3 -> w2 <> w3 ->
  let wW := log (EClose w3 0)
              (log (EClose w2 0)
                 (log (EClose r1 0)
                    (set_fds (delete w3 (delete w2 (delete r1 (w_fds w)))) w))) in
  os_exec_process_parent fuel (c_pid ch) (r1, w1) (r2, w2) (r3, w3) rc e0 o0 w =
    if c_live ch then Blocks wW
    else
      (do out_stdout <- read_all_fd fuel r2 o0;
       do out_stderr <- read_all_fd fuel r3 e0;
       ret (wait_status (c_term ch), out_stderr, out_stdout))
        (log (EWaitpid (c_pid ch) (c_pid ch) (wait_status (c_term ch)))
           (set_procs [] wW)).
Proof.
  intros Hplan Hprocs H1 H2 H3 Hn12 Hn13 Hn23. simpl.
  unfold os_exec_process_parent. cbn [fst snd].
  erewrite bind_returns; [|by eapply sys_close_ok].
  erewrite bind_returns;
    [|eapply sys_close_ok; wsimpl; [done | by rewrite lookup_delete_ne]].
  erewrite bind_returns;
    [|eapply sys_close_ok; wsimpl; [done | by rewrite !lookup_delete_ne]].
  unfold bind at 1. rewrite (sys_waitpid_only_child ch) by done.
  destruct (c_live ch); reflexivity.
Qed.

(** The run of [os_exec_process] up to the point where the parent waits
    for the child. *)
Lemma os_exec_process_run (fuel : nat) (exe : string) (args : list string)
    (rc : Z) (e0 o0 : Buf) (w : world) (p : program) :
  ready w = true -> w_programs w exe (make_argv exe args) = Some p ->
  exists (w1 r2 r3 : Z) (cfds : gmap Z fobj) (wW : world),
    let n := length (w_pipes w) in
    let run := child_run cfds (w_pipe_cap w) (prog_script p)
                 (w_pipes w ++ [[]; []; []]) in
    w_fds w !! w1 = None /\ w_fds w !! r2 = None /\ w_fds w !! r3 = None /\
    w1 <> r2 /\ w1 <> r3 /\ r2 <> r3 /\
    cfds !! 1 = Some (FPipe (S n) WriteEnd) /\
    cfds !! 2 = Some (FPipe (S (S n)) WriteEnd) /\
    w_fds wW = <[r3 := FPipe (S (S n)) ReadEnd]>
                 (<[r2 := FPipe (S n) ReadEnd]>
                    (<[w1 := FPipe n WriteEnd]> (w_fds w))) /\
    w_pipes wW = run.2 /\ w_plan wW = [] /\ w_junk wW = w_junk w /\
    w_files wW = w_files w /\
    os_exec_process fuel exe args rc e0 o0 w =
      match run.1 with
      | [] =>
          (do out_stdout <- read_all_fd fuel r2 o0;
           do out_stderr <- read_all_fd fuel r3 e0;
           ret (wait_status (prog_term p), out_stderr, out_stdout))
            (log (EWaitpid (w_next_pid w) (w_next_pid w) (wait_status (prog_term p)))
               (set_procs [] wW))
      | _ => Blocks wW
      end.
Proof.
  intros Hready Hprog.
  destruct (ready_spec w Hready)
    as (Hpid & H0 & H1 & H2 & Hrange & Hprocs & Hplan & Hfplan).
  unfold os_exec_process.
  destruct (sys_pipe_ok w Hplan) as (r1 & w1 & Hr1 & Hw1 & Hn1 & Hp1).
  rewrite (bind_returns _ _ _ _ _ Hp1). cbn [Z.eqb negb].
  match goal with |- context [bind sys_pipe _ ?W] =>
    destruct (sys_pipe_ok W) as (r2 & w2 & Hr2 & Hw2 & Hn2 & Hp2); [done|] end.
  rewrite (bind_returns _ _ _ _ _ Hp2). cbn [Z.eqb negb].
  match goal with |- context [bind sys_pipe _ ?W] =>
    destruct (sys_pipe_ok W) as (r3 & w3 & Hr3 & Hw3 & Hn3 & Hp3); [done|] end.
  rewrite (bind_returns _ _ _ _ _ Hp3). cbn [Z.eqb negb].
  clear Hp1 Hp2 Hp3. wsimpl.
  rewrite !length_app in *. cbn [length] in *.
  replace (length (w_pipes w) + 1)%nat with (S (length (w_pipes w))) in * by lia.
  replace (S (length (w_pipes w)) + 1)%nat with (S (S (length (w_pipes w)))) in * by lia.
  set (n := length (w_pipes w)) in *.
  fresh_fd Hr2. fresh_fd Hw2. fresh_fd Hr3. fresh_fd Hw3.
  rewrite sys_fork_ok by done. wsimpl.
  cbn [Z.eqb].
  destruct (Z.eqb_spec (w_next_pid w) (-1)) as [|_]; [lia|].
  destruct (Z.eqb_spec (w_next_pid w) 0) as [|_]; [lia|].
  not_std r1 Hr1 H0. not_std w2 Hw2 H0. not_std w3 Hw3 H0.
  assert (w3 <> 1)
    by (intros E; rewrite E in Hw3; rewrite Hw3 in H1; by destruct H1).
  rewrite <- !app_assoc. cbn [app].
  match goal with |- context [child_view ?W] => set (wp := W) end.
  destruct (os_exec_process_child_execs exe args p r1 w2 w3 w1 r2 r3
              (FPipe n ReadEnd) (FPipe (S n) WriteEnd) (FPipe (S (S n)) WriteEnd)
              (child_view wp))
    as (cw' & Hchild & Hcfds); subst wp; wsimpl; try done.
  { by rewrite !lookup_insert_ne, lookup_insert_eq by done. }
  { by rewrite !lookup_insert_ne, lookup_insert_eq by done. }
  { by rewrite lookup_insert_eq. }
  rewrite Hchild. cbn [spawn]. wsimpl. rewrite Hprog, Hprocs. cbn [app].
  unfold advance_all. wsimpl. cbn [advance_list advance c_live c_fds c_todo].
  rewrite Hcfds.
  match goal with |- context [child_run ?F _ _ _] => set (cfds := F) end.
  exists w1, r2, r3, cfds.
  destruct (child_run cfds (w_pipe_cap w) (prog_script p)
              (w_pipes w ++ [[]; []; []])) as [todo pipes'] eqn:Hrun.
  assert (Hdom :
    delete w3 (delete w2 (delete r1
      (<[w3:=FPipe (S (S n)) WriteEnd]> (<[r3:=FPipe (S (S n)) ReadEnd]>
         (<[w2:=FPipe (S n) WriteEnd]> (<[r2:=FPipe (S n) ReadEnd]>
            (<[w1:=FPipe n WriteEnd]> (<[r1:=FPipe n ReadEnd]> (w_fds w)))))))))
    = <[r3 := FPipe (S (S n)) ReadEnd]>
        (<[r2 := FPipe (S n) ReadEnd]> (<[w1 := FPipe n WriteEnd]> (w_fds w)))).
  { apply map_eq. intros k.
    rewrite !lookup_delete, !lookup_insert.
    repeat (case_decide; subst; try done); congruence. }
  assert (Hc1 : cfds !! 1 = Some (FPipe (S n) WriteEnd))
    by (subst cfds; by rewrite lookup_insert_ne, lookup_insert_eq).
  assert (Hc2 : cfds !! 2 = Some (FPipe (S (S n)) WriteEnd))
    by (subst cfds; by rewrite lookup_insert_eq).
  destruct todo as [|a todo];
    cbn beta iota zeta delta [c_pid c_fds c_todo c_term c_live advance_list fst snd].
  - match goal with
    |- context [os_exec_process_parent _ _ _ _ _ _ _ _ ?W] =>
      pose proof (os_exec_process_parent_waits fuel
                    (mkChild (w_next_pid w) ∅ [] (prog_term p) false)
                    r1 w1 r2 w2 r3 w3 rc
                    (FPipe n ReadEnd) (FPipe (S n) WriteEnd)
                    (FPipe (S (S n)) WriteEnd) e0 o0 W) as Hpar
    end.
    cbn [c_pid c_live c_term] in Hpar.
    match type of Hpar with
    | _ -> _ -> _ -> _ -> _ -> _ -> _ -> _ -> _ = ?k (log _ (set_procs [] ?X)) =>
        exists X
    end.
    rewrite Hpar; clear Hpar; wsimpl; try done.
    all: by repeat (rewrite lookup_insert_eq || rewrite lookup_insert_ne by done).
  - match goal with
    |- context [os_exec_process_parent _ _ _ _ _ _ _ _ ?W] =>
      pose proof (os_exec_process_parent_waits fuel
                    (mkChild (w_next_pid w) cfds (a :: todo) (prog_term p) true)
                    r1 w1 r2 w2 r3 w3 rc
                    (FPipe n ReadEnd) (FPipe (S n) WriteEnd)
                    (FPipe (S (S n)) WriteEnd) e0 o0 W) as Hpar
    end.
    cbn [c_pid c_live c_term] in Hpar.
    match type of Hpar with
    | _ -> _ -> _ -> _ -> _ -> _ -> _ -> _ -> _ = Blocks ?X => exists X
    end.
    rewrite Hpar; clear Hpar; wsimpl; try done.
    all: by repeat (rewrite lookup_insert_eq || rewrite lookup_insert_ne by done).
Qed.

Lemma three_new_pipes (pipes : list (list byte)) :
  let n := length pipes in
  (pipes ++ [[]; []; []]) !! S n = Some [] /\
  (pipes ++ [[]; []; []]) !! S (S n) = Some [].
Proof.
  simpl. split.
  - rewrite lookup_app_r by lia.
    by replace (S (length pipes) - length pipes)%nat with 1%nat by lia.
  - rewrite lookup_app_r by lia.
    by replace (S (S (length pipes)) - length pipes)%nat with 2%nat by lia.
Qed.


(** A child whose output fits the pipes terminates, and the parent gets
    to drain two pipes that hold exactly what the child wrote. *)
Lemma os_exec_process_drains (fuel : nat) (exe : string) (args : list string)
    (rc : Z) (e0 o0 : Buf) (w : world) (p : program) :
  ready w = true -> w_programs w exe (make_argv exe args) = Some p ->
  plain (prog_script p) = true ->
  (length (writes_to STDOUT_FILENO (prog_script p)) <= w_pipe_cap w)%nat ->
  (length (writes_to STDERR_FILENO (prog_script p)) <= w_pipe_cap w)%nat ->
  exists (w1 r2 r3 : Z) (io ie : nat) (wR : world),
    w_fds w !! w1 = None /\ w_fds w !! r2 = None /\ w_fds w !! r3 = None /\
    w1 <> r2 /\ w1 <> r3 /\ r2 <> r3 /\ io <> ie /\
    w_fds wR = <[r3 := FPipe ie ReadEnd]>
                 (<[r2 := FPipe io ReadEnd]>
                    (<[w1 := FPipe (length (w_pipes w)) WriteEnd]> (w_fds w))) /\
    w_junk wR = w_junk w /\ w_files wR = w_files w /\
    drainable r2 io (writes_to STDOUT_FILENO (prog_script p)) wR /\
    drainable r3 ie (writes_to STDERR_FILENO (prog_script p)) wR /\
    os_exec_process fuel exe args rc e0 o0 w =
      (do out_stdout <- read_all_fd fuel r2 o0;
       do out_stderr <- read_all_fd fuel r3 e0;
       ret (wait_status (prog_term p), out_stderr, out_stdout)) wR.
Proof.
  intros Hready Hprog Hplain Hout Herr.
  destruct (os_exec_process_run fuel exe args rc e0 o0 w p Hready Hprog)
    as (w1 & r2 & r3 & cfds & wW & Hw1 & Hr2 & Hr3 & Hn12 & Hn13 & Hn23
        & Hc1 & Hc2 & Hfds & Hpipes & Hplan & Hjunk & Hfiles & Hrun).
  destruct (ready_spec w Hready) as (_ & _ & _ & _ & Hrange & _).
  destruct (three_new_pipes (w_pipes w)) as [Ho He].
  set (n := length (w_pipes w)) in *.
  pose proof (child_run_plain cfds (w_pipe_cap w) _ _ Hc1 Hc2 ltac:(lia)
                (prog_script p) _ [] [] Hplain Ho He Hout Herr) as Hchild.
  simpl in Hrun, Hpipes, Hchild. rewrite Hchild in Hrun, Hpipes. simpl in Hrun, Hpipes.
  assert (Hlen : length (w_pipes w ++ [[]; []; []]) = (n + 3)%nat)
    by (rewrite length_app; simpl; lia).
  assert (Hnw : forall id, (n < id)%nat -> holds_write_end id (w_fds wW) = false).
  { intros id Hid. apply holds_write_end_false. intros fd o. rewrite Hfds.
    rewrite !lookup_insert. repeat case_decide; subst.
    - by intros [= <-].
    - by intros [= <-].
    - intros [= <-]. simpl. apply Nat.eqb_neq. lia.
    - intros Hfd. destruct o as [id' [|]| |]; try done.
      apply Hrange in Hfd. simpl. apply Nat.eqb_neq. lia. }
  exists w1, r2, r3, (S n), (S (S n)),
    (log (EWaitpid (w_next_pid w) (w_next_pid w) (wait_status (prog_term p)))
       (set_procs [] wW)).
  wsimpl. do 7 (split; [done || lia|]).
  split; [done|]. split; [done|]. split; [done|].
  split; [|split; [|exact Hrun]].
  - repeat split; wsimpl; try done.
    + rewrite Hfds. by rewrite lookup_insert_ne, lookup_insert_eq.
    + rewrite Hpipes. rewrite list_lookup_insert_ne by lia.
      apply list_lookup_insert_eq. lia.
    + apply Hnw. lia.
  - repeat split; wsimpl; try done.
    + rewrite Hfds. by rewrite lookup_insert_eq.
    + rewrite Hpipes. apply list_lookup_insert_eq. rewrite length_insert. lia.
    + apply Hnw. lia.
Qed.

Lemma drained_from_fds (id : nat) (w w' : world) :
  drained_from id w w' ->
  w_fds w' = w_fds w /\ w_files w' = w_files w /\ w_junk w' = w_junk w.
Proof. by intros [evs ->]. Qed.

(** Whenever the child's output fits the pipes, the call returns, and the
    caller is left with three more open descriptors than it had. *)
Lemma os_exec_process_returns (fuel : nat) (exe : string) (args : list string)
    (rc : Z) (e0 o0 : Buf) (w : world) (p : program) :
  ready w = true -> w_programs w exe (make_argv exe args) = Some p ->
  plain (prog_script p) = true ->
  let out := writes_to STDOUT_FILENO (prog_script p) in
  let err := writes_to STDERR_FILENO (prog_script p) in
  (length out <= w_pipe_cap w)%nat -> (length err <= w_pipe_cap w)%nat ->
  (length out < fuel)%nat -> (length err < fuel)%nat ->
  exists (out' err' : Buf) (w' : world) (w1 r2 r3 : Z) (io ie : nat),
    os_exec_process fuel exe args rc e0 o0 w
    = Returns (wait_status (prog_term p), err', out') w' /\
    buf_len out' = buf_len out /\ buf_len err' = buf_len err /\
    (buf_len out <= buf_size -> out' = out) /\
    (buf_len err <= buf_size -> err' = err) /\
    w_fds w !! w1 = None /\ w_fds w !! r2 = None /\ w_fds w !! r3 = None /\
    w1 <> r2 /\ w1 <> r3 /\ r2 <> r3 /\
    w_fds w' = <[r3 := FPipe ie ReadEnd]>
                 (<[r2 := FPipe io ReadEnd]>
                    (<[w1 := FPipe (length (w_pipes w)) WriteEnd]> (w_fds w))).
Proof.
  intros Hready Hprog Hplain out err Hout Herr Hfo Hfe.
  destruct (os_exec_process_drains fuel exe args rc e0 o0 w p
              Hready Hprog Hplain Hout Herr)
    as (w1 & r2 & r3 & io & ie & wR & Hw1 & Hr2 & Hr3 & Hn12 & Hn13 & Hn23 & Hio
        & Hfds & Hjunk & Hfiles & Hdo & Hde & Hrun).
  fold out in Hdo. fold err in Hde.
  destruct (read_all_fd_returns r2 io fuel out wR o0 Hdo Hfo)
    as (out' & w2 & Hread1 & Hdr1 & Hlen1).
  assert (Hout' : buf_len out <= buf_size -> out' = out).
  { intros Hsmall. destruct (decide (2 <= fuel)%nat) as [Hf|Hf].
    - destruct (read_all_fd_exact r2 io fuel out wR o0 Hdo Hsmall Hf)
        as (w2' & Hex & _). congruence.
    - unfold buf_len in Hlen1. destruct out, out'; simpl in *; done || lia. }
  pose proof (drained_still_drainable r2 r3 io ie out err wR w2 Hdr1 Hdo Hde Hio)
    as Hde'.
  destruct (read_all_fd_returns r3 ie fuel err w2 e0 Hde' Hfe)
    as (err' & w3 & Hread2 & Hdr2 & Hlen2).
  assert (Herr' : buf_len err <= buf_size -> err' = err).
  { intros Hsmall. destruct (decide (2 <= fuel)%nat) as [Hf|Hf].
    - destruct (read_all_fd_exact r3 ie fuel err w2 e0 Hde' Hsmall Hf)
        as (w3' & Hex & _). congruence.
    - unfold buf_len in Hlen2. destruct err, err'; simpl in *; done || lia. }
  exists out', err', w3, w1, r2, r3, io, ie.
  split.
  { rewrite Hrun. rewrite (bind_returns _ _ _ _ _ Hread1).
    rewrite (bind_returns _ _ _ _ _ Hread2). reflexivity. }
  do 10 (split; [done|]).
  destruct (drained_from_fds _ _ _ Hdr2) as (-> & _).
  destruct (drained_from_fds _ _ _ Hdr1) as (-> & _).
  exact Hfds.
Qed.

(** ** The wait status *)

Lemma wait_status_exited (code : Z) :
  0 <= code <= 255 ->
  wait_status (Exited code) = 256 * code /\
  WIFEXITED (wait_status (Exited code)) = true /\
  WEXITSTATUS (wait_status (Exited code)) = code.
Proof.
  intros Hc. unfold wait_status, WIFEXITED, WEXITSTATUS.
  assert (Hland : Z.land code 255 = code).
  { change 255 with (Z.ones 8). rewrite Z.land_ones by lia.
    apply Z.mod_small. simpl. lia. }
  rewrite Hland. rewrite Z.shiftl_mul_pow2 by lia.
  change (2 ^ 8) with 256. split; [lia|]. split.
  - apply Z.eqb_eq. change 127 with (Z.ones 7). rewrite Z.land_ones by lia.
    change (2 ^ 7) with 128. replace (code * 256) with ((code * 2) * 128) by lia.
    apply Z.mod_mul. lia.
  - change 65280 with (Z.shiftl 255 8).
    replace (code * 256) with (Z.shiftl code 8)
      by (rewrite Z.shiftl_mul_pow2 by lia; reflexivity).
    rewrite <- Z.shiftl_land, Hland.
    rewrite Z.shiftr_shiftl_l by lia. reflexivity.
Qed.

(** ** [os_write_file] *)

Lemma write_flags_bits :
  has_flag write_flags O_CREAT = true /\ has_flag write_flags O_TRUNC = true.
Proof. split; reflexivity. Qed.

Lemma plan_at_hd (w : world) : hd NoFault (w_plan w) = plan_at 0 w.
Proof. unfold plan_at. by destruct (w_plan w). Qed.

Lemma nth_tl (k : nat) (l : list fault) :
  nth k (tl l) NoFault = nth (S k) l NoFault.
Proof. by destruct l; [destruct k|]. Qed.

Lemma sys_open_create (path : string) (w : world) :
  sys_open path write_flags S_IRWXU w =
    let w0 := set_plan (tl (w_plan w)) w in
    if is_fault (plan_at 0 w)
    then Returns (-1) (log (EOpen path write_flags S_IRWXU (-1)) w0)
    else
      match alloc_fd (w_fds w) with
      | Some fd =>
          Returns fd
            (log (EOpen path write_flags S_IRWXU fd)
               (set_fds (<[fd := FFile path 0]> (w_fds w))
                  (set_files
                     (<[path := mkFile (mode_after_open path S_IRWXU w) []]>
                        (w_files w)) w0)))
      | None => Returns (-1) (log (EOpen path write_flags S_IRWXU (-1)) w0)
      end.
Proof.
  unfold sys_open, next_fault, mode_after_open. wsimpl. rewrite plan_at_hd.
  destruct (is_fault (plan_at 0 w)); [reflexivity|].
  destruct write_flags_bits as [-> ->].
  destruct (w_files w !! path), (alloc_fd (w_fds w)); reflexivity.
Qed.

Lemma sys_write_file (fd : Z) (path : string) (pos : nat) (fl : file)
    (data : list byte) (w : world) :
  w_fds w !! fd = Some (FFile path pos) -> w_files w !! path = Some fl ->
  sys_write fd data w =
    let w0 := set_plan (tl (w_plan w)) w in
    if is_fault (plan_at 0 w)
    then Returns (-1) (log (EWrite fd data (-1)) w0)
    else
      let chunk := match plan_at 0 w with Partial n => take n data | _ => data end in
      Returns (buf_len chunk)
        (log (EWrite fd data (buf_len chunk))
           (set_fds (<[fd := FFile path (pos + length chunk)]> (w_fds w))
              (set_files
                 (<[path := mkFile (f_mode fl)
                              (take pos (f_data fl) ++ chunk
                                 ++ drop (pos + length chunk) (f_data fl))]>
                    (w_files w)) w0))).
Proof.
  intros Hfd Hfl. unfold sys_write, next_fault. wsimpl. rewrite plan_at_hd.
  rewrite Hfd, Hfl. destruct (plan_at 0 w); reflexivity.
Qed.

Lemma sys_close_open (fd : Z) (o : fobj) (w : world) :
  w_fds w !! fd = Some o ->
  sys_close fd w =
    let r := if is_fault (plan_at 0 w) then -1 else 0 in
    Returns r (log (EClose fd r)
                 (set_fds (delete fd (w_fds w)) (set_plan (tl (w_plan w)) w))).
Proof.
  intros Hfd. unfold sys_close, next_fault. wsimpl. rewrite plan_at_hd.
  by rewrite Hfd.
Qed.

Lemma accepts_chunk (f : fault) (data : list byte) :
  is_fault f = false ->
  let chunk := match f with Partial n => take n data | _ => data end in
  if accepts f data then chunk = data else buf_len chunk <> buf_len data.
Proof.
  intros Hf. destruct f as [| |n]; simpl; [done | done |].
  destruct (Nat.leb_spec (length data) n).
  - by apply take_ge.
  - unfold buf_len. rewrite length_take. lia.
Qed.

(** What [os_write_file] does, by the faults that await its three
    system calls. *)
Lemma os_write_file_spec (full_path contents : Buf) (w : world) :
  let path := c_str full_path in
  exists fd : Z,
    0 <= fd /\ w_fds w !! fd = None /\
    if is_fault (plan_at 0 w) then
      exists w', os_write_file full_path contents w = Panics "open failed" w' /\
        w_log w' = w_log w ++ [EOpen path write_flags S_IRWXU (-1)]
    else if negb (accepts (plan_at 1 w) contents) then
      exists w' n, os_write_file full_path contents w = Panics "write failed: %s" w' /\
        n <> buf_len contents /\
        w_log w' = w_log w ++ [EOpen path write_flags S_IRWXU fd;
                               EWrite fd contents n]
    else if is_fault (plan_at 2 w) then
      exists w', os_write_file full_path contents w = Panics "close failed" w' /\
        w_log w' = w_log w ++ [EOpen path write_flags S_IRWXU fd;
                               EWrite fd contents (buf_len contents);
                               EClose fd (-1)]
    else
      exists w', os_write_file full_path contents w = Returns tt w' /\
        w_log w' = w_log w ++ [EOpen path write_flags S_IRWXU fd;
                               EWrite fd contents (buf_len contents);
                               EClose fd 0] /\
        w_fds w' = w_fds w /\
        w_files w' = <[path := mkFile (mode_after_open path S_IRWXU w) contents]>
                       (w_files w).
Proof.
  intros path. destruct (alloc_fd_fresh (w_fds w)) as (fd & Hfd & Hfree & Hpos).
  exists fd. split; [done|]. split; [done|].
  assert (Hlen : 0 <= buf_len contents) by (unfold buf_len; lia).
  assert (Hfdne : (fd =? -1) = false) by (apply Z.eqb_neq; lia).
  remember (os_write_file full_path contents w) as o eqn:Ho.
  unfold os_write_file in Ho. fold path in Ho.
  unfold bind at 1 in Ho. rewrite sys_open_create in Ho. cbv zeta in Ho.
  destruct (is_fault (plan_at 0 w)) eqn:F1.
  { cbn [Z.eqb] in Ho. subst o. eexists. split; reflexivity. }
  rewrite Hfd, Hfdne in Ho.
  unfold bind at 1 in Ho.
  erewrite sys_write_file in Ho;
    [| wsimpl; apply lookup_insert_eq | wsimpl; apply lookup_insert_eq ].
  cbv zeta in Ho. plan_step Ho nth_tl.
  destruct (is_fault (plan_at 1 w)) eqn:F2.
  { destruct (plan_at 1 w); try discriminate. simpl negb. cbv iota.
    replace (-1 =? buf_len contents) with false in Ho
      by (symmetry; apply Z.eqb_neq; lia).
    cbn [negb] in Ho. subst o. eexists _, (-1). split; [reflexivity|].
    split; [lia|]. wsimpl. by rewrite <- app_assoc. }
  pose proof (accepts_chunk (plan_at 1 w) contents F2) as Hchunk. cbv zeta in Hchunk.
  destruct (accepts (plan_at 1 w) contents) eqn:A2; cbn [negb].
  2:{ apply Z.eqb_neq in Hchunk. rewrite Hchunk in Ho. cbn [negb] in Ho. subst o.
      eexists _, _. split; [reflexivity|]. split; [by apply Z.eqb_neq|].
      wsimpl. by rewrite <- app_assoc. }
  rewrite Hchunk in Ho. rewrite Z.eqb_refl in Ho. cbn [negb] in Ho.
  unfold bind at 1 in Ho.
  erewrite sys_close_open in Ho; [| wsimpl; apply lookup_insert_eq ].
  cbv zeta in Ho. plan_step Ho nth_tl.
  destruct (is_fault (plan_at 2 w)) eqn:F3; cbn [Z.eqb] in Ho; subst o.
  { eexists. split; [reflexivity|]. wsimpl. by rewrite <- !app_assoc. }
  eexists. split; [reflexivity|]. wsimpl.
  split; [by rewrite <- !app_assoc|]. split.
  - rewrite delete_insert_eq, delete_insert_eq. by apply delete_id.
  - rewrite insert_insert_eq. cbn [f_mode f_data].
    by rewrite drop_nil, app_nil_r.
Qed.

(** ** Failures of the set-up calls *)








(** ** [os_spawn_process] *)




(** ** The run of [os_exec_process], call by call *)

(** Two worlds with the same components are the same world. *)
Lemma world_ext (w w' : world) :
  w_fds w = w_fds w' -> w_pipes w = w_pipes w' -> w_files w = w_files w' ->
  w_procs w = w_procs w' -> w_next_pid w = w_next_pid w' ->
  w_plan w = w_plan w' -> w_fork_plan w = w_fork_plan w' ->
  w_log w = w_log w' -> w_pipe_cap w = w_pipe_cap w' ->
  w_umask w = w_umask w' -> w_programs w = w_programs w' ->
  w_junk w = w_junk w' -> w = w'.
Proof. destruct w, w'. simpl. intros. by subst. Qed.

Lemma NoDup_6 (a b c d e f : Z) :
  NoDup [a; b; c; d; e; f] <->
  a <> b /\ a <> c /\ a <> d /\ a <> e /\ a <> f /\ b <> c /\ b <> d /\ b <> e /\
  b <> f /\ c <> d /\ c <> e /\ c <> f /\ d <> e /\ d <> f /\ e <> f.
Proof.
  rewrite !NoDup_cons, !not_elem_of_cons.
  split; [tauto|]. intros H.
  repeat split; try tauto; try apply not_elem_of_nil. apply NoDup_nil_2.
Qed.

Lemma tl_drop (n : nat) (l : list fault) : tl (drop n l) = drop (S n) l.
Proof.
  revert l. induction n as [|n IH]; intros [|x l]; simpl; auto.
Qed.

Lemma first_free_least (fds : gmap Z fobj) (fuel : nat) :
  forall n r, first_free fds fuel n = Some r ->
              forall k, n <= k < r -> is_Some (fds !! k).
Proof.
  induction fuel as [|fuel IH]; intros n r; simpl; [discriminate|].
  destruct (fds !! n) eqn:E.
  - intros Hr k Hk. destruct (decide (k = n)) as [->|]; [by rewrite E|].
    apply (IH (n + 1) r Hr). lia.
  - intros [= <-] k Hk. lia.
Qed.

(** [alloc_fd] hands out the lowest descriptor that is not in use. *)
Lemma alloc_fd_least (fds : gmap Z fobj) :
  exists r, alloc_fd fds = Some r /\ fds !! r = None /\ 0 <= r /\
            forall k, 0 <= k < r -> is_Some (fds !! k).
Proof.
  destruct (alloc_fd_fresh fds) as (r & Hr & Hfree & Hpos).
  exists r. repeat split; try done. by apply (first_free_least fds _ 0 r Hr).
Qed.

(** A [pipe] that succeeds takes the two lowest free descriptors, the
    read end below the write end. *)
Lemma sys_pipe_run (w : world) :
  is_fault (plan_at 0 w) = false ->
  exists rd wr,
    w_fds w !! rd = None /\ w_fds w !! wr = None /\ 0 <= rd < wr /\
    (forall k, 0 <= k < wr -> k <> rd -> is_Some (w_fds w !! k)) /\
    sys_pipe w =
      Returns (0, (rd, wr))
        (log (EPipe 0 rd wr)
           (set_fds (<[wr := FPipe (length (w_pipes w)) WriteEnd]>
                       (<[rd := FPipe (length (w_pipes w)) ReadEnd]> (w_fds w)))
              (set_pipes (w_pipes w ++ [[]]) (set_plan (tl (w_plan w)) w)))).
Proof.
  intros Hf.
  destruct (alloc_fd_least (w_fds w)) as (rd & Hrd & Hfree & Hpos & Hleast).
  destruct (alloc_fd_least (<[rd := FPipe (length (w_pipes w)) ReadEnd]> (w_fds w)))
    as (wr & Hwr & Hfree' & Hpos' & Hleast').
  apply lookup_insert_None in Hfree' as [Hfree' Hne].
  assert (Hlow : forall k, 0 <= k < wr -> k <> rd -> is_Some (w_fds w !! k)).
  { intros k Hk Hkr. specialize (Hleast' k Hk).
    by rewrite lookup_insert_ne in Hleast'. }
  assert (rd < wr).
  { destruct (Z.lt_trichotomy rd wr) as [|[|Hlt]]; [done | congruence |].
    destruct (Hleast wr ltac:(lia)) as [o Ho]. congruence. }
  exists rd, wr. repeat split; [done | done | done | done | done |].
  unfold sys_pipe, next_fault. rewrite plan_at_hd, Hf. wsimpl.
  rewrite Hrd, Hwr. reflexivity.
Qed.

Lemma sys_fork_run {A} (k : Z -> M A) (w : world) :
  is_fault (plan_at 0 w) = false ->
  sys_fork k w =
    let w0 := set_plan (tl (w_plan w)) w in
    k (w_next_pid w)
      (advance_all
         (log (EFork (w_next_pid w))
            (set_next_pid (w_next_pid w + 1)
               (set_procs
                  (w_procs w ++ [spawn (w_next_pid w) (k 0 (child_view w0)) w0])
                  w0)))).
Proof.
  intros Hf. unfold sys_fork, next_fault. rewrite plan_at_hd, Hf. reflexivity.
Qed.

Lemma advance_all_log (w : world) : w_log (advance_all w) = w_log w.
Proof.
  unfold advance_all.
  by destruct (advance_list (w_pipe_cap w) (w_procs w) (w_pipes w)).
Qed.

Lemma drop_tl3 (l : list fault) : tl (tl (tl l)) = drop 3 l.
Proof. by destruct l as [|? [|? [|? ?]]]. Qed.

(** The three [close] of the parent branch: their results are not
    looked at, and each releases its descriptor. *)
Lemma os_exec_process_parent_closes (fuel : nat) (pid r1 w1 r2 w2 r3 w3 rc : Z)
    (x1 x2 x3 : fobj) (e0 o0 : Buf) (w : world) :
  w_fds w !! r1 = Some x1 -> w_fds w !! w2 = Some x2 -> w_fds w !! w3 = Some x3 ->
  r1 <> w2 -> r1 <> w3 -> w2 <> w3 ->
  os_exec_process_parent fuel pid (r1, w1) (r2, w2) (r3, w3) rc e0 o0 w =
    (do (_, return_code) <- sys_waitpid pid rc;
     do out_stdout <- read_all_fd fuel r2 o0;
     do out_stderr <- read_all_fd fuel r3 e0;
     ret (return_code, out_stderr, out_stdout))
      (set_log (w_log w ++ [EClose r1 (close_result (plan_at 0 w));
                            EClose w2 (close_result (plan_at 1 w));
                            EClose w3 (close_result (plan_at 2 w))])
         (set_fds (delete w3 (delete w2 (delete r1 (w_fds w))))
            (set_plan (drop 3 (w_plan w)) w))).
Proof.
  intros H1 H2 H3 Hn12 Hn13 Hn23.
  unfold os_exec_process_parent. cbn [fst snd].
  erewrite bind_returns; [|by eapply sys_close_open].
  erewrite bind_returns;
    [|eapply sys_close_open; wsimpl; by rewrite lookup_delete_ne].
  erewrite bind_returns;
    [|eapply sys_close_open; wsimpl; by rewrite !lookup_delete_ne].
  cbv zeta. f_equal. apply world_ext; wsimpl; try done.
  - apply drop_tl3.
  - unfold plan_at. wsimpl. rewrite !nth_tl. unfold close_result.
    by rewrite <- !app_assoc.
Qed.

Lemma callable_spec (w : world) :
  callable w = true ->
  0 < w_next_pid w /\
  (forall fd id e, w_fds w !! fd = Some (FPipe id e) ->
                   (id < length (w_pipes w))%nat) /\
  w_procs w = [] /\ w_fork_plan w = [].
Proof.
  unfold callable, no_children.
  rewrite !andb_true_iff. intros [[[H1 H2] H3] H4].
  split; [lia|]. split.
  { intros fd id e Hfd. rewrite forallb_forall in H2.
    specialize (H2 (fd, FPipe id e)). simpl in H2.
    apply Nat.ltb_lt, H2, list_elem_of_In, elem_of_map_to_list. exact Hfd. }
  destruct (w_procs w); [|discriminate].
  by destruct (w_fork_plan w).
Qed.

Lemma ready_callable (w : world) : ready (set_plan [] w) = true -> callable w = true.
Proof.
  unfold ready, callable, no_faults. wsimpl.
  rewrite !andb_true_iff. intros [[[[[[H1 _] _] _] H5] H6] H7].
  repeat split; done.
Qed.

(** The run of [os_exec_process] up to the point where the parent calls
    [waitpid], when the four set-up calls succeed. *)
Lemma os_exec_process_trace (fuel : nat) (exe : string) (args : list string)
    (rc : Z) (e0 o0 : Buf) (w : world) (p : program) :
  callable w = true ->
  (forall k, (k < 4)%nat -> is_fault (plan_at k w) = false) ->
  w_programs w exe (make_argv exe args) = Some p ->
  exists (r1 w1 r2 w2 r3 w3 : Z) (cfds : gmap Z fobj),
    let n := length (w_pipes w) in
    let pid := w_next_pid w in
    let run := child_run cfds (w_pipe_cap w) (prog_script p)
                 (w_pipes w ++ [[]; []; []]) in
    let ch := match run.1 with
              | [] => mkChild pid ∅ [] (prog_term p) false
              | todo => mkChild pid cfds todo (prog_term p) true
              end in
    let wW :=
      set_log (w_log w ++ [EPipe 0 r1 w1; EPipe 0 r2 w2; EPipe 0 r3 w3;
                           EFork pid;
                           EClose r1 (close_result (plan_at 4 w));
                           EClose w2 (close_result (plan_at 5 w));
                           EClose w3 (close_result (plan_at 6 w))])
        (set_fds (<[r3 := FPipe (S (S n)) ReadEnd]>
                    (<[r2 := FPipe (S n) ReadEnd]>
                       (<[w1 := FPipe n WriteEnd]> (w_fds w))))
           (set_pipes run.2
              (set_procs [ch]
                 (set_next_pid (pid + 1)
                    (set_plan (drop 7 (w_plan w)) w))))) in
    w_fds w !! r1 = None /\ w_fds w !! w1 = None /\ w_fds w !! r2 = None /\
    w_fds w !! w2 = None /\ w_fds w !! r3 = None /\ w_fds w !! w3 = None /\
    NoDup [r1; w1; r2; w2; r3; w3] /\
    (0 <= r1 < w1 /\ w1 < r2 < w2 /\ w2 < r3 < w3) /\
    cfds = <[2 := FPipe (S (S n)) WriteEnd]>
             (<[1 := FPipe (S n) WriteEnd]>
                (<[0 := FPipe n ReadEnd]>
                   (<[w3 := FPipe (S (S n)) WriteEnd]>
                      (<[r3 := FPipe (S (S n)) ReadEnd]>
                         (<[w2 := FPipe (S n) WriteEnd]>
                            (<[r2 := FPipe (S n) ReadEnd]>
                               (<[w1 := FPipe n WriteEnd]>
                                  (<[r1 := FPipe n ReadEnd]> (w_fds w))))))))) /\
    os_exec_process fuel exe args rc e0 o0 w =
      (do (_, return_code) <- sys_waitpid pid rc;
       do out_stdout <- read_all_fd fuel r2 o0;
       do out_stderr <- read_all_fd fuel r3 e0;
       ret (return_code, out_stderr, out_stdout)) wW.
Proof.
  intros Hcall Hplan Hprog.
  destruct (callable_spec _ Hcall) as (Hpid & Hrange & Hprocs & Hfplan).
  unfold os_exec_process.
  destruct (sys_pipe_run w (Hplan 0%nat ltac:(lia)))
    as (r1 & w1 & Hr1 & Hw1 & Ho1 & Hl1 & Hp1).
  rewrite (bind_returns _ _ _ _ _ Hp1). cbn [Z.eqb negb].
  match goal with |- context [bind sys_pipe _ ?W] =>
    destruct (sys_pipe_run W) as (r2 & w2 & Hr2 & Hw2 & Ho2 & Hl2 & Hp2);
      [plan_goal nth_tl; apply (Hplan 1%nat); lia|] end.
  rewrite (bind_returns _ _ _ _ _ Hp2). cbn [Z.eqb negb].
  match goal with |- context [bind sys_pipe _ ?W] =>
    destruct (sys_pipe_run W) as (r3 & w3 & Hr3 & Hw3 & Ho3 & Hl3 & Hp3);
      [plan_goal nth_tl; apply (Hplan 2%nat); lia|] end.
  rewrite (bind_returns _ _ _ _ _ Hp3). cbn [Z.eqb negb].
  clear Hp1 Hp2 Hp3. wsimpl.
  rewrite !length_app in *. cbn [length] in *.
  replace (length (w_pipes w) + 1)%nat with (S (length (w_pipes w))) in * by lia.
  replace (S (length (w_pipes w)) + 1)%nat with (S (S (length (w_pipes w)))) in * by lia.
  set (n := length (w_pipes w)) in *.
  fresh_fd Hr2. fresh_fd Hw2. fresh_fd Hr3. fresh_fd Hw3.
  rewrite sys_fork_run by (plan_goal nth_tl; apply (Hplan 3%nat); lia).
  cbv zeta. wsimpl. cbn [Z.eqb].
  destruct (Z.eqb_spec (w_next_pid w) (-1)) as [|_]; [lia|].
  destruct (Z.eqb_spec (w_next_pid w) 0) as [|_]; [lia|].
  assert (Hord : 0 <= r1 < w1 /\ w1 < r2 < w2 /\ w2 < r3 < w3).
  { assert (w1 < r2).
    { destruct (Z.lt_trichotomy w1 r2) as [|[|Hlt]]; [done | congruence |].
      destruct (Hl1 r2 ltac:(lia) ltac:(congruence)) as [o Ho]. congruence. }
    assert (w2 < r3).
    { destruct (Z.lt_trichotomy w2 r3) as [|[|Hlt]]; [done | congruence |].
      destruct (Hl2 r3 ltac:(lia) ltac:(congruence)) as [o Ho].
      rewrite !lookup_insert_ne in Ho by congruence. congruence. }
    lia. }
  assert (w2 <> 0) by (clear -Hord; lia).
  assert (w3 <> 0) by (clear -Hord; lia).
  assert (w3 <> 1) by (clear -Hord; lia).
  assert (Hn1 : r1 <> w1) by (clear -Hord; lia).
  assert (Hn2 : r2 <> w2) by (clear -Hord; lia).
  assert (Hn3 : r3 <> w3) by (clear -Hord; lia).
  rewrite <- !app_assoc. cbn [app].
  match goal with |- context [child_view ?W] => set (wp := W) end.
  destruct (os_exec_process_child_execs exe args p r1 w2 w3 w1 r2 r3
              (FPipe n ReadEnd) (FPipe (S n) WriteEnd) (FPipe (S (S n)) WriteEnd)
              (child_view wp))
    as (cw' & Hchild & Hcfds); subst wp; wsimpl; try done.
  { by rewrite !lookup_insert_ne, lookup_insert_eq by done. }
  { by rewrite !lookup_insert_ne, lookup_insert_eq by done. }
  { by rewrite lookup_insert_eq. }
  rewrite Hchild. cbn [spawn]. wsimpl. rewrite Hprog, Hprocs. cbn [app].
  unfold advance_all. wsimpl. cbn [advance_list advance c_live c_fds c_todo].
  rewrite Hcfds.
  match goal with |- context [child_run ?F _ _ _] => set (cfds := F) end.
  exists r1, w1, r2, w2, r3, w3, cfds. cbv zeta.
  do 6 (split; [done|]).
  split.
  { apply NoDup_6. repeat split; congruence. }
  split; [done|]. split; [done|].
  destruct (child_run cfds (w_pipe_cap w) (prog_script p)
              (w_pipes w ++ [[]; []; []])) as [todo pipes'] eqn:Hrun.
  assert (Hdom :
    delete w3 (delete w2 (delete r1
      (<[w3:=FPipe (S (S n)) WriteEnd]> (<[r3:=FPipe (S (S n)) ReadEnd]>
         (<[w2:=FPipe (S n) WriteEnd]> (<[r2:=FPipe (S n) ReadEnd]>
            (<[w1:=FPipe n WriteEnd]> (<[r1:=FPipe n ReadEnd]> (w_fds w)))))))))
    = <[r3 := FPipe (S (S n)) ReadEnd]>
        (<[r2 := FPipe (S n) ReadEnd]> (<[w1 := FPipe n WriteEnd]> (w_fds w)))).
  { apply map_eq. intros k.
    rewrite !lookup_delete, !lookup_insert.
    repeat (case_decide; subst; try done); congruence. }
  rewrite (os_exec_process_parent_closes fuel (w_next_pid w) r1 w1 r2 w2 r3 w3 rc
             (FPipe n ReadEnd) (FPipe (S n) WriteEnd) (FPipe (S (S n)) WriteEnd));
    try done.
  2-4: destruct todo; wsimpl;
    by repeat (rewrite lookup_insert_eq || rewrite lookup_insert_ne by done).
  f_equal.
  destruct todo as [|a todo]; apply world_ext; wsimpl; try done.
  all: try (by destruct (w_plan w) as [|? [|? [|? [|? ?]]]]).
  all: try (unfold plan_at; wsimpl; rewrite !nth_tl, <- !app_assoc; reflexivity).
Qed.

(** *** Reading while terminated children are still in the process table *)

Lemma advance_list_quiet (cap : nat) (cs : list child) (pipes : list (list byte)) :
  quiet cs = true -> advance_list cap cs pipes = (cs, pipes).
Proof.
  induction cs as [|c cs IH]; [done|]. simpl.
  intros [Hc Hcs]%andb_true_iff. unfold advance.
  destruct (c_live c); [done|]. by rewrite IH.
Qed.

Lemma advance_all_quiet (w : world) :
  quiet (w_procs w) = true -> advance_all w = w.
Proof.
  intros Hq. unfold advance_all. rewrite advance_list_quiet by done.
  by destruct w.
Qed.

Lemma has_writer_quiet (id : nat) (w : world) :
  quiet (w_procs w) = true -> has_writer id w = holds_write_end id (w_fds w).
Proof.
  intros Hq. unfold has_writer.
  replace (existsb _ (w_procs w)) with false; [apply orb_false_r|].
  symmetry. apply not_true_is_false. intros Hex.
  apply existsb_exists in Hex as (c & Hin & Hc).
  unfold quiet in Hq. rewrite forallb_forall in Hq. specialize (Hq c Hin).
  destruct (c_live c); done.
Qed.

Lemma sys_read_frame (fd len : Z) (cs : list child) (w : world) :
  quiet cs = true -> w_procs w = [] ->
  sys_read fd len (set_procs cs w) = on_world (set_procs cs) (sys_read fd len w) /\
  w_procs (final_world (sys_read fd len w)) = [].
Proof.
  intros Hq Hprocs. unfold sys_read, next_fault. wsimpl.
  destruct (is_fault (hd NoFault (w_plan w))); [by split|].
  destruct (w_fds w !! fd) as [[id [|]|path pos|]|]; try by split.
  destruct (w_pipes w !! id) as [q|]; [|by split].
  destruct (take (Z.to_nat len) q) as [|c data] eqn:Hdata.
  - destruct (len <=? 0); [by split|].
    rewrite !has_writer_quiet by (wsimpl; by rewrite ?Hprocs).
    wsimpl. destruct (holds_write_end id (w_fds w)); by split.
  - rewrite !advance_all_quiet by (wsimpl; by rewrite ?Hprocs).
    by split.
Qed.

Lemma read_all_loop_frame (fd : Z) (cs : list child) :
  quiet cs = true ->
  forall (fuel : nat) (b : Buf) (actual : Z) (w : world),
    w_procs w = [] ->
    read_all_loop fuel fd b actual (set_procs cs w)
    = on_world (set_procs cs) (read_all_loop fuel fd b actual w).
Proof.
  intros Hq. induction fuel as [|fuel IH]; intros b actual w Hprocs; [done|].
  cbn [read_all_loop]. unfold bind.
  destruct (sys_read_frame fd (buf_len b) cs w Hq Hprocs) as [-> Hp].
  destruct (sys_read fd (buf_len b) w) as [[amt data] w'| | | |]; try done.
  cbn [on_world final_world] in *.
  destruct (amt <? 0); [done|]. destruct (amt =? 0); [done|].
  wsimpl. by apply IH.
Qed.

Lemma read_all_fd_frame (fd : Z) (cs : list child) (fuel : nat) (b : Buf)
    (w : world) :
  quiet cs = true -> w_procs w = [] ->
  read_all_fd fuel fd b (set_procs cs w)
  = on_world (set_procs cs) (read_all_fd fuel fd b w).
Proof. intros Hq Hp. unfold read_all_fd. by apply read_all_loop_frame. Qed.

(** *** The system calls that [read_all_fd] makes *)

Lemma sys_read_log (fd len : Z) (w : world) :
  exists evs,
    w_log (final_world (sys_read fd len w)) = w_log w ++ evs /\
    forallb (is_read_of fd) evs = true.
Proof.
  assert (Hone : forall r, forallb (is_read_of fd) [ERead fd len r] = true)
    by (intros r; simpl; by rewrite Z.eqb_refl).
  unfold sys_read, next_fault. wsimpl.
  destruct (is_fault (hd NoFault (w_plan w))); [by eexists|].
  destruct (w_fds w !! fd) as [[id [|]|path pos|]|]; try by eexists.
  destruct (w_pipes w !! id) as [q|]; [|by eexists].
  destruct (take (Z.to_nat len) q) as [|c data].
  - destruct (len <=? 0); [by eexists|].
    destruct (has_writer id _); [|by eexists].
    exists []. by rewrite app_nil_r.
  - cbn [final_world]. wsimpl. rewrite advance_all_log. by eexists.
Qed.

Lemma read_all_loop_log (fd : Z) :
  forall (fuel : nat) (b : Buf) (actual : Z) (w : world),
  exists evs,
    w_log (final_world (read_all_loop fuel fd b actual w)) = w_log w ++ evs /\
    forallb (is_read_of fd) evs = true.
Proof.
  induction fuel as [|fuel IH]; intros b actual w.
  { exists []. by rewrite app_nil_r. }
  cbn [read_all_loop]. unfold bind.
  destruct (sys_read_log fd (buf_len b) w) as (evs & Hlog & Hreads).
  destruct (sys_read fd (buf_len b) w) as [[amt data] w'| | | |];
    try by exists evs.
  cbn [final_world] in Hlog.
  destruct (amt <? 0); [by exists evs|].
  destruct (amt =? 0); [by exists evs|].
  match goal with |- context [read_all_loop fuel fd ?B ?A w'] =>
    destruct (IH B A w') as (evs' & Hlog' & Hreads') end.
  exists (evs ++ evs'). rewrite Hlog', Hlog, app_assoc. split; [done|].
  by rewrite forallb_app, Hreads, Hreads'.
Qed.

Lemma read_all_fd_log (fd : Z) (fuel : nat) (b : Buf) (w : world) :
  exists evs,
    w_log (final_world (read_all_fd fuel fd b w)) = w_log w ++ evs /\
    forallb (is_read_of fd) evs = true.
Proof. unfold read_all_fd. apply read_all_loop_log. Qed.

Lemma hd_drop (n : nat) (l : list fault) : hd NoFault (drop n l) = nth n l NoFault.
Proof.
  revert l. induction n as [|n IH]; intros [|x l]; simpl; auto.
Qed.

Lemma drained_reads (fd : Z) (id : nat) (fuel : nat) (b b' : Buf) (w w' : world) :
  read_all_fd fuel fd b w = Returns b' w' -> drained_from id w w' ->
  exists evs,
    forallb (is_read_of fd) evs = true /\
    w' = set_log (w_log w ++ evs) (set_pipes (<[id := []]> (w_pipes w)) w).
Proof.
  intros Hrun [evs ->].
  destruct (read_all_fd_log fd fuel b w) as (evs' & Hlog & Hreads).
  rewrite Hrun in Hlog. cbn [final_world] in Hlog. wsimpl.
  apply app_inv_head in Hlog. subst evs'. by exists evs.
Qed.

Lemma one_round_is_empty (fuel : nat) (q b : Buf) :
  ~ (2 <= fuel)%nat -> (length q < fuel)%nat -> buf_len b = buf_len q -> b = q.
Proof.
  unfold buf_len. intros Hf Hq Hb.
  rewrite (nil_length_inv q) by lia. apply nil_length_inv. lia.
Qed.

(** What [os_exec_process] returns and the world it leaves, when the
    four set-up calls succeed and the child's output fits the pipes;
    the three [close] and the [waitpid] of the parent may fail. *)
Lemma os_exec_process_outcome (fuel : nat) (exe : string) (args : list string)
    (rc : Z) (e0 o0 : Buf) (w : world) (p : program) :
  callable w = true ->
  (forall k, (k < 4)%nat -> is_fault (plan_at k w) = false) ->
  (length (w_plan w) <= 8)%nat ->
  w_programs w exe (make_argv exe args) = Some p ->
  plain (prog_script p) = true ->
  let out := writes_to STDOUT_FILENO (prog_script p) in
  let err := writes_to STDERR_FILENO (prog_script p) in
  (length out <= w_pipe_cap w)%nat -> (length err <= w_pipe_cap w)%nat ->
  (length out < fuel)%nat -> (length err < fuel)%nat ->
  exists (r1 w1 r2 w2 r3 w3 : Z) (out' err' : Buf)
         (reads_out reads_err : list syscall),
    let n := length (w_pipes w) in
    let pid := w_next_pid w in
    let failed := is_fault (plan_at 7 w) in
    let status := if failed then rc else wait_status (prog_term p) in
    let w' :=
      set_log (w_log w ++ [EPipe 0 r1 w1; EPipe 0 r2 w2; EPipe 0 r3 w3;
                           EFork pid;
                           EClose r1 (close_result (plan_at 4 w));
                           EClose w2 (close_result (plan_at 5 w));
                           EClose w3 (close_result (plan_at 6 w));
                           EWaitpid pid (if failed then -1 else pid) status]
                 ++ reads_out ++ reads_err)
        (set_fds (<[r3 := FPipe (S (S n)) ReadEnd]>
                    (<[r2 := FPipe (S n) ReadEnd]>
                       (<[w1 := FPipe n WriteEnd]> (w_fds w))))
           (set_pipes (w_pipes w ++ [[]; []; []])
              (set_procs (if failed
                          then [mkChild pid ∅ [] (prog_term p) false]
                          else [])
                 (set_next_pid (pid + 1) (set_plan [] w))))) in
    w_fds w !! r1 = None /\ w_fds w !! w1 = None /\ w_fds w !! r2 = None /\
    w_fds w !! w2 = None /\ w_fds w !! r3 = None /\ w_fds w !! w3 = None /\
    NoDup [r1; w1; r2; w2; r3; w3] /\
    (0 <= r1 < w1 /\ w1 < r2 < w2 /\ w2 < r3 < w3) /\
    os_exec_process fuel exe args rc e0 o0 w = Returns (status, err', out') w' /\
    buf_len out' = buf_len out /\ buf_len err' = buf_len err /\
    (buf_len out <= buf_size -> out' = out) /\
    (buf_len err <= buf_size -> err' = err) /\
    forallb (is_read_of r2) reads_out = true /\
    forallb (is_read_of r3) reads_err = true.
Proof.
  intros Hcall Hplan Hshort Hprog Hplain out err Hout Herr Hfo Hfe.
  destruct (os_exec_process_trace fuel exe args rc e0 o0 w p Hcall Hplan Hprog)
    as (r1 & w1 & r2 & w2 & r3 & w3 & cfds & H).
  cbv zeta in H.
  destruct H as (Hr1 & Hw1 & Hr2 & Hw2 & Hr3 & Hw3 & Hnd & Hord & Hcfds & Hrun).
  destruct (callable_spec _ Hcall) as (Hpid & Hrange & Hprocs & _).
  destruct (three_new_pipes (w_pipes w)) as [Ho He].
  set (n := length (w_pipes w)) in *.
  set (base := w_pipes w ++ [[]; []; []]) in *.
  pose proof Hnd as Hne. apply NoDup_6 in Hne.
  assert (Hc1 : cfds !! 1 = Some (FPipe (S n) WriteEnd)).
  { rewrite Hcfds. by rewrite lookup_insert_ne, lookup_insert_eq. }
  assert (Hc2 : cfds !! 2 = Some (FPipe (S (S n)) WriteEnd)).
  { rewrite Hcfds. by rewrite lookup_insert_eq. }
  pose proof (child_run_plain cfds (w_pipe_cap w) _ _ Hc1 Hc2
                (Nat.neq_succ_diag_r (S n))
                (prog_script p) base [] [] Hplain Ho He Hout Herr) as Hchild.
  fold out err in Hchild. cbn [app] in Hchild.
  rewrite Hchild in Hrun. cbn [fst snd] in Hrun.
  set (pid := w_next_pid w) in *.
  set (F3 := <[r3 := FPipe (S (S n)) ReadEnd]>
               (<[r2 := FPipe (S n) ReadEnd]>
                  (<[w1 := FPipe n WriteEnd]> (w_fds w)))) in *.
  set (status := if is_fault (plan_at 7 w) then rc else wait_status (prog_term p)).
  set (cs := if is_fault (plan_at 7 w)
             then [mkChild pid ∅ [] (prog_term p) false] else []).
  set (pipes2 := <[S (S n) := err]> (<[S n := out]> base)) in *.
  set (W0 :=
    set_log (w_log w ++ [EPipe 0 r1 w1; EPipe 0 r2 w2; EPipe 0 r3 w3;
                         EFork pid;
                         EClose r1 (close_result (plan_at 4 w));
                         EClose w2 (close_result (plan_at 5 w));
                         EClose w3 (close_result (plan_at 6 w));
                         EWaitpid pid (if is_fault (plan_at 7 w) then -1 else pid)
                           status])
      (set_fds F3 (set_pipes pipes2
         (set_procs [] (set_next_pid (pid + 1) (set_plan [] w)))))).
  match type of Hrun with _ = _ ?W => set (wW := W) in * end.
  assert (Hwait : exists r, sys_waitpid pid rc wW = Returns (r, status) (set_procs cs W0)).
  { unfold sys_waitpid, next_fault, wW. wsimpl. rewrite hd_drop.
    change (nth 7 (w_plan w) NoFault) with (plan_at 7 w).
    subst status cs W0. destruct (is_fault (plan_at 7 w)).
    - eexists. f_equal. apply world_ext; wsimpl; try done.
      + rewrite tl_drop. apply drop_ge. exact Hshort.
      + by rewrite <- app_assoc.
    - cbn [find_child c_pid c_live c_term remove_child]. rewrite Z.eqb_refl.
      eexists. f_equal. apply world_ext; wsimpl; try done.
      + rewrite tl_drop. apply drop_ge. exact Hshort.
      + by rewrite <- app_assoc. }
  assert (Hq : quiet cs = true)
    by (subst cs; by destruct (is_fault (plan_at 7 w))).
  assert (Hlen : length base = (n + 3)%nat)
    by (unfold base; rewrite length_app; reflexivity).
  assert (HpO : pipes2 !! S n = Some out).
  { unfold pipes2. rewrite list_lookup_insert_ne by (clear; lia).
    apply list_lookup_insert_eq. clear -Hlen. lia. }
  assert (HpE : pipes2 !! S (S n) = Some err).
  { unfold pipes2. apply list_lookup_insert_eq. rewrite length_insert.
    clear -Hlen. lia. }
  assert (Hio : S n <> S (S n)) by (clear; lia).
  assert (Hnw : forall id, (n < id)%nat -> holds_write_end id F3 = false).
  { intros id Hid. apply holds_write_end_false. intros fd o. unfold F3.
    rewrite !lookup_insert. repeat case_decide; subst.
    - by intros [= <-].
    - by intros [= <-].
    - intros [= <-]. simpl. apply Nat.eqb_neq. clear -Hid. lia.
    - intros Hfd. destruct o as [id' [|]| |]; try done.
      apply Hrange in Hfd. simpl. apply Nat.eqb_neq. clear -Hid Hfd. lia. }
  assert (Hdo : drainable r2 (S n) out W0).
  { repeat split; unfold W0; wsimpl; try done.
    - unfold F3. rewrite lookup_insert_ne by (intuition congruence).
      by rewrite lookup_insert_eq.
    - apply Hnw. clear. lia. }
  assert (Hde : drainable r3 (S (S n)) err W0).
  { repeat split; unfold W0; wsimpl; try done.
    - unfold F3. by rewrite lookup_insert_eq.
    - apply Hnw. clear. lia. }
  destruct (read_all_fd_returns r2 (S n) fuel out W0 o0 Hdo Hfo)
    as (out' & W1 & Hread1 & Hdr1 & Hlen1).
  assert (Hout' : buf_len out <= buf_size -> out' = out).
  { intros Hsmall. destruct (decide (2 <= fuel)%nat) as [Hf|Hf].
    - destruct (read_all_fd_exact r2 (S n) fuel out W0 o0 Hdo Hsmall Hf)
        as (w2' & Hex & _). congruence.
    - by apply (one_round_is_empty fuel). }
  pose proof (drained_still_drainable r2 r3 (S n) (S (S n)) out err W0 W1
                Hdr1 Hdo Hde Hio) as Hde'.
  destruct (drained_reads r2 (S n) fuel o0 out' W0 W1 Hread1 Hdr1)
    as (evs1 & Hevs1 & HW1).
  destruct (read_all_fd_returns r3 (S (S n)) fuel err W1 e0 Hde' Hfe)
    as (err' & W2 & Hread2 & Hdr2 & Hlen2).
  assert (Herr' : buf_len err <= buf_size -> err' = err).
  { intros Hsmall. destruct (decide (2 <= fuel)%nat) as [Hf|Hf].
    - destruct (read_all_fd_exact r3 (S (S n)) fuel err W1 e0 Hde' Hsmall Hf)
        as (w3' & Hex & _). congruence.
    - by apply (one_round_is_empty fuel). }
  destruct (drained_reads r3 (S (S n)) fuel e0 err' W1 W2 Hread2 Hdr2)
    as (evs2 & Hevs2 & HW2).
  exists r1, w1, r2, w2, r3, w3, out', err', evs1, evs2.
  do 6 (split; [done|]).
  split; [done|]. split; [done|]. split; [|done].
  rewrite Hrun. destruct Hwait as [r Hwait].
  rewrite (bind_returns _ _ _ _ _ Hwait).
  unfold bind at 1. rewrite read_all_fd_frame by done. rewrite Hread1.
  cbn [on_world]. unfold bind at 1.
  rewrite read_all_fd_frame by (by rewrite ?HW1). rewrite Hread2.
  cbn [on_world ret]. f_equal.
  rewrite HW2, HW1. unfold W0. apply world_ext; wsimpl; try done.
  - unfold pipes2.
    rewrite (list_insert_insert_ne _ (S n) (S (S n))) by exact Hio.
    rewrite !list_insert_insert_eq.
    rewrite (list_insert_id base (S n) []) by done.
    by rewrite (list_insert_id base (S (S n)) []).
  - by rewrite <- !app_assoc.
Qed.


(** *** The buffer lengths that [read_all_fd] offers to [read] *)

(** What a [read] comes to: it blocks without a trace, or it returns
    and its entry in the log tells the result, which is -1, 0 or a
    count of bytes within what was asked for. *)
Lemma sys_read_call (fd len : Z) (w : world) :
  (exists w', sys_read fd len w = Blocks w' /\ w_log w' = w_log w) \/
  (exists amt data w',
      sys_read fd len w = Returns (amt, data) w' /\
      w_log w' = w_log w ++ [ERead fd len amt] /\
      (amt = -1 \/ amt = 0 \/ 0 < amt <= len)).
Proof.
  unfold sys_read, next_fault. wsimpl.
  destruct (is_fault (hd NoFault (w_plan w))).
  { right. do 3 eexists. split; [reflexivity|]. split; [reflexivity | by left]. }
  destruct (w_fds w !! fd) as [[id [|]|path pos|]|];
    try (right; do 3 eexists; split; [reflexivity|];
         split; [reflexivity | auto]; fail).
  destruct (w_pipes w !! id) as [q|];
    [|right; do 3 eexists; split; [reflexivity|]; split; [reflexivity | auto]].
  destruct (take (Z.to_nat len) q) as [|c data] eqn:E.
  - destruct (len <=? 0);
      [right; do 3 eexists; split; [reflexivity|]; split; [reflexivity | auto]|].
    destruct (has_writer id _).
    + left. by eexists.
    + right. do 3 eexists. split; [reflexivity|]. split; [reflexivity | auto].
  - right. do 3 eexists. split; [reflexivity|]. wsimpl.
    rewrite advance_all_log. split; [reflexivity|]. right. right.
    assert (Hlen : (length (c :: data) <= Z.to_nat len)%nat)
      by (rewrite <- E, length_take; lia).
    unfold buf_len. simpl in *. lia.
Qed.

Lemma read_all_loop_calls (fd : Z) :
  forall (fuel : nat) (b : Buf) (actual : Z) (w : world),
  buf_len b = actual + buf_size -> 0 <= actual ->
  exists (amts : list Z) (last : list syscall),
    let o := read_all_loop fuel fd b actual w in
    w_log (final_world o) = w_log w ++ read_calls fd (buf_len b) amts ++ last /\
    reads_fit (buf_len b) amts /\
    match o with
    | Returns b' _ =>
        last = [ERead fd (buf_len b + total amts) 0] /\
        buf_len b' = actual + total amts
    | Panics msg _ =>
        msg = "fd read error"%string /\
        last = [ERead fd (buf_len b + total amts) (-1)]
    | Blocks _ | OutOfFuel _ => last = []
    | Replaced _ _ _ => False
    end.
Proof.
  induction fuel as [|fuel IH]; intros b actual w Hinv Hact.
  { exists [], []. cbn. by rewrite app_nil_r. }
  cbn [read_all_loop]. unfold bind.
  destruct (sys_read_call fd (buf_len b) w)
    as [(w' & -> & Hlog)|(amt & data & w' & -> & Hlog & Hamt)].
  { exists [], []. cbn. by rewrite app_nil_r. }
  destruct Hamt as [->|[->|Hamt]].
  - exists [], [ERead fd (buf_len b + 0) (-1)]. cbn.
    by rewrite Z.add_0_r.
  - exists [], [ERead fd (buf_len b + 0) 0]. cbn.
    rewrite buf_resize_len by lia. rewrite !Z.add_0_r. done.
  - destruct (Z.ltb_spec amt 0); [lia|].
    destruct (Z.eqb_spec amt 0); [lia|].
    match goal with |- context [read_all_loop fuel fd ?B ?A w'] =>
      assert (HB : buf_len B = buf_len b + amt)
        by (rewrite buf_resize_len by (unfold buf_size; lia); lia);
      generalize dependent B
    end.
    intros B HB.
    destruct (IH B (actual + amt) w') as (amts & last & Hrun);
      [rewrite HB; lia | lia |].
    cbv zeta in Hrun. destruct Hrun as (Hlog' & Hfit & Hres).
    exists (amt :: amts), last. cbv zeta. rewrite HB in *.
    split; [rewrite Hlog', Hlog; cbn [read_calls app]; by rewrite <- app_assoc|].
    split; [cbn [reads_fit]; split; [lia | done]|].
    unfold total in *. cbn [foldr].
    destruct (read_all_loop fuel fd B (actual + amt) w');
      rewrite ?Z.add_assoc; done.
Qed.

(* ================================================================= *)
(** * The claims *)

(** ** Path splitting *)

(** C2 (as stated): the third worked example does not hold.  The split
    of ["a/b/"] is ["a"] and ["b/"]; it is not ["a"] and ["b"]. *)
Lemma os_path_split_trailing_example_fails :
  os_path_split (bytes "a/b/") = Some (bytes "a", bytes "b/") /\
  os_path_split (bytes "a/b/") <> Some (bytes "a", bytes "b").
Proof. split; [reflexivity | vm_compute; discriminate]. Qed.

(** C2 (amended): ["a/b/c"] splits into ["a/b"] and ["c"], ["noslash"]
    into ["."] and ["noslash"], and ["a/b/"] into ["a"] and ["b/"]: the
    basename runs to the end of the input and keeps the trailing
    separator. *)
Theorem os_path_split_examples :
  os_path_split (bytes "a/b/c") = Some (bytes "a/b", bytes "c") /\
  os_path_split (bytes "noslash") = Some (bytes ".", bytes "noslash") /\
  os_path_split (bytes "a/b/") = Some (bytes "a", bytes "b/").
Proof. repeat split; reflexivity. Qed.

(** C4 (as stated): ["a/b/"] contains a separator and ends in a single
    one, yet rejoining its two parts gives ["a/b/"] back and not ["a/b"],
    the path without its trailing separator. *)
Lemma rejoin_drops_trailing_sep_fails :
  In sep (bytes "a/b/") /\ trailing_sep (bytes "a/b/") = true /\
  exists parts, os_path_split (bytes "a/b/") = Some parts /\
    rejoin parts = bytes "a/b/" /\
    rejoin parts <> removelast (bytes "a/b/").
Proof.
  split; [vm_compute; tauto|]. split; [reflexivity|].
  exists (bytes "a", bytes "b/"). repeat split. discriminate.
Qed.

(** C4 (amended): for every path with a separator before its last byte,
    splitting and rejoining the directory name, a separator and the
    basename gives the path back exactly, also when the path ends in a
    separator (which stays in the basename). *)
Theorem os_path_split_rejoin (p : Buf) :
  In sep (removelast p) ->
  exists parts, os_path_split p = Some parts /\ rejoin parts = p.
Proof.
  intros Hin. destruct (os_path_split_found p Hin) as (d & b & H1 & H2).
  by exists (d, b).
Qed.

Lemma os_path_split_rejoin_witness :
  In sep (removelast (bytes "a/b/")) /\
  exists parts, os_path_split (bytes "a/b/") = Some parts /\
    rejoin parts = bytes "a/b/".
Proof.
  assert (H : In sep (removelast (bytes "a/b/"))) by (vm_compute; tauto).
  split; [exact H | exact (os_path_split_rejoin (bytes "a/b/") H)].
Defined.

(** C10: the split succeeds on every input (no read or copy leaves the
    buffer, and the scan ends), and on the empty path and on ["/"] it
    takes the default: directory ["."], basename the input unchanged.
    The default is taken by every input that has no separator before
    its last byte. *)
Theorem os_path_split_total_edge_cases :
  (forall p : Buf, exists dirname basename,
      os_path_split p = Some (dirname, basename)) /\
  os_path_split (bytes "") = Some (bytes ".", bytes "") /\
  os_path_split (bytes "/") = Some (bytes ".", bytes "/") /\
  (forall p : Buf, ~ In sep (removelast p) ->
      os_path_split p = Some (bytes ".", p)).
Proof.
  split; [exact os_path_split_total|].
  split; [reflexivity|]. split; [reflexivity|].
  exact os_path_split_fallback.
Qed.

(** ** Running a process *)

(** C1.  Evaluation at an input on which the captured output is not what
    the child wrote: [echo] run with one argument of 8192 letters writes
    8193 bytes (the letters and a newline).  The call returns status 0
    and a buffer of the right length, but the second [read] has put the
    newline over the first letter, and the last byte is whatever the
    allocator left at that position. *)
Theorem os_exec_process_overwrites_output (junk : nat -> byte) :
  let w := boot userland pipe_capacity junk in
  let written := echo_output [letters chunk] in
  exists out,
    returned (os_exec_process 3 "echo" [letters chunk] 0 [] [] w)
    = Some (0, [], out) /\
    out = x0a :: repeat "a"%byte (chunk - 1) ++ [junk chunk] /\
    length out = length written /\
    out <> written.
Proof.
  eexists. split; [vm_compute; reflexivity|]. split; [reflexivity|].
  split; [reflexivity|]. vm_compute. discriminate.
Qed.

(** C5 (as stated): the buffer is not doubled whenever it is full and
    more data follow.  A writer that delivers 8192 bytes at a time has
    [read_all_fd] offer 8192, 16384, 24576 and 32768 bytes: after the
    second read the 16384 bytes of the buffer are used up and more data
    follow, and the buffer becomes 24576 bytes long, 8192 more and not
    twice as many. *)
Lemma read_all_fd_doubling_fails :
  let o := read_all_fd 6 3 [] slow_writer_world in
  buf_len <$> returned o = Some 32768 /\
  w_log (final_world o)
  = [ERead 3 8192 8192; ERead 3 16384 8192; ERead 3 24576 8192;
     ERead 3 32768 8192; ERead 3 40960 0] /\
  24576 <> 2 * 16384.
Proof.
  split; [vm_compute; reflexivity|]. split; [vm_compute; reflexivity|]. lia.
Qed.

(** C5.  The growth of the buffer of [read_all_fd], read off the log of
    any run, however it ends.  The first [read] is offered [buf_size]
    (8192) bytes, and a [read] that delivers [amt] bytes is followed by
    one that is offered [amt] bytes more: every [read] is offered
    [buf_size] bytes more than the total delivered before it.  A read
    delivers at most what it is offered, so the buffer at most doubles,
    and it doubles only after a read that delivers as many bytes as the
    whole buffer holds.  The run ends with the read that returns 0,
    after which the buffer has the length of the total, or with a read
    that fails, which is a panic, or it stays in a read or runs out of
    fuel. *)
Theorem read_all_fd_buffer_growth (fuel : nat) (fd : Z) (out_buf : Buf) (w : world) :
  exists (amts : list Z) (last : list syscall),
    let o := read_all_fd fuel fd out_buf w in
    buf_size = 8192 /\
    w_log (final_world o) = w_log w ++ read_calls fd buf_size amts ++ last /\
    reads_fit buf_size amts /\
    match o with
    | Returns b _ =>
        last = [ERead fd (buf_size + total amts) 0] /\ buf_len b = total amts
    | Panics msg _ =>
        msg = "fd read error"%string /\
        last = [ERead fd (buf_size + total amts) (-1)]
    | Blocks _ | OutOfFuel _ => last = []
    | Replaced _ _ _ => False
    end.
Proof.
  unfold read_all_fd.
  assert (Hb0 : buf_len (buf_resize (w_junk w) out_buf buf_size) = buf_size)
    by (rewrite buf_resize_len; unfold buf_size; lia).
  generalize dependent (buf_resize (w_junk w) out_buf buf_size). intros b0 Hb0.
  destruct (read_all_loop_calls fd fuel b0 0 w) as (amts & last & H);
    [lia | lia |].
  exists amts, last. cbv zeta in *. rewrite Hb0 in H.
  destruct H as (Hlog & Hfit & Hres).
  split; [reflexivity|]. split; [done|]. split; [done|].
  by destruct (read_all_loop fuel fd b0 0 w).
Qed.

(** The buffer lengths handed to [read] while 30001 bytes are drained:
    8192, 16384, 32768 while the buffer is filled, and then the count
    read so far plus 8192. *)
Example read_all_fd_sizes :
  w_log (final_world (os_exec_process 4 "echo" [letters (Z.to_nat 30000)]
                        0 [] [] world0))
  = [EPipe 0 3 4; EPipe 0 5 6; EPipe 0 7 8; EFork 2;
     EClose 3 0; EClose 6 0; EClose 8 0; EWaitpid 2 2 0;
     ERead 5 8192 8192; ERead 5 16384 16384; ERead 5 32768 5425;
     ERead 5 38193 0; ERead 7 8192 0].
Proof. vm_compute. reflexivity. Qed.

(** C3.  The descriptors that [os_exec_process] leaves behind: whenever
    the call returns (here: the child's output fits the pipes), three
    descriptors that were closed before the call are open after it.
    They are the write end of the input pipe and the read ends of the
    output and error pipes; only the other three ends are closed. *)
Theorem os_exec_process_leaves_descriptors_open
    (fuel : nat) (exe : string) (args : list string) (rc : Z) (e0 o0 : Buf)
    (w : world) (p : program) :
  ready w = true -> w_programs w exe (make_argv exe args) = Some p ->
  plain (prog_script p) = true ->
  (length (writes_to STDOUT_FILENO (prog_script p)) <= w_pipe_cap w)%nat ->
  (length (writes_to STDERR_FILENO (prog_script p)) <= w_pipe_cap w)%nat ->
  (length (writes_to STDOUT_FILENO (prog_script p)) < fuel)%nat ->
  (length (writes_to STDERR_FILENO (prog_script p)) < fuel)%nat ->
  exists res w' (a b c : Z) (i o e : nat),
    os_exec_process fuel exe args rc e0 o0 w = Returns res w' /\
    a <> b /\ a <> c /\ b <> c /\
    w_fds w !! a = None /\ w_fds w !! b = None /\ w_fds w !! c = None /\
    w_fds w' !! a = Some (FPipe i WriteEnd) /\
    w_fds w' !! b = Some (FPipe o ReadEnd) /\
    w_fds w' !! c = Some (FPipe e ReadEnd).
Proof.
  intros Hready Hprog Hplain Hout Herr Hfo Hfe.
  destruct (os_exec_process_returns fuel exe args rc e0 o0 w p
              Hready Hprog Hplain Hout Herr Hfo Hfe)
    as (out' & err' & w' & w1 & r2 & r3 & io & ie & Hrun & _ & _ & _ & _
        & Hw1 & Hr2 & Hr3 & Hn12 & Hn13 & Hn23 & Hfds).
  exists (wait_status (prog_term p), err', out'), w', w1, r2, r3,
    (length (w_pipes w)), io, ie.
  do 7 (split; [done|]). rewrite Hfds.
  split; [by rewrite !lookup_insert_ne, lookup_insert_eq by done|].
  split; [by rewrite lookup_insert_ne, lookup_insert_eq by done|].
  by rewrite lookup_insert_eq.
Qed.

Lemma os_exec_process_leaves_descriptors_open_witness :
  ready world0 = true /\
  userland "true" (make_argv "true" []) = Some (mkProgram [] (Exited 0)) /\
  exists res w' (a b c : Z) (i o e : nat),
    os_exec_process 2 "true" [] 0 [] [] world0 = Returns res w' /\
    a <> b /\ a <> c /\ b <> c /\
    w_fds world0 !! a = None /\ w_fds world0 !! b = None /\
    w_fds world0 !! c = None /\
    w_fds w' !! a = Some (FPipe i WriteEnd) /\
    w_fds w' !! b = Some (FPipe o ReadEnd) /\
    w_fds w' !! c = Some (FPipe e ReadEnd).
Proof.
  split; [reflexivity|]. split; [reflexivity|].
  apply (os_exec_process_leaves_descriptors_open 2 "true" [] 0 [] [] world0
           (mkProgram [] (Exited 0)));
    [reflexivity | reflexivity | reflexivity
    | by_leb | by_leb | by_ltb | by_ltb].
Defined.

(** The same at a concrete call: a process with descriptors 0, 1 and 2
    runs [true]; on return it also holds 4, 5 and 7. *)
Example os_exec_process_leak_example :
  is_returns (os_exec_process 2 "true" [] 0 [] [] world0) = true /\
  w_fds (final_world (os_exec_process 2 "true" [] 0 [] [] world0))
  = <[7 := FPipe 2 ReadEnd]>
      (<[5 := FPipe 1 ReadEnd]> (<[4 := FPipe 0 WriteEnd]> std_fds)).
Proof. split; vm_compute; reflexivity. Qed.

(** C6 (as stated): a child that writes some output and exits with code
    3.  Its output comes back, but the value stored in [return_code] is
    768, not 3. *)
Lemma os_exec_process_exit_code_as_stated_fails :
  userland "fail" (make_argv "fail" [])
  = Some (mkProgram [Put STDOUT_FILENO (bytes "partial");
                     Put STDERR_FILENO (bytes "oops")] (Exited 3)) /\
  returned (os_exec_process 2 "fail" [] 0 [] [] world0)
  = Some (768, bytes "oops", bytes "partial") /\
  returned (os_exec_process 2 "fail" [] 0 [] [] world0)
  <> Some (3, bytes "oops", bytes "partial").
Proof.
  split; [reflexivity|]. split; [vm_compute; reflexivity|].
  vm_compute. discriminate.
Qed.

(** C6 (amended): the call returns only after the child has terminated,
    and [return_code] then holds the raw wait status.  For a child that
    exits with code [code] (0 to 255) this is [256 * code], from which
    [WEXITSTATUS] recovers [code]; it is the exit code itself only for
    [code = 0].  What the child wrote before exiting is returned with
    it, when neither stream holds more than the first chunk (8192
    bytes). *)
Theorem os_exec_process_wait_status
    (fuel : nat) (exe : string) (args : list string) (rc : Z) (e0 o0 : Buf)
    (w : world) (p : program) (code : Z) :
  ready w = true -> w_programs w exe (make_argv exe args) = Some p ->
  plain (prog_script p) = true ->
  prog_term p = Exited code -> 0 <= code <= 255 ->
  let out := writes_to STDOUT_FILENO (prog_script p) in
  let err := writes_to STDERR_FILENO (prog_script p) in
  (length out <= w_pipe_cap w)%nat -> (length err <= w_pipe_cap w)%nat ->
  buf_len out <= buf_size -> buf_len err <= buf_size ->
  (2 <= fuel)%nat ->
  exists w',
    os_exec_process fuel exe args rc e0 o0 w
    = Returns (256 * code, err, out) w' /\
    WIFEXITED (256 * code) = true /\
    WEXITSTATUS (256 * code) = code /\
    (256 * code = code <-> code = 0).
Proof.
  intros Hready Hprog Hplain Hterm Hcode out err Hout Herr Hso Hse Hfuel.
  destruct (os_exec_process_drains fuel exe args rc e0 o0 w p
              Hready Hprog Hplain Hout Herr)
    as (w1 & r2 & r3 & io & ie & wR & _ & _ & _ & _ & _ & _ & Hio
        & _ & _ & _ & Hdo & Hde & Hrun).
  fold out in Hdo. fold err in Hde.
  destruct (read_all_fd_exact r2 io fuel out wR o0 Hdo Hso Hfuel)
    as (w2 & Hread1 & Hdr1).
  pose proof (drained_still_drainable r2 r3 io ie out err wR w2 Hdr1 Hdo Hde Hio)
    as Hde'.
  destruct (read_all_fd_exact r3 ie fuel err w2 e0 Hde' Hse Hfuel)
    as (w3 & Hread2 & _).
  destruct (wait_status_exited code Hcode) as (Hst & Hif & Hex).
  rewrite Hterm in Hrun. rewrite Hst in *.
  exists w3. split.
  { rewrite Hrun. rewrite (bind_returns _ _ _ _ _ Hread1).
    rewrite (bind_returns _ _ _ _ _ Hread2). reflexivity. }
  split; [done|]. split; [done|]. lia.
Qed.

Lemma os_exec_process_wait_status_witness :
  ready world0 = true /\
  userland "fail" (make_argv "fail" [])
  = Some (mkProgram [Put STDOUT_FILENO (bytes "partial");
                     Put STDERR_FILENO (bytes "oops")] (Exited 3)) /\
  exists w',
    os_exec_process 2 "fail" [] 0 [] [] world0
    = Returns (256 * 3, bytes "oops", bytes "partial") w' /\
    WIFEXITED (256 * 3) = true /\
    WEXITSTATUS (256 * 3) = 3 /\
    (256 * 3 = 3 <-> 3 = 0).
Proof.
  split; [reflexivity|]. split; [reflexivity|].
  apply (os_exec_process_wait_status 2 "fail" [] 0 [] [] world0
           (mkProgram [Put STDOUT_FILENO (bytes "partial");
                       Put STDERR_FILENO (bytes "oops")] (Exited 3)) 3);
    [reflexivity | reflexivity | reflexivity | reflexivity | lia
    | by_leb | by_leb
    | vm_compute; discriminate | vm_compute; discriminate | lia].
Defined.




(** ** Writing a file and the failure policy *)

(** C7.  When none of its three system calls fails, [os_write_file]
    makes exactly these calls: one [open] of the path with
    [O_CREAT|O_CLOEXEC|O_WRONLY|O_TRUNC] and mode [S_IRWXU], one [write]
    of the whole buffer, one [close] of the descriptor.  It returns with
    the descriptor table as it found it and with the file holding
    exactly the buffer; a file it created has the owner's read, write
    and execute bits (less the umask), and no other file is touched. *)
Theorem os_write_file_round_trip (full_path contents : Buf) (w : world) :
  is_fault (plan_at 0 w) = false ->
  accepts (plan_at 1 w) contents = true ->
  is_fault (plan_at 2 w) = false ->
  let path := c_str full_path in
  exists (fd : Z) (w' : world),
    os_write_file full_path contents w = Returns tt w' /\
    w_fds w !! fd = None /\
    w_log w' = w_log w ++ [EOpen path write_flags S_IRWXU fd;
                           EWrite fd contents (buf_len contents);
                           EClose fd 0] /\
    write_flags = Z.lor (Z.lor (Z.lor O_CREAT O_CLOEXEC) O_WRONLY) O_TRUNC /\
    w_fds w' = w_fds w /\
    f_data <$> w_files w' !! path = Some contents /\
    (w_files w !! path = None ->
     f_mode <$> w_files w' !! path = Some (Z.land S_IRWXU (Z.lnot (w_umask w)))) /\
    (forall other, other <> path -> w_files w' !! other = w_files w !! other).
Proof.
  intros F1 F2 F3 path.
  destruct (os_write_file_spec full_path contents w) as (fd & _ & Hfree & Hspec).
  rewrite F1, F2, F3 in Hspec. cbn [negb] in Hspec.
  destruct Hspec as (w' & Hrun & Hlog & Hfds & Hfiles).
  exists fd, w'. fold path in Hlog, Hfiles.
  split; [done|]. split; [done|]. split; [done|]. split; [done|].
  split; [done|]. rewrite Hfiles. split; [|split].
  - by rewrite lookup_insert_eq.
  - intros Hnew. rewrite lookup_insert_eq. unfold mode_after_open.
    by rewrite Hnew.
  - intros other Hne. by rewrite lookup_insert_ne.
Qed.

Lemma os_write_file_round_trip_witness :
  w_plan world0 = [] /\
  exists (fd : Z) (w' : world),
    os_write_file (bytes "out.o") (bytes "data") world0 = Returns tt w' /\
    w_fds world0 !! fd = None /\
    w_log w' = w_log world0
               ++ [EOpen (c_str (bytes "out.o")) write_flags S_IRWXU fd;
                   EWrite fd (bytes "data") (buf_len (bytes "data"));
                   EClose fd 0] /\
    write_flags = Z.lor (Z.lor (Z.lor O_CREAT O_CLOEXEC) O_WRONLY) O_TRUNC /\
    w_fds w' = w_fds world0 /\
    f_data <$> w_files w' !! c_str (bytes "out.o") = Some (bytes "data") /\
    (w_files world0 !! c_str (bytes "out.o") = None ->
     f_mode <$> w_files w' !! c_str (bytes "out.o")
     = Some (Z.land S_IRWXU (Z.lnot (w_umask world0)))) /\
    (forall other, other <> c_str (bytes "out.o") ->
                   w_files w' !! other = w_files world0 !! other).
Proof.
  split; [reflexivity|].
  apply (os_write_file_round_trip (bytes "out.o") (bytes "data") world0);
    reflexivity.
Defined.

(** The same call evaluated: descriptor 3 is used and released, and the
    new file has mode 0700 under the umask 022 of [world0]. *)
Example os_write_file_example :
  returned (os_write_file (bytes "out.o") (bytes "data") world0) = Some tt /\
  let w' := final_world (os_write_file (bytes "out.o") (bytes "data") world0) in
  w_log w' = [EOpen "out.o" 524865 448 3; EWrite 3 (bytes "data") 4; EClose 3 0] /\
  w_files w' !! "out.o"%string = Some (mkFile 448 (bytes "data")) /\
  w_fds w' = std_fds.
Proof. repeat split; vm_compute; reflexivity. Qed.



(** Failures injected one at a time, and the diagnostic each one gives. *)
Example primitive_failures_examples :
  let failing plan :=
    mkWorld std_fds [] ∅ [] 2 plan [] [] pipe_capacity 18 userland zeros in
  let failing_child plan :=
    mkWorld std_fds [] ∅ [] 2 [] plan [] pipe_capacity 18 userland zeros in
  panic_of (os_exec_process 2 "true" [] 0 [] [] (failing [Fault]))
    = Some "pipe failed"%string /\
  panic_of (os_exec_process 2 "true" [] 0 [] [] (failing [NoFault; NoFault; Fault]))
    = Some "pipe failed"%string /\
  panic_of (os_exec_process 2 "true" [] 0 [] []
              (failing [NoFault; NoFault; NoFault; Fault]))
    = Some "fork failed"%string /\
  panic_of (os_write_file (bytes "out.o") (bytes "data") (failing [Fault]))
    = Some "open failed"%string /\
  panic_of (os_write_file (bytes "out.o") (bytes "data")
              (failing [NoFault; Partial 3]))
    = Some "write failed: %s"%string /\
  panic_of (os_write_file (bytes "out.o") (bytes "data")
              (failing [NoFault; NoFault; Fault]))
    = Some "close failed"%string /\
  (* a child whose [dup2] or [execvp] fails dies of its panic, and the
     parent sees the signal; once standard error is redirected, the
     parent also reads the diagnostic from the error pipe *)
  returned (os_exec_process 2 "true" [] 0 [] [] (failing_child [NoFault; Fault]))
    = Some (SIGABRT, [], []) /\
  returned (os_exec_process 2 "no-such-program" [] 0 [] [] (failing []))
    = Some (SIGABRT, bytes "execvp failed: %s", []).
Proof. repeat split; vm_compute; reflexivity. Qed.

(* ================================================================= *)
(** * Further properties of the code *)

(** ** More on [os_path_split] *)

(** The scan stops at the highest separator at or below its start, or
    falls through when there is none. *)
Lemma split_scan_cut (p : Buf) (fuel : nat) (i : Z) :
  i < buf_len p -> i + 1 <= Z.of_nat fuel ->
  (split_scan p fuel i = Some (bytes ".", p) /\
   forall m : nat, Z.of_nat m <= i -> p !! m <> Some sep) \/
  (exists k : nat,
      Z.of_nat k <= i /\ p !! k = Some sep /\
      split_scan p fuel i = Some (take k p, drop (S k) p) /\
      forall m : nat, (k < m)%nat -> Z.of_nat m <= i -> p !! m <> Some sep).
Proof.
  revert i. induction fuel as [|fuel IH]; intros i Hlen Hfuel.
  - left. split; [apply split_scan_exit; lia | intros m Hm; lia].
  - destruct (Z.ltb_spec i 0) as [Hneg|Hpos].
    { left. split; [by apply split_scan_exit | intros m Hm; lia]. }
    assert (Hi : 0 <= i < buf_len p) by lia.
    destruct (buf_at_Some p i Hi) as [_ [c Hc]].
    rewrite (split_scan_step p fuel i c Hi Hc).
    destruct (Byte.eqb c sep) eqn:E.
    + apply byte_dec_bl in E. subst c. right. exists (Z.to_nat i).
      split; [lia|]. split; [done|]. split; [done|]. intros m Hm1 Hm2. lia.
    + assert (Hc' : p !! Z.to_nat i <> Some sep).
      { rewrite Hc. intros [= ->]. by rewrite (byte_dec_lb eq_refl) in E. }
      destruct (IH (i - 1)) as [[Hs Hno]|(k & Hk & Hsep & Hs & Hno)]; [lia | lia | |].
      * left. split; [done|]. intros m Hm.
        destruct (decide (Z.of_nat m = i)) as [<-|]; [by rewrite Nat2Z.id in Hc'|].
        apply Hno. lia.
      * right. exists k. split; [lia|]. split; [done|]. split; [done|].
        intros m Hm1 Hm2.
        destruct (decide (Z.of_nat m = i)) as [<-|]; [by rewrite Nat2Z.id in Hc'|].
        apply Hno; lia.
Qed.

Lemma removelast_drop_lookup (p : Buf) (k m : nat) (c : byte) :
  removelast (drop k p) !! m = Some c ->
  p !! (k + m)%nat = Some c /\ (S (k + m) < length p)%nat.
Proof.
  rewrite removelast_firstn_len. intros H.
  apply lookup_take_Some in H as [H Hlt]. rewrite lookup_drop in H.
  rewrite length_drop in Hlt. split; [done | lia].
Qed.

Lemma scan_start_ge (p : Buf) (m : nat) :
  (S m < length p)%nat -> Z.of_nat m <= scan_start p.
Proof. unfold scan_start, buf_len. destruct (trailing_sep p); lia. Qed.

(** X1.  The basename is the last component of the path.  When a
    separator precedes the final byte of the path, the path is the
    directory name, a separator and the basename, and the basename holds
    no separator except possibly as its last byte: the cut is at the
    last separator that precedes the final byte.  Otherwise the
    directory name is ["."] and the basename is the whole path.  In both
    cases the basename is a suffix of the path, and it is empty only for
    the empty path. *)
Theorem os_path_split_basename_is_last_component (p : Buf) :
  exists dirname basename,
    os_path_split p = Some (dirname, basename) /\
    (exists front, p = front ++ basename) /\
    ~ In sep (removelast basename) /\
    (basename = [] <-> p = []) /\
    (In sep (removelast p) -> p = dirname ++ sep :: basename) /\
    (~ In sep (removelast p) -> dirname = bytes "." /\ basename = p).
Proof.
  destruct (scan_start_bounds p) as [Hb1 Hb2].
  rewrite os_path_split_scan.
  destruct (split_scan_cut p (length p) (scan_start p) Hb1 Hb2)
    as [[-> Hno]|(k & Hk & Hsep & -> & Hno)].
  - assert (Hnone : ~ In sep (removelast p)).
    { intros Hin. apply In_removelast_lookup in Hin as (j & Hlt & Hj).
      apply (Hno j); [by apply scan_start_ge | done]. }
    exists (bytes "."), p. split; [done|]. split; [by exists []|].
    split; [done|]. split; [done|]. split; [done | by intros _].
  - exists (take k p), (drop (S k) p). split; [done|].
    split; [exists (take (S k) p); by rewrite take_drop|].
    pose proof (lookup_lt_Some _ _ _ Hsep) as Hklt.
    assert (Hk2 : (S k < length p)%nat) by (by apply sep_below_start).
    split.
    { rewrite <- list_elem_of_In, list_elem_of_lookup. intros [m Hm].
      apply removelast_drop_lookup in Hm as [Hm Hlt].
      apply (Hno (S k + m)%nat); [lia | by apply scan_start_ge | done]. }
    split.
    { split.
      - intros Hnil. apply (f_equal length) in Hnil.
        rewrite length_drop in Hnil. simpl in Hnil. lia.
      - intros ->. simpl in Hklt. lia. }
    split.
    { intros _. by rewrite (take_drop_middle p k sep Hsep). }
    intros Hnone. exfalso. apply Hnone. apply In_removelast_lookup.
    exists k. split; [lia | done].
Qed.

(** X2.  Splitting undoes joining: a directory name, a separator and a
    non-empty name that holds no separator before its last byte split
    back into the directory name and the name.  The directory name may
    be anything: it may hold separators, end in one, or be empty, and
    an empty one comes back empty (for ["/name"] it is not ["/"]).
    The name may be a single separator: a path that ends in two
    separators is cut between them. *)
Theorem os_path_split_of_join (dirname basename : Buf) :
  basename <> [] -> ~ In sep (removelast basename) ->
  os_path_split (dirname ++ sep :: basename) = Some (dirname, basename).
Proof.
  intros Hne Hno.
  set (p := dirname ++ sep :: basename).
  assert (Hlen : length p = (length dirname + S (length basename))%nat)
    by (unfold p; rewrite length_app; reflexivity).
  assert (Hb : (0 < length basename)%nat)
    by (destruct basename; [done | simpl; lia]).
  assert (Hsep : p !! length dirname = Some sep).
  { unfold p. rewrite lookup_app_r by lia. by rewrite Nat.sub_diag. }
  assert (Hle : Z.of_nat (length dirname) <= scan_start p)
    by (apply scan_start_ge; lia).
  destruct (scan_start_bounds p) as [Hb1 Hb2].
  rewrite os_path_split_scan.
  destruct (split_scan_cut p (length p) (scan_start p) Hb1 Hb2)
    as [[_ Hnone]|(k & Hk & Hsepk & -> & Hmax)].
  { exfalso. by apply (Hnone (length dirname)). }
  assert (k = length dirname) as ->.
  { destruct (Nat.lt_trichotomy k (length dirname)) as [Hlt|[Heq|Hgt]]; [|done|].
    - exfalso. by apply (Hmax (length dirname)).
    - exfalso. apply Hno. apply In_removelast_lookup.
      exists (k - S (length dirname))%nat.
      assert (Hk2 : (S k < length p)%nat) by (by apply sep_below_start).
      split; [lia|].
      unfold p in Hsepk. rewrite lookup_app_r in Hsepk by lia.
      replace (k - length dirname)%nat with (S (k - S (length dirname))) in Hsepk
        by lia.
      exact Hsepk. }
  unfold p. rewrite take_app_length.
  change (dirname ++ sep :: basename) with (dirname ++ [sep] ++ basename).
  rewrite app_assoc.
  replace (S (length dirname)) with (length (dirname ++ [sep]))
    by (rewrite length_app; simpl; lia).
  by rewrite drop_app_length.
Qed.

Lemma os_path_split_of_join_witness :
  bytes "usr" <> [] /\ ~ In sep (removelast (bytes "usr")) /\
  os_path_split ([] ++ sep :: bytes "usr") = Some ([], bytes "usr").
Proof.
  assert (H1 : bytes "usr" <> []) by discriminate.
  assert (H2 : ~ In sep (removelast (bytes "usr"))).
  { vm_compute. intros [H|[H|H]]; [discriminate | discriminate | done]. }
  split; [exact H1|]. split; [exact H2|].
  exact (os_path_split_of_join [] (bytes "usr") H1 H2).
Defined.

(** The scan of a path and of the same path followed by a separator. *)
Lemma split_scan_snoc (p : Buf) (f1 : nat) :
  forall (f2 : nat) (i : Z),
    i < buf_len p -> i + 1 <= Z.of_nat f1 -> i + 1 <= Z.of_nat f2 ->
    split_scan (p ++ [sep]) f2 i
    = match split_scan p f1 i with
      | Some (d, b) => Some (d, b ++ [sep])
      | None => None
      end.
Proof.
  induction f1 as [|f1 IH]; intros f2 i Hlen H1 H2.
  - rewrite !split_scan_exit by lia. reflexivity.
  - destruct (Z.ltb_spec i 0) as [Hneg|Hpos].
    { rewrite !split_scan_exit by lia. reflexivity. }
    destruct f2 as [|f2]; [lia|].
    assert (Hi : 0 <= i < buf_len p) by lia.
    destruct (buf_at_Some p i Hi) as [_ [c Hc]].
    rewrite (split_scan_step p f1 i c Hi Hc).
    rewrite (split_scan_step (p ++ [sep]) f2 i c).
    + destruct (Byte.eqb c sep).
      * f_equal. f_equal.
        -- apply take_app_le. unfold buf_len in *. lia.
        -- apply drop_app_le. unfold buf_len in *. lia.
      * apply IH; lia.
    + unfold buf_len in *. rewrite length_app. simpl. lia.
    + rewrite lookup_app_l; [done | unfold buf_len in *; lia].
Qed.

(** X3.  A separator appended to a path that does not end in one
    changes nothing but the basename, which gets the separator appended:
    the trailing separator is passed over by the scan and kept in the
    result. *)
Theorem os_path_split_trailing_sep_kept (p dirname basename : Buf) :
  trailing_sep p = false ->
  os_path_split p = Some (dirname, basename) ->
  os_path_split (p ++ [sep]) = Some (dirname, basename ++ [sep]).
Proof.
  intros Htr Hsplit. rewrite os_path_split_scan in *.
  assert (Hs1 : scan_start p = buf_len p - 1)
    by (unfold scan_start; by rewrite Htr).
  assert (Hs2 : scan_start (p ++ [sep]) = buf_len p - 1).
  { unfold scan_start, trailing_sep, buf_len. rewrite last_snoc.
    rewrite (byte_dec_lb eq_refl), length_app. simpl. lia. }
  rewrite Hs2. rewrite Hs1 in Hsplit.
  rewrite (split_scan_snoc p (length p)), Hsplit;
    [done | lia | unfold buf_len; lia |].
  unfold buf_len. rewrite length_app. simpl. lia.
Qed.

Lemma os_path_split_trailing_sep_kept_witness :
  trailing_sep (bytes "a/b") = false /\
  os_path_split (bytes "a/b") = Some (bytes "a", bytes "b") /\
  os_path_split (bytes "a/b" ++ [sep]) = Some (bytes "a", bytes "b" ++ [sep]).
Proof.
  split; [reflexivity|]. split; [reflexivity|].
  apply (os_path_split_trailing_sep_kept (bytes "a/b") (bytes "a") (bytes "b"));
    reflexivity.
Defined.

(** ** The argument vector *)

Lemma array_store_Some {A} (a : list A) (i : Z) (v : A) :
  0 <= i < Z.of_nat (length a) ->
  array_store a i v = Some (<[Z.to_nat i := v]> a).
Proof.
  intros Hi. unfold array_store.
  destruct (Z.leb_spec 0 i); [|lia].
  destruct (Z.ltb_spec i (Z.of_nat (length a))); [done | lia].
Qed.

Lemma list_at_Some {A} (l : list A) (i : Z) :
  0 <= i < Z.of_nat (length l) -> list_at l i = l !! Z.to_nat i.
Proof.
  intros Hi. unfold list_at.
  destruct (Z.leb_spec 0 i); [|lia].
  destruct (Z.ltb_spec i (Z.of_nat (length l))); [done | lia].
Qed.

(** The loop overwrites the slots [i + 1] to [args.length] with the
    arguments from the [i]-th on, and leaves the other slots alone. *)
Lemma argv_loop_fills (args : list string) :
  forall (fuel i : nat) (argv : list (option string)),
    length argv = (length args + 2)%nat ->
    (i <= length args)%nat -> (length args - i <= fuel)%nat ->
    argv_loop args fuel (Z.of_nat i) argv
    = Some (take (S i) argv ++ (Some <$> drop i args)
              ++ drop (S (length args)) argv).
Proof.
  induction fuel as [|fuel IH]; intros i argv Hlen Hi Hfuel.
  - assert (i = length args) as -> by lia.
    simpl. rewrite Z.ltb_irrefl. rewrite drop_all. simpl.
    by rewrite take_drop.
  - cbn [argv_loop].
    destruct (Z.ltb_spec (Z.of_nat i) (Z.of_nat (length args))) as [Hlt|Hge].
    + assert (Hi' : (i < length args)%nat) by lia.
      destruct (lookup_lt_is_Some_2 args i Hi') as [a Ha].
      rewrite list_at_Some by lia. rewrite Nat2Z.id, Ha. simpl.
      rewrite array_store_Some by lia. simpl.
      replace (Z.of_nat i + 1) with (Z.of_nat (S i)) by lia.
      rewrite Nat2Z.id.
      rewrite IH; [|by rewrite length_insert|lia|lia].
      f_equal.
      rewrite (drop_S args a i Ha). rewrite fmap_cons.
      rewrite drop_insert_lt by lia.
      rewrite (take_S_r (<[S i:=Some a]> argv) (S i) (Some a)).
      * rewrite take_insert_ge by lia.
        rewrite <- app_assoc. reflexivity.
      * apply list_lookup_insert_eq. lia.
    + assert (i = length args) as -> by lia.
      rewrite drop_all. simpl. by rewrite take_drop.
Qed.

(** X4.  The argument vector as the code fills it (an array of
    [args.length + 2] slots, [exe] stored at 0, the null pointer at
    [args.length + 1], [args.at(i)] at [i + 1]): whatever the fresh
    array held, the result is [exe], then the arguments in order, then
    the terminating null pointer, and no store or read leaves its array.
    This is the list [make_argv exe args] that [execvp] is given in the
    embedding. *)
Theorem build_argv_is_exe_then_args (junk : nat -> option string)
    (exe : string) (args : list string) :
  build_argv junk exe args = Some ((Some <$> make_argv exe args) ++ [None]).
Proof.
  unfold build_argv, allocate.
  set (n := length args).
  replace (Z.to_nat (Z.of_nat n + 2)) with (S (S n)) by lia.
  set (a0 := map junk (seq 0 (S (S n)))).
  assert (Hlen0 : length a0 = S (S n))
    by (unfold a0; by rewrite length_map, length_seq).
  rewrite array_store_Some by lia. cbn [mbind option_bind].
  rewrite array_store_Some by (rewrite length_insert; lia). cbn [mbind option_bind].
  change 0 with (Z.of_nat 0).
  rewrite argv_loop_fills;
    [|rewrite !length_insert; fold n; lia | lia | lia].
  replace (Z.to_nat (Z.of_nat n + 1)) with (S n) by lia.
  fold n. rewrite drop_0. unfold make_argv. rewrite fmap_cons.
  f_equal.
  destruct a0 as [|x a0]; [done|]. simpl in Hlen0.
  simpl. f_equal. f_equal.
  assert (Hl : length a0 = S n) by lia.
  rewrite <- (take_drop n a0) at 1.
  rewrite insert_app_r_alt by (rewrite length_take; lia).
  rewrite length_take. replace (n - n `min` length a0)%nat with 0%nat by lia.
  rewrite drop_app_length'; [|rewrite length_take; lia].
  destruct (drop n a0) as [|y [|z l]] eqn:Hd.
  - apply (f_equal length) in Hd. rewrite length_drop in Hd. simpl in Hd. lia.
  - reflexivity.
  - apply (f_equal length) in Hd. rewrite length_drop in Hd. simpl in Hd. lia.
Qed.

(** ** More on [os_spawn_process] *)

(** *** Children and the process table *)

Lemma advance_pid (cap : nat) (c : child) (pipes : list (list byte)) :
  c_pid (advance cap c pipes).1 = c_pid c.
Proof.
  unfold advance. destruct (c_live c); [|done].
  destruct (child_run (c_fds c) cap (c_todo c) pipes) as [[|a todo] pipes']; done.
Qed.

Lemma advance_list_pids (cap : nat) (cs : list child) :
  forall pipes, map c_pid (advance_list cap cs pipes).1 = map c_pid cs.
Proof.
  induction cs as [|c cs IH]; intros pipes; [done|]. simpl.
  pose proof (advance_pid cap c pipes) as Hc.
  destruct (advance cap c pipes) as [c' pipes1].
  pose proof (IH pipes1) as Hcs.
  destruct (advance_list cap cs pipes1) as [cs' pipes2].
  simpl in *. by rewrite Hc, Hcs.
Qed.

Lemma advance_all_spec (w : world) :
  w_fds (advance_all w) = w_fds w /\ w_files (advance_all w) = w_files w /\
  w_log (advance_all w) = w_log w /\ w_plan (advance_all w) = w_plan w /\
  w_next_pid (advance_all w) = w_next_pid w /\
  map c_pid (w_procs (advance_all w)) = map c_pid (w_procs w).
Proof.
  unfold advance_all.
  pose proof (advance_list_pids (w_pipe_cap w) (w_procs w) (w_pipes w)) as H.
  destruct (advance_list (w_pipe_cap w) (w_procs w) (w_pipes w)) as [cs pipes].
  by repeat split.
Qed.

Lemma spawn_pid {A} (pid : Z) (o : outcome A) (w : world) :
  c_pid (spawn pid o w) = pid.
Proof.
  destruct o as [a cw|msg cw|cw|exe argv cw|cw]; simpl; try done.
  by destruct (w_programs w exe argv).
Qed.

(** X5.  [os_spawn_process] returns as soon as [fork] has succeeded: the
    only system call of the caller is the [fork], its descriptors and
    the file system are as before, and the child stays in the process
    table.  The child is never waited for, and what happens in it (also
    a failure of [setsid] or [execvp]) does not reach the caller. *)
Theorem os_spawn_process_does_not_wait (exe : string) (args : list string)
    (detached : bool) (w : world) :
  is_fault (plan_at 0 w) = false -> 0 < w_next_pid w ->
  exists w',
    os_spawn_process exe args detached w = Returns tt w' /\
    w_log w' = w_log w ++ [EFork (w_next_pid w)] /\
    w_fds w' = w_fds w /\ w_files w' = w_files w /\
    map c_pid (w_procs w') = map c_pid (w_procs w) ++ [w_next_pid w].
Proof.
  intros Hf Hpid. unfold os_spawn_process, sys_fork, next_fault.
  rewrite plan_at_hd, Hf. wsimpl.
  destruct (Z.eqb_spec (w_next_pid w) (-1)) as [|_]; [lia|].
  destruct (Z.eqb_spec (w_next_pid w) 0) as [|_]; [lia|].
  cbn [negb ret]. eexists. split; [reflexivity|].
  match goal with |- context [advance_all ?W] =>
    destruct (advance_all_spec W) as (-> & -> & -> & _ & _ & ->) end.
  wsimpl. repeat split; try done.
  rewrite map_app. simpl. by rewrite spawn_pid.
Qed.

Lemma os_spawn_process_does_not_wait_witness :
  is_fault (plan_at 0 world0) = false /\ 0 < w_next_pid world0 /\
  exists w',
    os_spawn_process "true" [] true world0 = Returns tt w' /\
    w_log w' = w_log world0 ++ [EFork (w_next_pid world0)] /\
    w_fds w' = w_fds world0 /\ w_files w' = w_files world0 /\
    map c_pid (w_procs w') = map c_pid (w_procs world0) ++ [w_next_pid world0].
Proof.
  split; [reflexivity|]. split; [reflexivity|].
  apply (os_spawn_process_does_not_wait "true" [] true world0); reflexivity.
Defined.

Lemma sys_setsid_run (w : world) :
  sys_setsid w =
    let r := if is_fault (plan_at 0 w) then -1 else 0 in
    Returns r (log (ESetsid r) (set_plan (tl (w_plan w)) w)).
Proof. unfold sys_setsid, next_fault. by rewrite plan_at_hd. Qed.

Lemma sys_execvp_run (exe : string) (argv : list string) (w : world) :
  sys_execvp exe argv w =
    let w0 := set_plan (tl (w_plan w)) w in
    match w_programs w exe argv with
    | Some _ =>
        if is_fault (plan_at 0 w) then Returns (-1) (log (EExecvp exe argv (-1)) w0)
        else Replaced exe argv (log (EExecvp exe argv 0) w0)
    | None => Returns (-1) (log (EExecvp exe argv (-1)) w0)
    end.
Proof. unfold sys_execvp, next_fault. by rewrite plan_at_hd. Qed.

(** X6.  The child of [os_spawn_process].  With [detached] it calls
    [setsid] first and, if that fails, panics with "process detach
    failed" without calling [execvp].  Otherwise its next (or only) call
    is [execvp] with [exe] and the argument vector, and a failure of it
    is the panic "execvp failed".  No descriptor is redirected or
    closed: the program inherits the descriptors of the caller. *)
Theorem os_spawn_process_child_calls (exe : string) (args : list string)
    (detached : bool) (cw : world) :
  let argv := make_argv exe args in
  let o := os_spawn_process_child exe args detached cw in
  let first := if detached then 1%nat else 0%nat in
  let detach := if detached then [ESetsid 0] else [] in
  w_fds (final_world o) = w_fds cw /\
  if detached && is_fault (plan_at 0 cw) then
    panic_of o = Some "process detach failed"%string /\
    w_log (final_world o) = w_log cw ++ [ESetsid (-1)]
  else
    match w_programs cw exe argv, is_fault (plan_at first cw) with
    | Some _, false =>
        (exists cw', o = Replaced exe argv cw') /\
        w_log (final_world o) = w_log cw ++ detach ++ [EExecvp exe argv 0]
    | _, _ =>
        panic_of o = Some "execvp failed: %s"%string /\
        w_log (final_world o) = w_log cw ++ detach ++ [EExecvp exe argv (-1)]
    end.
Proof.
  intros argv o first detach.
  assert (Ho : o = os_spawn_process_child exe args detached cw) by done.
  clearbody o. subst first detach.
  unfold os_spawn_process_child in Ho. fold argv in Ho.
  destruct detached; cbn [andb].
  - unfold bind at 1 in Ho. unfold bind at 1 in Ho.
    rewrite sys_setsid_run in Ho. cbv zeta in Ho.
    destruct (is_fault (plan_at 0 cw)) eqn:F0; cbn [Z.eqb Pos.eqb] in Ho.
    { subst o. cbn. done. }
    cbn [ret] in Ho. unfold bind in Ho. rewrite sys_execvp_run in Ho.
    cbv zeta in Ho. plan_step Ho nth_tl.
    cbn [w_programs log set_log set_plan] in Ho. subst o.
    destruct (w_programs cw exe argv);
      [destruct (is_fault (plan_at 1 cw))|]; cbn; wsimpl;
      rewrite <- ?app_assoc; eauto.
  - unfold bind at 1 in Ho. cbn [ret] in Ho. unfold bind in Ho.
    rewrite sys_execvp_run in Ho. cbv zeta in Ho.
    subst o.
    destruct (w_programs cw exe argv);
      [destruct (is_fault (plan_at 0 cw))|]; cbn; eauto.
Qed.

(** ** More on [read_all_fd] *)

Lemma drained_from_pipes (id : nat) (w w' : world) :
  drained_from id w w' -> w_pipes w' = <[id := []]> (w_pipes w).
Proof. by intros [evs ->]. Qed.

Lemma reader_world_drainable (q : list byte) (junk : nat -> byte) :
  drainable 3 0 q (reader_world q junk).
Proof. repeat split. Qed.

(** X7.  [read_all_fd] on the read end of a pipe whose write ends are
    all closed: the call returns, the pipe is empty afterwards, the
    buffer has exactly the length of what was in the pipe, and when that
    is at most [buf_size] (8192) bytes the buffer is exactly what was in
    the pipe, whatever [out_buf] held before. *)
Theorem read_all_fd_drains (fd : Z) (id : nat) (fuel : nat) (q : list byte)
    (out_buf : Buf) (w : world) :
  drainable fd id q w -> (length q < fuel)%nat ->
  exists out w',
    read_all_fd fuel fd out_buf w = Returns out w' /\
    buf_len out = buf_len q /\
    (buf_len q <= buf_size -> out = q) /\
    w_pipes w' = <[id := []]> (w_pipes w) /\ w_fds w' = w_fds w.
Proof.
  intros Hd Hfuel.
  destruct (read_all_fd_returns fd id fuel q w out_buf Hd Hfuel)
    as (out & w' & Hrun & Hdr & Hlen).
  exists out, w'. split; [done|]. split; [done|]. split.
  - intros Hsmall. destruct (decide (2 <= fuel)%nat) as [Hf|Hf].
    + destruct (read_all_fd_exact fd id fuel q w out_buf Hd Hsmall Hf)
        as (w2 & Hex & _). congruence.
    + unfold buf_len in Hlen. destruct q, out; simpl in *; done || lia.
  - split; [by apply (drained_from_pipes id w w')|].
    by destruct (drained_from_fds _ _ _ Hdr) as (-> & _).
Qed.

Lemma read_all_fd_drains_witness :
  drainable 3 0 (bytes "hello") (reader_world (bytes "hello") zeros) /\
  exists out w',
    read_all_fd 6 3 (bytes "previous contents")
      (reader_world (bytes "hello") zeros) = Returns out w' /\
    buf_len out = buf_len (bytes "hello") /\
    (buf_len (bytes "hello") <= buf_size -> out = bytes "hello") /\
    w_pipes w' = <[0%nat := []]> (w_pipes (reader_world (bytes "hello") zeros)) /\
    w_fds w' = w_fds (reader_world (bytes "hello") zeros).
Proof.
  split; [apply reader_world_drainable|].
  apply (read_all_fd_drains 3 0 6 (bytes "hello") (bytes "previous contents")
           (reader_world (bytes "hello") zeros));
    [apply reader_world_drainable | simpl; lia].
Defined.

Lemma sys_read_fails (fd len : Z) (w : world) :
  is_fault (plan_at 0 w) = true \/ w_fds w !! fd = None ->
  sys_read fd len w
  = Returns (-1, []) (log (ERead fd len (-1)) (set_plan (tl (w_plan w)) w)).
Proof.
  intros H. unfold sys_read, next_fault. rewrite plan_at_hd. wsimpl.
  destruct (is_fault (plan_at 0 w)); [done|].
  destruct H as [H|H]; [done|]. by rewrite H.
Qed.

(** X8.  A [read] that fails (the environment makes it fail, or the
    descriptor is not open) ends [read_all_fd] with the panic "fd read
    error", at whichever round of the loop it happens; the first [read]
    asks for [buf_size] bytes. *)
Theorem read_all_fd_read_error (fuel : nat) (fd : Z) (w : world) :
  is_fault (plan_at 0 w) = true \/ w_fds w !! fd = None ->
  (forall b actual, exists w',
      read_all_loop (S fuel) fd b actual w = Panics "fd read error" w' /\
      w_log w' = w_log w ++ [ERead fd (buf_len b) (-1)]) /\
  (forall out_buf, exists w',
      read_all_fd (S fuel) fd out_buf w = Panics "fd read error" w' /\
      w_log w' = w_log w ++ [ERead fd buf_size (-1)]).
Proof.
  intros H.
  assert (Hloop : forall b actual, exists w',
      read_all_loop (S fuel) fd b actual w = Panics "fd read error" w' /\
      w_log w' = w_log w ++ [ERead fd (buf_len b) (-1)]).
  { intros b actual. cbn [read_all_loop]. unfold bind.
    rewrite (sys_read_fails fd (buf_len b) w H). cbn. eauto. }
  split; [exact Hloop|]. intros out_buf. unfold read_all_fd.
  destruct (Hloop (buf_resize (w_junk w) out_buf buf_size) 0) as (w' & Hrun & Hlog).
  exists w'. split; [done|]. rewrite Hlog.
  rewrite buf_resize_len; [done | unfold buf_size; lia].
Qed.

Lemma read_all_fd_read_error_witness :
  (is_fault (plan_at 0 world0) = true \/ w_fds world0 !! 7 = None) /\
  (forall b actual, exists w',
      read_all_loop 1 7 b actual world0 = Panics "fd read error" w' /\
      w_log w' = w_log world0 ++ [ERead 7 (buf_len b) (-1)]) /\
  (forall out_buf, exists w',
      read_all_fd 1 7 out_buf world0 = Panics "fd read error" w' /\
      w_log w' = w_log world0 ++ [ERead 7 buf_size (-1)]).
Proof.
  assert (H : is_fault (plan_at 0 world0) = true \/ w_fds world0 !! 7 = None)
    by (right; reflexivity).
  split; [exact H|]. exact (read_all_fd_read_error 0 7 world0 H).
Defined.

Lemma buf_store_nil (b : Buf) : buf_store b [] = b.
Proof. unfold buf_store. simpl. apply drop_0. Qed.

Lemma buf_resize_grow (junk : nat -> byte) (b : Buf) (n : Z) :
  (length b <= Z.to_nat n)%nat ->
  buf_resize junk b n = b ++ map junk (seq (length b) (Z.to_nat n - length b)).
Proof. intros H. unfold buf_resize. by rewrite take_ge. Qed.

Lemma buf_resize_take (junk : nat -> byte) (b : Buf) (n : Z) :
  (Z.to_nat n <= length b)%nat -> buf_resize junk b n = take (Z.to_nat n) b.
Proof.
  intros H. unfold buf_resize.
  replace (Z.to_nat n - length b)%nat with 0%nat by lia.
  simpl. apply app_nil_r.
Qed.

(** X9.  A stream of 8192 + k bytes (0 < k <= 8192) needs a second
    [read], which stores at offset 0 again: the result starts with the
    last k bytes of the stream, goes on with the bytes k to 8191 of the
    stream, and ends with k bytes of fresh storage that were never
    written.  The first k bytes of the stream are lost. *)
Theorem read_all_fd_second_read_overwrites (fd : Z) (id : nat) (fuel : nat)
    (q1 q2 : list byte) (out_buf : Buf) (w : world) :
  drainable fd id (q1 ++ q2) w ->
  length q1 = chunk -> q2 <> [] -> (length q2 <= chunk)%nat -> (3 <= fuel)%nat ->
  exists w',
    read_all_fd fuel fd out_buf w
    = Returns (q2 ++ drop (length q2) q1
                 ++ map (w_junk w) (seq chunk (length q2))) w'.
Proof.
  intros Hd Hq1 Hq2 Hq2' Hfuel. unfold read_all_fd.
  destruct fuel as [|[|[|fuel]]]; [lia | lia | lia |].
  assert (Hchunk : Z.of_nat chunk = buf_size)
    by (unfold chunk; apply Z2Nat.id; unfold buf_size; lia).
  assert (Hpos : 0 < buf_size) by (unfold buf_size; lia).
  generalize dependent chunk. intros c Hq1 Hq2' Hchunk.
  assert (Hb0 : buf_len (buf_resize (w_junk w) out_buf buf_size) = buf_size)
    by (rewrite buf_resize_len; lia).
  generalize dependent (buf_resize (w_junk w) out_buf buf_size). intros b0 Hb0.
  assert (Hlen2 : (0 < length q2)%nat)
    by (destruct q2; [exfalso; exact (Hq2 eq_refl) | apply Nat.lt_0_succ]).
  assert (Hl1 : buf_len q1 = buf_size) by (unfold buf_len; lia).
  assert (Hc : Z.to_nat buf_size = length q1) by lia.
  (* first read *)
  destruct (sys_read_data fd id (q1 ++ q2) buf_size w Hd) as (Hr & Hd1 & _);
    [by destruct q1, q2 | lia |].
  rewrite Hc, take_app_length, drop_app_length, Hl1 in Hr, Hd1.
  cbn [read_all_loop]. unfold bind at 1. rewrite Hb0, Hr.
  destruct (Z.ltb_spec buf_size 0); [lia|].
  destruct (Z.eqb_spec buf_size 0); [lia|].
  cbn [w_junk log set_log set_pipes].
  assert (Hstore1 : buf_store b0 q1 = q1).
  { unfold buf_store. rewrite drop_ge; [apply app_nil_r|].
    unfold buf_len in Hb0. lia. }
  rewrite Hstore1.
  rewrite (buf_resize_grow (w_junk w) q1) by lia.
  replace (Z.to_nat (0 + buf_size + buf_size) - length q1)%nat with c by lia.
  rewrite Hq1.
  assert (HJ : length (map (w_junk w) (seq c c)) = c)
    by (by rewrite length_map, length_seq).
  assert (HtJ : take (length q2) (map (w_junk w) (seq c c))
                = map (w_junk w) (seq c (length q2))).
  { rewrite firstn_map. f_equal. rewrite take_seq. f_equal. lia. }
  generalize dependent (map (w_junk w) (seq c c)). intros J HJ HtJ.
  assert (Hb1len : buf_len (q1 ++ J) = 2 * buf_size)
    by (unfold buf_len; rewrite length_app; lia).
  (* second read *)
  match type of Hd1 with drainable _ _ _ ?W =>
    destruct (sys_read_data fd id q2 (buf_len (q1 ++ J)) W Hd1) as (Hr2 & Hd2 & _);
      [done | lia |]
  end.
  assert (Htake2 : take (Z.to_nat (buf_len (q1 ++ J))) q2 = q2)
    by (apply take_ge; lia).
  assert (Hdrop2 : drop (Z.to_nat (buf_len (q1 ++ J))) q2 = [])
    by (apply drop_ge; lia).
  rewrite Htake2, Hdrop2 in Hr2, Hd2.
  unfold bind at 1. rewrite Hr2.
  assert (Hl2 : 0 < buf_len q2) by (unfold buf_len; lia).
  destruct (Z.ltb_spec (buf_len q2) 0); [lia|].
  destruct (Z.eqb_spec (buf_len q2) 0); [lia|].
  cbn [w_junk log set_log set_pipes].
  (* third read: end of stream *)
  unfold bind. rewrite (sys_read_eof fd id _ _ Hd2).
  cbn [Z.ltb Z.eqb Z.compare w_junk log set_log set_pipes].
  rewrite buf_store_nil.
  eexists. f_equal.
  unfold buf_store. rewrite drop_app_le by lia.
  assert (HD : length (drop (length q2) q1) = (c - length q2)%nat)
    by (rewrite length_drop; lia).
  generalize dependent (drop (length q2) q1). intros D HD.
  assert (Hlen : length (q2 ++ D ++ J) = (c + c)%nat)
    by (rewrite !length_app, HD, HJ; lia).
  rewrite (buf_resize_grow _ (q2 ++ D ++ J))
    by (rewrite Hlen; unfold buf_len; lia).
  rewrite buf_resize_take
    by (rewrite length_app, Hlen; unfold buf_len; lia).
  replace (Z.to_nat (0 + buf_size + buf_len q2 + 0))
    with (length (q2 ++ D) + length q2)%nat
    by (rewrite length_app, HD; unfold buf_len; lia).
  rewrite <- !app_assoc. rewrite (app_assoc q2 D).
  rewrite take_app_add'; [|done].
  rewrite <- app_assoc. f_equal. f_equal.
  rewrite take_app_le by lia. exact HtJ.
Qed.

Lemma read_all_fd_second_read_overwrites_witness :
  drainable 3 0 (repeat "a"%byte chunk ++ bytes "tail")
    (reader_world (repeat "a"%byte chunk ++ bytes "tail") zeros) /\
  length (repeat "a"%byte chunk) = chunk /\
  exists w',
    read_all_fd 3 3 [] (reader_world (repeat "a"%byte chunk ++ bytes "tail") zeros)
    = Returns (bytes "tail" ++ drop (length (bytes "tail")) (repeat "a"%byte chunk)
                 ++ map zeros (seq chunk (length (bytes "tail")))) w'.
Proof.
  split; [apply reader_world_drainable|].
  split; [apply repeat_length|].
  apply (read_all_fd_second_read_overwrites 3 0 3 (repeat "a"%byte chunk)
           (bytes "tail") []
           (reader_world (repeat "a"%byte chunk ++ bytes "tail") zeros));
    [apply reader_world_drainable | apply repeat_length | discriminate
    | by_leb | lia].
Defined.

(** *** Reading a pipe that still has a writer *)

Lemma sys_read_takes (fd : Z) (id : nat) (q : list byte) (len : Z) (w : world) :
  w_plan w = [] -> w_procs w = [] ->
  w_fds w !! fd = Some (FPipe id ReadEnd) -> w_pipes w !! id = Some q ->
  q <> [] -> 0 < len ->
  sys_read fd len w =
    Returns (buf_len (take (Z.to_nat len) q), take (Z.to_nat len) q)
      (log (ERead fd len (buf_len (take (Z.to_nat len) q)))
         (set_pipes (<[id := drop (Z.to_nat len) q]> (w_pipes w)) w)) /\
  take (Z.to_nat len) q <> [].
Proof.
  intros Hplan Hprocs Hfd Hq Hne Hlen.
  assert (Hdata : take (Z.to_nat len) q <> []).
  { destruct q; [done|]. destruct (Z.to_nat len) eqn:E; [lia | done]. }
  split; [|done].
  unfold sys_read. rewrite next_fault_nil by done. simpl. rewrite Hfd, Hq.
  destruct (take (Z.to_nat len) q) eqn:E; [done|].
  rewrite advance_all_no_children by done. reflexivity.
Qed.

Lemma read_all_loop_blocks (fd : Z) (id : nat) :
  forall (fuel : nat) (q : list byte) (w : world) (b : Buf) (actual : Z),
    w_plan w = [] -> w_procs w = [] ->
    w_fds w !! fd = Some (FPipe id ReadEnd) -> w_pipes w !! id = Some q ->
    holds_write_end id (w_fds w) = true ->
    0 < buf_len b -> 0 <= actual -> (length q < fuel)%nat ->
    exists w', read_all_loop fuel fd b actual w = Blocks w' /\
               w_pipes w' = <[id := []]> (w_pipes w) /\ w_fds w' = w_fds w.
Proof.
  induction fuel as [|fuel IH];
    intros q w b actual Hplan Hprocs Hfd Hq Hw Hb Hact Hfuel; [lia|].
  destruct q as [|c q].
  - exists w. cbn [read_all_loop]. unfold bind, sys_read.
    rewrite next_fault_nil by done. rewrite Hfd, Hq. rewrite take_nil.
    destruct (Z.leb_spec (buf_len b) 0); [lia|].
    unfold has_writer. rewrite Hw. cbn [orb].
    split; [done|]. split; [|done]. by rewrite list_insert_id.
  - destruct (sys_read_takes fd id (c :: q) (buf_len b) w) as [Hr Hne]; try done.
    set (data := take (Z.to_nat (buf_len b)) (c :: q)) in *.
    assert (Hamt : 0 < buf_len data).
    { unfold buf_len. destruct data; [done | simpl; lia]. }
    assert (Hsplit : (length data + length (drop (Z.to_nat (buf_len b)) (c :: q))
                      = length (c :: q))%nat).
    { unfold data. rewrite <- length_app, take_drop. done. }
    cbn [read_all_loop]. unfold bind at 1. rewrite Hr.
    destruct (Z.ltb_spec (buf_len data) 0); [lia|].
    destruct (Z.eqb_spec (buf_len data) 0); [lia|].
    assert (Hpos : (0 < length data)%nat) by (unfold buf_len in Hamt; lia).
    match goal with |- context [read_all_loop fuel fd ?B ?A ?W] =>
      destruct (IH (drop (Z.to_nat (buf_len b)) (c :: q)) W B A)
        as (w' & Hrun & Hpipes & Hfds) end; wsimpl; try done.
    + apply list_lookup_insert_eq. by eapply lookup_lt_Some.
    + rewrite buf_resize_len; unfold buf_size; lia.
    + lia.
    + simpl in *. lia.
    + exists w'. split; [exact Hrun|]. split; [|done].
      rewrite Hpipes. by rewrite list_insert_insert_eq.
Qed.

(** X10.  [read_all_fd] returns only at the end of the stream: while a
    write end of the pipe is open (here: held by the caller itself), it
    takes what is buffered and then stays in [read] forever.  The parent
    of [os_exec_process] closes its write ends of the output and error
    pipes before it reads them. *)
Theorem read_all_fd_blocks_while_writer_open (fuel : nat) (fd : Z) (id : nat)
    (q : list byte) (out_buf : Buf) (w : world) :
  w_plan w = [] -> w_procs w = [] ->
  w_fds w !! fd = Some (FPipe id ReadEnd) -> w_pipes w !! id = Some q ->
  holds_write_end id (w_fds w) = true ->
  (length q < fuel)%nat ->
  exists w', read_all_fd fuel fd out_buf w = Blocks w' /\
             w_pipes w' = <[id := []]> (w_pipes w) /\ w_fds w' = w_fds w.
Proof.
  intros Hplan Hprocs Hfd Hq Hw Hfuel. unfold read_all_fd.
  apply (read_all_loop_blocks fd id fuel q w); try done.
  rewrite buf_resize_len; unfold buf_size; lia.
Qed.

Lemma read_all_fd_blocks_while_writer_open_witness :
  holds_write_end 0 (w_fds (pipe_world (bytes "hello"))) = true /\
  exists w', read_all_fd 6 3 [] (pipe_world (bytes "hello")) = Blocks w' /\
             w_pipes w' = <[0%nat := []]> (w_pipes (pipe_world (bytes "hello"))) /\
             w_fds w' = w_fds (pipe_world (bytes "hello")).
Proof.
  split; [reflexivity|].
  apply (read_all_fd_blocks_while_writer_open 6 3 0 (bytes "hello") []
           (pipe_world (bytes "hello")));
    [reflexivity | reflexivity | reflexivity | reflexivity | reflexivity
    | simpl; lia].
Defined.

(** ** More on [os_exec_process] *)

Lemma set_plan_same (w : world) : set_plan (w_plan w) w = w.
Proof. by destruct w. Qed.

Lemma plan_at_nil (k : nat) (w : world) : w_plan w = [] -> plan_at k w = NoFault.
Proof. unfold plan_at. intros ->. by destruct k. Qed.

(** [os_exec_process_outcome] in a world without pending faults. *)
Lemma os_exec_process_ready_outcome (fuel : nat) (exe : string)
    (args : list string) (rc : Z) (e0 o0 : Buf) (w : world) (p : program) :
  ready w = true ->
  w_programs w exe (make_argv exe args) = Some p ->
  plain (prog_script p) = true ->
  let out := writes_to STDOUT_FILENO (prog_script p) in
  let err := writes_to STDERR_FILENO (prog_script p) in
  (length out <= w_pipe_cap w)%nat -> (length err <= w_pipe_cap w)%nat ->
  (length out < fuel)%nat -> (length err < fuel)%nat ->
  exists (r1 w1 r2 w2 r3 w3 : Z) (out' err' : Buf)
         (reads_out reads_err : list syscall),
    let n := length (w_pipes w) in
    let pid := w_next_pid w in
    let w' :=
      set_log (w_log w ++ [EPipe 0 r1 w1; EPipe 0 r2 w2; EPipe 0 r3 w3;
                           EFork pid;
                           EClose r1 0; EClose w2 0; EClose w3 0;
                           EWaitpid pid pid (wait_status (prog_term p))]
                 ++ reads_out ++ reads_err)
        (set_fds (<[r3 := FPipe (S (S n)) ReadEnd]>
                    (<[r2 := FPipe (S n) ReadEnd]>
                       (<[w1 := FPipe n WriteEnd]> (w_fds w))))
           (set_pipes (w_pipes w ++ [[]; []; []])
              (set_next_pid (pid + 1) w))) in
    w_fds w !! r1 = None /\ w_fds w !! w1 = None /\ w_fds w !! r2 = None /\
    w_fds w !! w2 = None /\ w_fds w !! r3 = None /\ w_fds w !! w3 = None /\
    NoDup [r1; w1; r2; w2; r3; w3] /\
    os_exec_process fuel exe args rc e0 o0 w
    = Returns (wait_status (prog_term p), err', out') w' /\
    forallb (is_read_of r2) reads_out = true /\
    forallb (is_read_of r3) reads_err = true.
Proof.
  intros Hready Hprog Hplain out err Hout Herr Hfo Hfe.
  destruct (ready_spec w Hready) as (_ & _ & _ & _ & _ & Hprocs & Hplan & _).
  assert (Hw : set_plan [] w = w) by (rewrite <- Hplan; apply set_plan_same).
  destruct (os_exec_process_outcome fuel exe args rc e0 o0 w p)
    as (r1 & w1 & r2 & w2 & r3 & w3 & out' & err' & ro & re & H); try done.
  { apply ready_callable. by rewrite Hw. }
  { intros k _. by rewrite plan_at_nil. }
  { rewrite Hplan. simpl. lia. }
  cbv zeta in H. rewrite !plan_at_nil in H by done.
  cbn [is_fault close_result] in H. unfold close_result in H. cbn [is_fault] in H.
  destruct H as (? & ? & ? & ? & ? & ? & ? & _ & Hrun & _ & _ & _ & _ & ? & ?).
  exists r1, w1, r2, w2, r3, w3, out', err', ro, re. cbv zeta.
  do 7 (split; [done|]). split; [|done].
  rewrite Hrun. f_equal. apply world_ext; wsimpl; done.
Qed.

(** X11.  The system calls of a returning [os_exec_process], in order:
    three [pipe], [fork], [close] of the read end of the input pipe and
    of the write ends of the output and error pipes, [waitpid], then
    reads of the output pipe only, then reads of the error pipe only.
    The parent waits for the child before its first read, writes nothing
    to the child's standard input, leaves the file system alone, reaps
    the child, and leaves the three pipes empty. *)
Theorem os_exec_process_call_sequence (fuel : nat) (exe : string)
    (args : list string) (rc : Z) (e0 o0 : Buf) (w : world) (p : program) :
  ready w = true ->
  w_programs w exe (make_argv exe args) = Some p ->
  plain (prog_script p) = true ->
  (length (writes_to STDOUT_FILENO (prog_script p)) <= w_pipe_cap w)%nat ->
  (length (writes_to STDERR_FILENO (prog_script p)) <= w_pipe_cap w)%nat ->
  (length (writes_to STDOUT_FILENO (prog_script p)) < fuel)%nat ->
  (length (writes_to STDERR_FILENO (prog_script p)) < fuel)%nat ->
  exists (r1 w1 r2 w2 r3 w3 : Z) (reads_out reads_err : list syscall) res w',
    let pid := w_next_pid w in
    os_exec_process fuel exe args rc e0 o0 w = Returns res w' /\
    NoDup [r1; w1; r2; w2; r3; w3] /\
    w_log w' = w_log w ++ [EPipe 0 r1 w1; EPipe 0 r2 w2; EPipe 0 r3 w3;
                           EFork pid;
                           EClose r1 0; EClose w2 0; EClose w3 0;
                           EWaitpid pid pid (wait_status (prog_term p))]
                 ++ reads_out ++ reads_err /\
    forallb (is_read_of r2) reads_out = true /\
    forallb (is_read_of r3) reads_err = true /\
    w_procs w' = [] /\ w_files w' = w_files w /\
    w_pipes w' = w_pipes w ++ [[]; []; []].
Proof.
  intros Hready Hprog Hplain Hout Herr Hfo Hfe.
  destruct (ready_spec w Hready) as (_ & _ & _ & _ & _ & Hprocs & _).
  destruct (os_exec_process_ready_outcome fuel exe args rc e0 o0 w p
              Hready Hprog Hplain Hout Herr Hfo Hfe)
    as (r1 & w1 & r2 & w2 & r3 & w3 & out' & err' & ro & re & H).
  cbv zeta in H.
  destruct H as (_ & _ & _ & _ & _ & _ & Hnd & Hrun & Hro & Hre).
  eexists r1, w1, r2, w2, r3, w3, ro, re, _, _. cbv zeta.
  split; [exact Hrun|]. wsimpl. by repeat split.
Qed.

Lemma os_exec_process_call_sequence_witness :
  ready world0 = true /\
  exists (r1 w1 r2 w2 r3 w3 : Z) (reads_out reads_err : list syscall) res w',
    os_exec_process 9 "fail" [] 0 [] [] world0 = Returns res w' /\
    NoDup [r1; w1; r2; w2; r3; w3] /\
    w_log w' = w_log world0
                 ++ [EPipe 0 r1 w1; EPipe 0 r2 w2; EPipe 0 r3 w3;
                     EFork (w_next_pid world0);
                     EClose r1 0; EClose w2 0; EClose w3 0;
                     EWaitpid (w_next_pid world0) (w_next_pid world0)
                       (wait_status (Exited 3))]
                 ++ reads_out ++ reads_err /\
    forallb (is_read_of r2) reads_out = true /\
    forallb (is_read_of r3) reads_err = true /\
    w_procs w' = [] /\ w_files w' = w_files world0 /\
    w_pipes w' = w_pipes world0 ++ [[]; []; []].
Proof.
  split; [reflexivity|].
  apply (os_exec_process_call_sequence 9 "fail" [] 0 [] [] world0
           (mkProgram [Put STDOUT_FILENO (bytes "partial");
                       Put STDERR_FILENO (bytes "oops")] (Exited 3)));
    [reflexivity | reflexivity | reflexivity
    | by_leb | by_leb | by_ltb | by_ltb].
Defined.

(** After a call that returned, the layer can be called again. *)
Lemma os_exec_process_keeps_ready (fuel : nat) (exe : string)
    (args : list string) (rc : Z) (e0 o0 : Buf) (w : world) (p : program) :
  ready w = true ->
  w_programs w exe (make_argv exe args) = Some p ->
  plain (prog_script p) = true ->
  (length (writes_to STDOUT_FILENO (prog_script p)) <= w_pipe_cap w)%nat ->
  (length (writes_to STDERR_FILENO (prog_script p)) <= w_pipe_cap w)%nat ->
  (length (writes_to STDOUT_FILENO (prog_script p)) < fuel)%nat ->
  (length (writes_to STDERR_FILENO (prog_script p)) < fuel)%nat ->
  exists res w',
    os_exec_process fuel exe args rc e0 o0 w = Returns res w' /\
    ready w' = true /\
    size (w_fds w') = (size (w_fds w) + 3)%nat /\
    w_programs w' = w_programs w /\ w_pipe_cap w' = w_pipe_cap w.
Proof.
  intros Hready Hprog Hplain Hout Herr Hfo Hfe.
  destruct (ready_spec w Hready)
    as (Hpid & H0 & H1 & H2 & Hrange & Hprocs & Hplan & Hfplan).
  destruct (os_exec_process_ready_outcome fuel exe args rc e0 o0 w p
              Hready Hprog Hplain Hout Herr Hfo Hfe)
    as (r1 & w1 & r2 & w2 & r3 & w3 & out' & err' & ro & re & H).
  cbv zeta in H.
  destruct H as (_ & Hw1 & Hr2 & _ & Hr3 & _ & Hnd & Hrun & _ & _).
  apply NoDup_6 in Hnd.
  eexists _, _. split; [exact Hrun|].
  assert (Hstd : forall fd, is_Some (w_fds w !! fd) ->
            fd <> w1 /\ fd <> r2 /\ fd <> r3).
  { intros fd [o Ho]. repeat split; intros ->; congruence. }
  split; [|split; [|done]].
  - unfold ready, is_open, no_children, no_faults,
      STDIN_FILENO, STDOUT_FILENO, STDERR_FILENO.
    wsimpl. rewrite Hprocs, Hplan, Hfplan.
    rewrite !andb_true_r.
    destruct (Hstd 0 H0) as (? & ? & ?). destruct (Hstd 1 H1) as (? & ? & ?).
    destruct (Hstd 2 H2) as (? & ? & ?).
    rewrite !lookup_insert_ne by done.
    destruct H0 as [? ->], H1 as [? ->], H2 as [? ->].
    rewrite !andb_true_r.
    apply andb_true_intro. split; [apply Z.ltb_lt; lia|].
    apply forallb_forall. intros [fd o] Hin.
    apply list_elem_of_In, elem_of_map_to_list in Hin. cbn [snd].
    rewrite length_app. cbn [length].
    rewrite !lookup_insert in Hin.
    repeat case_decide;
      try (injection Hin as <-; simpl; apply Nat.ltb_lt; clear; lia).
    destruct o as [id e| |]; try done. simpl. apply Nat.ltb_lt.
    apply Hrange in Hin. clear -Hin. lia.
  - wsimpl. rewrite !map_size_insert_None; [lia | done | |].
    + rewrite lookup_insert_ne by tauto. done.
    + rewrite !lookup_insert_ne by tauto. done.
Qed.

(** X12.  A returning call leaves the caller in a state in which
    [os_exec_process] can be called again, with three more open
    descriptors: [count] calls in a row all return and leave
    [3 * count] more descriptors than there were. *)
Theorem os_exec_process_repeated_leaks (count fuel : nat) (exe : string)
    (args : list string) (w : world) (p : program) :
  ready w = true ->
  w_programs w exe (make_argv exe args) = Some p ->
  plain (prog_script p) = true ->
  (length (writes_to STDOUT_FILENO (prog_script p)) <= w_pipe_cap w)%nat ->
  (length (writes_to STDERR_FILENO (prog_script p)) <= w_pipe_cap w)%nat ->
  (length (writes_to STDOUT_FILENO (prog_script p)) < fuel)%nat ->
  (length (writes_to STDERR_FILENO (prog_script p)) < fuel)%nat ->
  exists w',
    os_exec_process_repeated count fuel exe args w = Returns tt w' /\
    ready w' = true /\
    size (w_fds w') = (size (w_fds w) + 3 * count)%nat.
Proof.
  revert w. induction count as [|count IH];
    intros w Hready Hprog Hplain Hout Herr Hfo Hfe.
  - exists w. split; [done|]. split; [done | lia].
  - destruct (os_exec_process_keeps_ready fuel exe args 0 [] [] w p
                Hready Hprog Hplain Hout Herr Hfo Hfe)
      as (res & w1 & Hrun & Hready1 & Hsize & Hprogs & Hcap).
    destruct (IH w1) as (w' & Hrest & Hready' & Hsize'); try done.
    + by rewrite Hprogs.
    + by rewrite Hcap.
    + by rewrite Hcap.
    + exists w'. cbn [os_exec_process_repeated].
      rewrite (bind_returns _ _ _ _ _ Hrun). split; [done|].
      split; [done | lia].
Qed.

Lemma os_exec_process_repeated_leaks_witness :
  ready world0 = true /\
  exists w',
    os_exec_process_repeated 5 3 "true" [] world0 = Returns tt w' /\
    ready w' = true /\
    size (w_fds w') = (size (w_fds world0) + 3 * 5)%nat.
Proof.
  split; [reflexivity|].
  apply (os_exec_process_repeated_leaks 5 3 "true" [] world0
           (mkProgram [] (Exited 0)));
    [reflexivity | reflexivity | reflexivity
    | by_leb | by_leb | by_ltb | by_ltb].
Defined.

(** X13.  The child of [os_exec_process] when all its calls succeed:
    three [dup2] make the descriptors 0, 1 and 2 the read end of the
    input pipe and the write ends of the output and error pipes, then
    [execvp] runs; every other descriptor is as it was at the [fork].
    The child closes nothing: the program starts with every pipe end it
    inherited still open under its own number. *)
Theorem os_exec_process_child_keeps_pipe_ends (exe : string) (args : list string)
    (p : program) (a b c x y z : Z) (oa ob oc : fobj) (cw : world) :
  w_plan cw = [] ->
  w_programs cw exe (make_argv exe args) = Some p ->
  w_fds cw !! a = Some oa -> w_fds cw !! b = Some ob -> w_fds cw !! c = Some oc ->
  b <> 0 -> c <> 0 -> c <> 1 ->
  exists cw',
    os_exec_process_child exe args (a, x) (y, b) (z, c) cw
    = Replaced exe (make_argv exe args) cw' /\
    w_log cw' = w_log cw ++ [EDup2 a 0 0; EDup2 b 1 1; EDup2 c 2 2;
                             EExecvp exe (make_argv exe args) 0] /\
    w_fds cw' !! 0 = Some oa /\ w_fds cw' !! 1 = Some ob /\
    w_fds cw' !! 2 = Some oc /\
    (forall fd, fd <> 0 -> fd <> 1 -> fd <> 2 ->
                w_fds cw' !! fd = w_fds cw !! fd).
Proof.
  intros Hplan Hprog Ha Hb Hc Hb0 Hc0 Hc1.
  unfold os_exec_process_child, STDIN_FILENO, STDOUT_FILENO, STDERR_FILENO.
  cbn [fst snd].
  erewrite bind_returns; [|by apply sys_dup2_ok]. cbn [Z.eqb].
  erewrite bind_returns;
    [|apply sys_dup2_ok; wsimpl; [done | by rewrite lookup_insert_ne | lia]].
  cbn [Z.eqb Pos.eqb].
  erewrite bind_returns;
    [|apply sys_dup2_ok; wsimpl;
      [done | by rewrite !lookup_insert_ne | lia]].
  cbn [Z.eqb Pos.eqb].
  unfold bind. erewrite sys_execvp_ok; [|done|wsimpl; exact Hprog].
  eexists. split; [reflexivity|]. wsimpl.
  split; [by rewrite <- !app_assoc|].
  split; [by rewrite !lookup_insert_ne, lookup_insert_eq by done|].
  split; [by rewrite lookup_insert_ne, lookup_insert_eq by done|].
  split; [by rewrite lookup_insert_eq|].
  intros fd ? ? ?. by rewrite !lookup_insert_ne by done.
Qed.

Lemma os_exec_process_child_keeps_pipe_ends_witness :
  w_plan forked_world = [] /\
  exists cw',
    os_exec_process_child "echo" ["hi"%string] (3, 4) (5, 6) (7, 8) forked_world
    = Replaced "echo" (make_argv "echo" ["hi"%string]) cw' /\
    w_log cw' = w_log forked_world
                  ++ [EDup2 3 0 0; EDup2 6 1 1; EDup2 8 2 2;
                      EExecvp "echo" (make_argv "echo" ["hi"%string]) 0] /\
    w_fds cw' !! 0 = Some (FPipe 0 ReadEnd) /\
    w_fds cw' !! 1 = Some (FPipe 1 WriteEnd) /\
    w_fds cw' !! 2 = Some (FPipe 2 WriteEnd) /\
    (forall fd, fd <> 0 -> fd <> 1 -> fd <> 2 ->
                w_fds cw' !! fd = w_fds forked_world !! fd).
Proof.
  split; [reflexivity|].
  apply (os_exec_process_child_keeps_pipe_ends "echo" ["hi"%string]
           (mkProgram [Put STDOUT_FILENO (echo_output ["hi"%string])] (Exited 0))
           3 6 8 4 5 7 (FPipe 0 ReadEnd) (FPipe 1 WriteEnd) (FPipe 2 WriteEnd)
           forked_world); (reflexivity || lia).
Defined.

(** X14.  The parent of [os_exec_process] does not look at the results
    of its three [close] and of [waitpid]: when they fail, the call
    still returns with the captured output.  The three descriptors are
    released all the same; when [waitpid] fails, [return_code] comes
    back as the caller passed it, and the terminated child stays in the
    process table.  (The four set-up calls succeed; [f1] to [f4] are the
    faults that await the three [close] and the [waitpid].) *)
Theorem os_exec_process_ignores_close_and_wait_failures
    (fuel : nat) (exe : string) (args : list string) (rc : Z) (e0 o0 : Buf)
    (w : world) (p : program) (f1 f2 f3 f4 : fault) :
  callable w = true ->
  w_plan w = [NoFault; NoFault; NoFault; NoFault; f1; f2; f3; f4] ->
  w_programs w exe (make_argv exe args) = Some p ->
  plain (prog_script p) = true ->
  let out := writes_to STDOUT_FILENO (prog_script p) in
  let err := writes_to STDERR_FILENO (prog_script p) in
  (length out <= w_pipe_cap w)%nat -> (length err <= w_pipe_cap w)%nat ->
  (length out < fuel)%nat -> (length err < fuel)%nat ->
  exists (r1 w1 r2 w2 r3 w3 : Z) (reads : list syscall) (out' err' : Buf) w',
    let pid := w_next_pid w in
    let status := if is_fault f4 then rc else wait_status (prog_term p) in
    os_exec_process fuel exe args rc e0 o0 w = Returns (status, err', out') w' /\
    (buf_len out <= buf_size -> out' = out) /\
    (buf_len err <= buf_size -> err' = err) /\
    w_log w' = w_log w ++ [EPipe 0 r1 w1; EPipe 0 r2 w2; EPipe 0 r3 w3;
                           EFork pid;
                           EClose r1 (close_result f1);
                           EClose w2 (close_result f2);
                           EClose w3 (close_result f3);
                           EWaitpid pid (if is_fault f4 then -1 else pid) status]
                 ++ reads /\
    w_fds w' !! r1 = None /\ w_fds w' !! w2 = None /\ w_fds w' !! w3 = None /\
    map c_pid (w_procs w') = if is_fault f4 then [pid] else [].
Proof.
  intros Hready Hplan Hprog Hplain out err Hout Herr Hfo Hfe.
  destruct (os_exec_process_outcome fuel exe args rc e0 o0 w p)
    as (r1 & w1 & r2 & w2 & r3 & w3 & out' & err' & ro & re & H); try done.
  { intros k Hk. unfold plan_at. rewrite Hplan.
    by destruct k as [|[|[|[|k]]]]; [.. | lia]. }
  { rewrite Hplan. simpl. lia. }
  cbv zeta in H. unfold plan_at in H. rewrite Hplan in H. cbn [nth] in H.
  destruct H as (Hr1 & _ & _ & Hw2 & _ & Hw3 & Hnd & _ & Hrun & _ & _ & Ho & He & _).
  apply NoDup_6 in Hnd.
  eexists r1, w1, r2, w2, r3, w3, (ro ++ re), out', err', _. cbv zeta.
  split; [exact Hrun|]. split; [done|]. split; [done|]. wsimpl.
  split; [done|].
  split; [by rewrite !lookup_insert_ne by (intuition congruence)|].
  split; [by rewrite !lookup_insert_ne by (intuition congruence)|].
  split; [by rewrite !lookup_insert_ne by (intuition congruence)|].
  by destruct (is_fault f4).
Qed.

Lemma os_exec_process_ignores_close_and_wait_failures_witness :
  callable (faulty_world [NoFault; NoFault; NoFault; NoFault;
                          Fault; Fault; Fault; Fault]) = true /\
  exists (r1 w1 r2 w2 r3 w3 : Z) (reads : list syscall) (out' err' : Buf) w',
    let w := faulty_world [NoFault; NoFault; NoFault; NoFault;
                           Fault; Fault; Fault; Fault] in
    os_exec_process 9 "fail" [] 77 [] [] w = Returns (77, err', out') w' /\
    (buf_len (bytes "partial") <= buf_size -> out' = bytes "partial") /\
    (buf_len (bytes "oops") <= buf_size -> err' = bytes "oops") /\
    w_log w' = w_log w ++ [EPipe 0 r1 w1; EPipe 0 r2 w2; EPipe 0 r3 w3;
                           EFork (w_next_pid w);
                           EClose r1 (-1); EClose w2 (-1); EClose w3 (-1);
                           EWaitpid (w_next_pid w) (-1) 77]
                 ++ reads /\
    w_fds w' !! r1 = None /\ w_fds w' !! w2 = None /\ w_fds w' !! w3 = None /\
    map c_pid (w_procs w') = [w_next_pid w].
Proof.
  split; [reflexivity|].
  apply (os_exec_process_ignores_close_and_wait_failures 9 "fail" [] 77 [] []
           (faulty_world [NoFault; NoFault; NoFault; NoFault;
                          Fault; Fault; Fault; Fault])
           (mkProgram [Put STDOUT_FILENO (bytes "partial");
                       Put STDERR_FILENO (bytes "oops")] (Exited 3))
           Fault Fault Fault Fault);
    [reflexivity | reflexivity | reflexivity | reflexivity
    | by_leb | by_leb | by_ltb | by_ltb].
Defined.

(** X15.  The standard descriptors of the caller play no role: [pipe]
    hands out the lowest free descriptors, so that the six pipe
    descriptors come out in increasing order and no [dup2] of the child
    overwrites a pipe end that is still to be duplicated.  The call
    returns the child's status and output also when some of the
    descriptors 0, 1 and 2, or all of them, are closed in the caller. *)
Theorem os_exec_process_needs_no_standard_descriptors
    (fuel : nat) (exe : string) (args : list string) (rc : Z) (e0 o0 : Buf)
    (w : world) (p : program) :
  callable w = true -> w_plan w = [] ->
  w_programs w exe (make_argv exe args) = Some p ->
  plain (prog_script p) = true ->
  let out := writes_to STDOUT_FILENO (prog_script p) in
  let err := writes_to STDERR_FILENO (prog_script p) in
  (length out <= w_pipe_cap w)%nat -> (length err <= w_pipe_cap w)%nat ->
  (length out < fuel)%nat -> (length err < fuel)%nat ->
  buf_len out <= buf_size -> buf_len err <= buf_size ->
  exists (r1 w1 r2 w2 r3 w3 : Z) (w' : world),
    (0 <= r1 < w1 /\ w1 < r2 < w2 /\ w2 < r3 < w3) /\
    os_exec_process fuel exe args rc e0 o0 w
    = Returns (wait_status (prog_term p), err, out) w' /\
    w_fds w' = <[r3 := FPipe (S (S (length (w_pipes w)))) ReadEnd]>
                 (<[r2 := FPipe (S (length (w_pipes w))) ReadEnd]>
                    (<[w1 := FPipe (length (w_pipes w)) WriteEnd]> (w_fds w))).
Proof.
  intros Hcall Hplan Hprog Hplain out err Hout Herr Hfo Hfe Hso Hse.
  destruct (os_exec_process_outcome fuel exe args rc e0 o0 w p)
    as (r1 & w1 & r2 & w2 & r3 & w3 & out' & err' & ro & re & H); try done.
  { intros k _. by rewrite plan_at_nil. }
  { rewrite Hplan. simpl. lia. }
  cbv zeta in H. rewrite !plan_at_nil in H by done. cbn [is_fault] in H.
  destruct H as (_ & _ & _ & _ & _ & _ & _ & Hord & Hrun & _ & _ & Ho & He & _).
  rewrite (Ho Hso), (He Hse) in Hrun.
  eexists r1, w1, r2, w2, r3, w3, _. split; [done|]. split; [exact Hrun|]. done.
Qed.

Lemma os_exec_process_needs_no_standard_descriptors_witness :
  callable bare_world = true /\ w_fds bare_world = ∅ /\
  exists (r1 w1 r2 w2 r3 w3 : Z) (w' : world),
    (0 <= r1 < w1 /\ w1 < r2 < w2 /\ w2 < r3 < w3) /\
    os_exec_process 9 "fail" [] 0 [] [] bare_world
    = Returns (wait_status (Exited 3), bytes "oops", bytes "partial") w' /\
    w_fds w' = <[r3 := FPipe (S (S (length (w_pipes bare_world)))) ReadEnd]>
                 (<[r2 := FPipe (S (length (w_pipes bare_world))) ReadEnd]>
                    (<[w1 := FPipe (length (w_pipes bare_world)) WriteEnd]>
                       (w_fds bare_world))).
Proof.
  split; [reflexivity|]. split; [reflexivity|].
  apply (os_exec_process_needs_no_standard_descriptors 9 "fail" [] 0 [] []
           bare_world
           (mkProgram [Put STDOUT_FILENO (bytes "partial");
                       Put STDERR_FILENO (bytes "oops")] (Exited 3)));
    [reflexivity | reflexivity | reflexivity | reflexivity
    | by_leb | by_leb | by_ltb | by_ltb
    | vm_compute; discriminate | vm_compute; discriminate].
Defined.

(** A child whose program stays forever never finishes its script. *)
Lemma child_run_hang (cfds : gmap Z fobj) (cap : nat) (script : list act) :
  In Hang script ->
  forall pipes, (child_run cfds cap script pipes).1 <> [].
Proof.
  induction script as [|[fd bs|] script IH]; intros Hin pipes.
  - destruct Hin.
  - destruct Hin as [Hin|Hin]; [discriminate|]. simpl.
    destruct (cfds !! fd) as [[id [|]|path pos|]|]; try by apply IH.
    destruct (pipes !! id) as [q|]; [|by apply IH].
    destruct (length bs <=? cap - length q)%nat; [by apply IH | done].
  - done.
Qed.

(** X16.  There is no timeout: when the program never terminates,
    [os_exec_process] stays in [waitpid] forever, after its three
    [close], with the child alive. *)
Theorem os_exec_process_waits_forever (fuel : nat) (exe : string)
    (args : list string) (rc : Z) (e0 o0 : Buf) (w : world) (p : program) :
  ready w = true ->
  w_programs w exe (make_argv exe args) = Some p ->
  In Hang (prog_script p) ->
  exists (r1 w1 r2 w2 r3 w3 : Z) (w' : world),
    os_exec_process fuel exe args rc e0 o0 w = Blocks w' /\
    w_log w' = w_log w ++ [EPipe 0 r1 w1; EPipe 0 r2 w2; EPipe 0 r3 w3;
                           EFork (w_next_pid w);
                           EClose r1 0; EClose w2 0; EClose w3 0] /\
    (exists ch, w_procs w' = [ch] /\ c_pid ch = w_next_pid w /\ c_live ch = true).
Proof.
  intros Hready Hprog Hhang.
  destruct (ready_spec w Hready) as (_ & _ & _ & _ & _ & Hprocs & Hplan & _).
  assert (Hw : set_plan [] w = w) by (rewrite <- Hplan; apply set_plan_same).
  destruct (os_exec_process_trace fuel exe args rc e0 o0 w p)
    as (r1 & w1 & r2 & w2 & r3 & w3 & cfds & H); try done.
  { apply ready_callable. by rewrite Hw. }
  { intros k _. by rewrite plan_at_nil. }
  cbv zeta in H. destruct H as (_ & _ & _ & _ & _ & _ & _ & _ & _ & Hrun).
  pose proof (child_run_hang cfds (w_pipe_cap w) (prog_script p) Hhang
                (w_pipes w ++ [[]; []; []])) as Hstuck.
  destruct (child_run cfds (w_pipe_cap w) (prog_script p)
              (w_pipes w ++ [[]; []; []])) as [[|a todo] pipes']; [done|].
  cbn [fst snd] in Hrun.
  exists r1, w1, r2, w2, r3, w3. eexists.
  rewrite Hrun. unfold bind at 1. unfold sys_waitpid, next_fault. wsimpl.
  rewrite Hplan. cbn [drop hd tl is_fault find_child c_pid c_live].
  rewrite Z.eqb_refl. split; [reflexivity|]. wsimpl.
  rewrite !plan_at_nil by done. split; [done|]. by eexists.
Qed.

Lemma os_exec_process_waits_forever_witness :
  ready (boot userland_with_sleep pipe_capacity zeros) = true /\
  In Hang [Put STDOUT_FILENO (bytes "zz"); Hang] /\
  exists (r1 w1 r2 w2 r3 w3 : Z) (w' : world),
    let w := boot userland_with_sleep pipe_capacity zeros in
    os_exec_process 9 "sleep" [] 0 [] [] w = Blocks w' /\
    w_log w' = w_log w ++ [EPipe 0 r1 w1; EPipe 0 r2 w2; EPipe 0 r3 w3;
                           EFork (w_next_pid w);
                           EClose r1 0; EClose w2 0; EClose w3 0] /\
    (exists ch, w_procs w' = [ch] /\ c_pid ch = w_next_pid w /\ c_live ch = true).
Proof.
  assert (H : In Hang [Put STDOUT_FILENO (bytes "zz"); Hang])
    by (right; left; reflexivity).
  split; [reflexivity|]. split; [exact H|].
  exact (os_exec_process_waits_forever 9 "sleep" [] 0 [] []
           (boot userland_with_sleep pipe_capacity zeros)
           (mkProgram [Put STDOUT_FILENO (bytes "zz"); Hang] (Exited 0))
           eq_refl eq_refl H).
Defined.

(** ** More on [os_write_file] *)

Lemma c_str_bytes_nul (p rest : Buf) :
  ~ In x00 p -> c_str_bytes (p ++ x00 :: rest) = c_str_bytes p.
Proof.
  induction p as [|c p IH]; intros Hno; [reflexivity|]. simpl.
  destruct (Byte.eqb c x00) eqn:E; [reflexivity|].
  f_equal. apply IH. intros Hin. apply Hno. by right.
Qed.

(** X17.  The path that [os_write_file] opens ends at the first NUL
    byte of [full_path]: the bytes after it play no role. *)
Theorem os_write_file_path_ends_at_nul (p rest contents : Buf) (w : world) :
  ~ In x00 p ->
  os_write_file (p ++ x00 :: rest) contents w = os_write_file p contents w.
Proof.
  intros Hno. unfold os_write_file, c_str. by rewrite c_str_bytes_nul.
Qed.

Lemma os_write_file_path_ends_at_nul_witness :
  ~ In x00 (bytes "a.o") /\
  os_write_file (bytes "a.o" ++ x00 :: bytes ".tmp") (bytes "data") world0
  = os_write_file (bytes "a.o") (bytes "data") world0.
Proof.
  assert (H : ~ In x00 (bytes "a.o")).
  { vm_compute. intros [H|[H|[H|H]]]; [discriminate.. | done]. }
  split; [exact H|].
  exact (os_write_file_path_ends_at_nul (bytes "a.o") (bytes ".tmp")
           (bytes "data") world0 H).
Defined.

(** What [os_write_file] leaves behind, by the faults that await its
    three system calls. *)
Lemma os_write_file_outcomes (full_path contents : Buf) (w : world) :
  let path := c_str full_path in
  let mode := mode_after_open path S_IRWXU w in
  exists fd : Z,
    0 <= fd /\ w_fds w !! fd = None /\
    if is_fault (plan_at 0 w) then
      exists w', os_write_file full_path contents w = Panics "open failed" w' /\
        w_fds w' = w_fds w /\ w_files w' = w_files w
    else if negb (accepts (plan_at 1 w) contents) then
      exists w' (k : nat) (n : Z),
        os_write_file full_path contents w = Panics "write failed: %s" w' /\
        n <> buf_len contents /\
        w_log w' = w_log w ++ [EOpen path write_flags S_IRWXU fd;
                               EWrite fd contents n] /\
        w_fds w' = <[fd := FFile path k]> (w_fds w) /\
        w_files w' = <[path := mkFile mode (take k contents)]> (w_files w)
    else if is_fault (plan_at 2 w) then
      exists w', os_write_file full_path contents w = Panics "close failed" w' /\
        w_fds w' = w_fds w /\
        w_files w' = <[path := mkFile mode contents]> (w_files w)
    else
      exists w', os_write_file full_path contents w = Returns tt w' /\
        w_plan w' = tl (tl (tl (w_plan w))) /\
        w_fds w' = w_fds w /\
        w_files w' = <[path := mkFile mode contents]> (w_files w) /\
        w_umask w' = w_umask w.
Proof.
  intros path mode. destruct (alloc_fd_fresh (w_fds w)) as (fd & Hfd & Hfree & Hpos).
  exists fd. split; [done|]. split; [done|].
  assert (Hlen : 0 <= buf_len contents) by (unfold buf_len; lia).
  assert (Hfdne : (fd =? -1) = false) by (apply Z.eqb_neq; lia).
  remember (os_write_file full_path contents w) as o eqn:Ho.
  unfold os_write_file in Ho. fold path in Ho.
  unfold bind at 1 in Ho. rewrite sys_open_create in Ho. cbv zeta in Ho.
  fold mode in Ho.
  destruct (is_fault (plan_at 0 w)) eqn:F1.
  { cbn [Z.eqb] in Ho. subst o. eexists. split; [reflexivity|]. done. }
  rewrite Hfd, Hfdne in Ho.
  unfold bind at 1 in Ho.
  erewrite sys_write_file in Ho;
    [| wsimpl; apply lookup_insert_eq | wsimpl; apply lookup_insert_eq ].
  cbv zeta in Ho. plan_step Ho nth_tl.
  destruct (is_fault (plan_at 1 w)) eqn:F2.
  { destruct (plan_at 1 w); try discriminate. simpl negb. cbv iota.
    replace (-1 =? buf_len contents) with false in Ho
      by (symmetry; apply Z.eqb_neq; lia).
    cbn [negb] in Ho. subst o. eexists _, 0%nat, (-1). split; [reflexivity|].
    split; [lia|]. wsimpl. split; [by rewrite <- app_assoc|]. done. }
  pose proof (accepts_chunk (plan_at 1 w) contents F2) as Hchunk. cbv zeta in Hchunk.
  destruct (accepts (plan_at 1 w) contents) eqn:A2; cbn [negb].
  2:{ destruct (plan_at 1 w) as [| |n] eqn:Hp; try discriminate.
      simpl in A2. apply Nat.leb_gt in A2.
      apply Z.eqb_neq in Hchunk. rewrite Hchunk in Ho. cbn [negb] in Ho. subst o.
      eexists _, n, _. split; [reflexivity|]. split; [by apply Z.eqb_neq|].
      wsimpl. split; [by rewrite <- app_assoc|].
      rewrite !insert_insert_eq. cbn [f_mode f_data].
      rewrite length_take. replace (n `min` length contents)%nat with n by lia.
      rewrite drop_nil, app_nil_r. done. }
  rewrite Hchunk in Ho. rewrite Z.eqb_refl in Ho. cbn [negb] in Ho.
  unfold bind at 1 in Ho.
  erewrite sys_close_open in Ho; [| wsimpl; apply lookup_insert_eq ].
  cbv zeta in Ho. plan_step Ho nth_tl.
  assert (Hfds : delete fd (<[fd:=FFile path (0 + length contents)]>
                              (<[fd:=FFile path 0]> (w_fds w))) = w_fds w).
  { rewrite delete_insert_eq, delete_insert_eq. by apply delete_id. }
  destruct (is_fault (plan_at 2 w)) eqn:F3; cbn [Z.eqb] in Ho; subst o.
  { eexists. split; [reflexivity|]. wsimpl. split; [done|].
    rewrite insert_insert_eq. cbn [f_mode f_data].
    by rewrite drop_nil, app_nil_r. }
  eexists. split; [reflexivity|]. wsimpl.
  split; [done|]. split; [done|]. split; [|done].
  rewrite insert_insert_eq. cbn [f_mode f_data].
  by rewrite drop_nil, app_nil_r.
Qed.

(** X18.  What a failed [os_write_file] leaves behind.  After "open
    failed" nothing has changed.  After "write failed" there was exactly
    one [write] (no retry): the file exists, its former contents are
    gone, it holds the first k bytes of [contents] for the k bytes that
    were accepted, and the descriptor is still open.  After "close
    failed" the file holds all of [contents] and the descriptor table is
    as before. *)
Theorem os_write_file_failure_leaves (full_path contents : Buf) (w : world) :
  let path := c_str full_path in
  match os_write_file full_path contents w with
  | Panics msg w' =>
      (msg = "open failed"%string /\
       w_files w' = w_files w /\ w_fds w' = w_fds w) \/
      (msg = "write failed: %s"%string /\
       exists (fd : Z) (k : nat) (n : Z),
         w_fds w !! fd = None /\ w_fds w' !! fd = Some (FFile path k) /\
         f_data <$> w_files w' !! path = Some (take k contents) /\
         n <> buf_len contents /\
         w_log w' = w_log w ++ [EOpen path write_flags S_IRWXU fd;
                                EWrite fd contents n]) \/
      (msg = "close failed"%string /\
       f_data <$> w_files w' !! path = Some contents /\ w_fds w' = w_fds w)
  | _ => True
  end.
Proof.
  intros path.
  destruct (os_write_file_outcomes full_path contents w) as (fd & _ & Hfree & H).
  fold path in H.
  destruct (is_fault (plan_at 0 w)).
  { destruct H as (w' & -> & Hfds & Hfiles). left. done. }
  destruct (negb (accepts (plan_at 1 w) contents)).
  { destruct H as (w' & k & n & -> & Hn & Hlog & Hfds & Hfiles).
    right; left. split; [done|]. exists fd, k, n.
    rewrite Hfds, Hfiles, !lookup_insert_eq. done. }
  destruct (is_fault (plan_at 2 w)).
  - destruct H as (w' & -> & Hfds & Hfiles). right; right.
    rewrite Hfiles, lookup_insert_eq. done.
  - by destruct H as (w' & -> & _).
Qed.

(** X19.  Two calls in a row: both return, the descriptor table ends as
    it began, the file named by the second call holds the second
    contents (the last write wins, also when it is shorter), a different
    file named by the first call keeps the first contents, and no other
    file is touched. *)
Theorem os_write_file_twice (p1 c1 p2 c2 : Buf) (w : world) :
  w_plan w = [] ->
  exists w',
    (do _ <- os_write_file p1 c1; os_write_file p2 c2) w = Returns tt w' /\
    w_fds w' = w_fds w /\
    f_data <$> w_files w' !! c_str p2 = Some c2 /\
    (c_str p1 <> c_str p2 -> f_data <$> w_files w' !! c_str p1 = Some c1) /\
    (forall other, other <> c_str p1 -> other <> c_str p2 ->
                   w_files w' !! other = w_files w !! other).
Proof.
  intros Hplan.
  assert (Hnf : forall k w0, w_plan w0 = [] -> plan_at k w0 = NoFault).
  { intros k w0 H0. unfold plan_at. rewrite H0. by destruct k. }
  destruct (os_write_file_outcomes p1 c1 w) as (fd1 & _ & _ & H1).
  rewrite !Hnf in H1 by done. cbn [is_fault accepts negb] in H1.
  destruct H1 as (w1 & Hrun1 & Hplan1 & Hfds1 & Hfiles1 & _).
  rewrite Hplan in Hplan1. cbn [tl] in Hplan1.
  destruct (os_write_file_outcomes p2 c2 w1) as (fd2 & _ & _ & H2).
  rewrite !Hnf in H2 by done. cbn [is_fault accepts negb] in H2.
  destruct H2 as (w2 & Hrun2 & _ & Hfds2 & Hfiles2 & _).
  exists w2. split; [by rewrite (bind_returns _ _ _ _ _ Hrun1)|].
  split; [congruence|]. rewrite Hfiles2, Hfiles1.
  split; [by rewrite lookup_insert_eq|]. split.
  - intros Hne. by rewrite lookup_insert_ne, lookup_insert_eq.
  - intros other Hn1 Hn2. by rewrite !lookup_insert_ne.
Qed.

Lemma os_write_file_twice_witness :
  w_plan world0 = [] /\
  exists w',
    (do _ <- os_write_file (bytes "a.o") (bytes "first, longer");
     os_write_file (bytes "a.o") (bytes "second")) world0 = Returns tt w' /\
    w_fds w' = w_fds world0 /\
    f_data <$> w_files w' !! c_str (bytes "a.o") = Some (bytes "second") /\
    (c_str (bytes "a.o") <> c_str (bytes "a.o") ->
     f_data <$> w_files w' !! c_str (bytes "a.o") = Some (bytes "first, longer")) /\
    (forall other, other <> c_str (bytes "a.o") -> other <> c_str (bytes "a.o") ->
                   w_files w' !! other = w_files world0 !! other).
Proof.
  split; [reflexivity|].
  exact (os_write_file_twice (bytes "a.o") (bytes "first, longer")
           (bytes "a.o") (bytes "second") world0 eq_refl).
Defined.
